(** * Dmitry-dev-pet/meta2 : data-importer

    A shallow embedding of the field normalizers
    ([data_importer/utils/validation.py]), of the row pipeline
    ([data_importer/services/data_processor.py]) and of the linking and
    persistence stage ([data_importer/services/import_service.py]),
    followed by the properties established about them.

    Python [str] values are sequences of Unicode code points, embedded as
    [list N]; [Optional[T]] is [option T]; IEEE binary64 values are
    [spec_float] at precision 53; the SQLAlchemy session is a state and
    error monad over the transaction's view of the store. *)

From Stdlib Require Import String Ascii.
From Stdlib Require Import List NArith ZArith Bool Lia.
From Stdlib Require Import SpecFloat.
Import ListNotations.

Set Implicit Arguments.

(* ===================================================================== *)
(** ** Python strings *)
(* ===================================================================== *)

Module PyStr.

(** A Python [str]: a sequence of code points. *)
Definition pystr := list N.

(** UTF-8 decoding of a source literal, so that literals read as they do in
    the Python files. [need] continuation bytes are still expected and [acc]
    holds the bits gathered so far. *)
Fixpoint utf8_go (need : nat) (acc : N) (bs : list N) : pystr :=
  match bs with
  | [] => []
  | b :: t =>
      match need with
      | O =>
          if (b <? 128)%N then b :: utf8_go 0 0 t
          else if (b <? 224)%N then utf8_go 1 (b - 192) t
          else if (b <? 240)%N then utf8_go 2 (b - 224) t
          else utf8_go 3 (b - 240) t
      | S O => (acc * 64 + (b - 128))%N :: utf8_go 0 0 t
      | S k => utf8_go k (acc * 64 + (b - 128)) t
      end
  end.

Definition str (s : string) : pystr :=
  utf8_go 0 0 (map N_of_ascii (list_ascii_of_string s)).

Definition eqb (a b : pystr) : bool :=
  if list_eq_dec N.eq_dec a b then true else false.

(** Truthiness of a [str]: [if s] holds for the non-empty ones. *)
Definition truthy (s : pystr) : bool :=
  match s with [] => false | _ => true end.

Definition mem (c : N) (chars : pystr) : bool := existsb (N.eqb c) chars.

(** [str.isspace] on one code point (the set CPython uses for [strip] and
    [split]). *)
Definition is_space (c : N) : bool :=
  ((9 <=? c) && (c <=? 13) || (28 <=? c) && (c <=? 32)
   || (c =? 133) || (c =? 160) || (c =? 5760)
   || (8192 <=? c) && (c <=? 8202)
   || (c =? 8232) || (c =? 8233) || (c =? 8239) || (c =? 8287)
   || (c =? 12288))%N.

Fixpoint lstrip_by (p : N -> bool) (s : pystr) : pystr :=
  match s with
  | [] => []
  | c :: t => if p c then lstrip_by p t else s
  end.

Definition rstrip_by (p : N -> bool) (s : pystr) : pystr :=
  rev (lstrip_by p (rev s)).

(** [s.strip()] *)
Definition strip (s : pystr) : pystr := rstrip_by is_space (lstrip_by is_space s).

(** [s.lstrip(chars)] and [s.rstrip(chars)]: [chars] is a SET of characters,
    every leading (trailing) character that belongs to it is removed. *)
Definition lstrip_chars (chars s : pystr) : pystr :=
  lstrip_by (fun c => mem c chars) s.
Definition rstrip_chars (chars s : pystr) : pystr :=
  rstrip_by (fun c => mem c chars) s.

(** [str.lower] on one code point. The case table covers ASCII, Latin-1,
    the Cyrillic block and the two letter-like signs that lower-case into
    those blocks; other code points are left as they are. *)
Definition lower_cp (c : N) : N :=
  (if (65 <=? c) && (c <=? 90) then c + 32
   else if (192 <=? c) && (c <=? 222) && negb (c =? 215) then c + 32
   else if (1024 <=? c) && (c <=? 1039) then c + 80
   else if (1040 <=? c) && (c <=? 1071) then c + 32
   else if c =? 8490 then 107
   else if c =? 8491 then 229
   else c)%N.

Definition lower (s : pystr) : pystr := map lower_cp s.

(** [s.startswith(p)] *)
Fixpoint startswith (p s : pystr) : bool :=
  match p, s with
  | [], _ => true
  | _ :: _, [] => false
  | a :: p', b :: s' => (a =? b)%N && startswith p' s'
  end.

(** [sub in s] *)
Fixpoint contains (sub s : pystr) : bool :=
  startswith sub s ||
  match s with
  | [] => false
  | _ :: t => contains sub t
  end.

(** [s.split(sep)] for a non-empty [sep]: left to right, occurrences do not
    overlap. [skip] characters of a separator just matched are still to be
    passed over; [cur] is the piece being read, reversed. *)
Fixpoint split_go (sep : pystr) (skip : nat) (cur : pystr) (s : pystr)
  : list pystr :=
  match s with
  | [] => [rev cur]
  | c :: t =>
      match skip with
      | S k => split_go sep k cur t
      | O =>
          if startswith sep s
          then rev cur :: split_go sep (length sep - 1) [] t
          else split_go sep 0 (c :: cur) t
      end
  end.

Definition split (sep s : pystr) : list pystr := split_go sep 0 [] s.

(** [s.split()]: pieces between runs of whitespace, none of them empty. *)
Fixpoint split_ws_go (cur : pystr) (s : pystr) : list pystr :=
  match s with
  | [] => match cur with [] => [] | _ => [rev cur] end
  | c :: t =>
      if is_space c
      then match cur with
           | [] => split_ws_go [] t
           | _ => rev cur :: split_ws_go [] t
           end
      else split_ws_go (c :: cur) t
  end.

Definition split_ws (s : pystr) : list pystr := split_ws_go [] s.

(** [s.replace(old, new)] for a non-empty [old]. *)
Fixpoint replace_go (old new : pystr) (skip : nat) (s : pystr) : pystr :=
  match s with
  | [] => []
  | c :: t =>
      match skip with
      | S k => replace_go old new k t
      | O =>
          if startswith old s
          then new ++ replace_go old new (length old - 1) t
          else c :: replace_go old new 0 t
      end
  end.

Definition replace (old new s : pystr) : pystr := replace_go old new 0 s.

(** [parts[-1]], [parts[0]] and [parts[i]] on a list known to be long
    enough. *)
Definition last_part (parts : list pystr) : pystr := last parts [].
Definition first_part (parts : list pystr) : pystr := hd [] parts.
Definition part (i : nat) (parts : list pystr) : pystr := nth i parts [].

End PyStr.

Import PyStr.

(* ===================================================================== *)
(** ** utils/validation.py *)
(* ===================================================================== *)

Module Validation.

(** The character class [[a-zA-Z0-9_]]. *)
Definition handle_char (c : N) : bool :=
  ((97 <=? c) && (c <=? 122) || (65 <=? c) && (c <=? 90)
   || (48 <=? c) && (c <=? 57) || (c =? 95))%N.

(** [re.match(r"^[a-zA-Z0-9_]+$", s)]: without [re.MULTILINE], [$] matches
    at the end of the string and also just before a newline that ends it. *)
Definition re_match_handle (s : pystr) : bool :=
  let body :=
    match rev s with
    | 10%N :: b => [rev b; s]
    | _ => [s]
    end in
  existsb (fun b => truthy b && forallb handle_char b) body.

Definition normalize_telegram_username (username : pystr) : option pystr :=
  if negb (truthy username) then None
  else
    let normalized := lower (lstrip_chars (str "@") (strip username)) in
    if negb (re_match_handle normalized) then None
    else Some normalized.

Definition github_prefix : pystr := str "https://github.com/".

(** [f"https://github.com/{username}" if username else None] on the owner
    of a Gist URL. *)
Definition gist_owner_url (gist_parts : list pystr) : option pystr :=
  let username := first_part (split (str "/") (part 1 gist_parts)) in
  if truthy username then Some (github_prefix ++ username) else None.

Definition normalize_github_url (url : pystr) : option pystr :=
  if negb (truthy url) then None
  else
    let url := strip url in
    let formats : option pystr :=
      if startswith (str "https://github.com/") url then Some url
      else if startswith (str "http://github.com/") url
      then Some (replace (str "http://") (str "https://") url)
      else if startswith (str "github.com/") url
      then Some (str "https://" ++ url)
      else if startswith (str "https://gist.github.com/") url
      then
        let gist_parts := split (str "gist.github.com/") url in
        if (1 <? length gist_parts)%nat then gist_owner_url gist_parts
        else None
      else if contains (str "/") url && negb (startswith (str "http") url)
      then Some (github_prefix ++ url)
      else Some (github_prefix ++ url) in
    if contains (str "https://github.com/https://") url
    then
      let parts := split (str "https://github.com/https://") url in
      if (1 <? length parts)%nat
      then
        if contains (str "gist.github.com") (part 1 parts)
        then
          let gist_parts := split (str "gist.github.com/") (part 1 parts) in
          if (1 <? length gist_parts)%nat then gist_owner_url gist_parts
          else formats
        else if startswith (str "github.com/") (part 1 parts)
        then Some (str "https://" ++ part 1 parts)
        else formats
      else formats
    else formats.

Definition normalize_github_url_canonical (url : pystr) : option pystr :=
  if negb (truthy url) then None
  else
    let url := strip url in
    let url :=
      if contains (str "https://github.com/https://") url
      then
        let parts := split (str "https://github.com/https://") url in
        if (1 <? length parts)%nat then part 1 parts else url
      else url in
    let path :=
      if contains (str "github.com") url
      then
        let path := last_part (split (str "github.com/") url) in
        let path :=
          if startswith (str "https://") path then skipn 8 path
          else if startswith (str "http://") path then skipn 7 path
          else path in
        if startswith (str "www.") path then skipn 4 path else path
      else url in
    let path := rstrip_chars (str ".git") path in
    let path := rstrip_chars (str "/") path in
    let path :=
      if contains (str "#") path then first_part (split (str "#") path)
      else path in
    let path :=
      if contains (str "?") path then first_part (split (str "?") path)
      else path in
    if negb (truthy path) || negb (contains (str "/") path) then None
    else
      let parts := split (str "/") path in
      if (length parts <? 2)%nat || negb (truthy (part 0 parts))
         || negb (truthy (part 1 parts))
      then None
      else Some (github_prefix ++ part 0 parts ++ str "/" ++ part 1 parts).

Definition is_digit (c : N) : bool := ((48 <=? c) && (c <=? 57))%N.

(** The digit zero of every script that has decimal digits (the code
    points of category Nd, Unicode 14.0); its nine other digits follow it
    in order. *)
Definition decimal_zeros : list N :=
  [
    48; 1632; 1776; 1984; 2406; 2534; 2662; 2790;
    2918; 3046; 3174; 3302; 3430; 3558; 3664; 3792;
    3872; 4160; 4240; 6112; 6160; 6470; 6608; 6784;
    6800; 6992; 7088; 7232; 7248; 42528; 43216; 43264;
    43472; 43504; 43600; 44016; 65296; 66720; 68912; 69734;
    69872; 69942; 70096; 70384; 70736; 70864; 71248; 71360;
    71472; 71904; 72016; 72784; 73040; 73120; 92768; 92864;
    93008; 120782; 120792; 120802; 120812; 120822; 123200; 123632;
    125264; 130032 ]%N.

(** [Py_UNICODE_TODECIMAL]: the value of a decimal digit. *)
Definition to_decimal (c : N) : option N :=
  option_map (fun z => c - z)%N
    (find (fun z => (z <=? c) && (c <? z + 10))%N decimal_zeros).

(** [Py_ISSPACE]: the blanks of the C locale. *)
Definition ascii_space (c : N) : bool :=
  ((9 <=? c) && (c <=? 13) || (c =? 32))%N.

(** What [int()] and [float()] do to a [str] before they read it
    ([_PyUnicode_TransformDecimalAndSpaceToASCII]): a code point below 127
    stays, any other blank becomes a space and any other decimal digit its
    ASCII digit; the first code point that is none of these becomes [?] and
    ends the text. *)
Fixpoint to_ascii_decimal (s : pystr) : pystr :=
  match s with
  | [] => []
  | c :: t =>
      if (c <? 127)%N then c :: to_ascii_decimal t
      else if is_space c then 32%N :: to_ascii_decimal t
      else
        match to_decimal c with
        | Some d => (48 + d)%N :: to_ascii_decimal t
        | None => [63%N]
        end
  end.

Fixpoint digits_value (acc : N) (ds : pystr) : N :=
  match ds with
  | [] => acc
  | d :: t => digits_value (acc * 10 + (d - 48)) t
  end.

(** The digits of an [int] literal: single underscores may separate them.
    [prev_us] tells that the character just read was an underscore;
    [count] is the number of digits read. The result is the value and the
    number of digits. *)
Fixpoint int_body (prev_us : bool) (count : nat) (acc : N) (s : pystr)
  : option (N * nat) :=
  match s with
  | [] => if prev_us then None else Some (acc, count)
  | c :: t =>
      if is_digit c then int_body false (S count) (acc * 10 + (c - 48)) t
      else if (c =? 95)%N && negb prev_us then int_body true count acc t
      else None
  end.

(** [sys.int_info.default_max_str_digits]: a literal of more digits is
    refused with a [ValueError]. *)
Definition max_str_digits : nat := 4300.

(** [int(s)] in base ten, [None] standing for [ValueError]. *)
Definition py_int (s : pystr) : option Z :=
  let s := to_ascii_decimal s in
  let s := rstrip_by ascii_space (lstrip_by ascii_space s) in
  let '(neg, body) :=
    match s with
    | 45%N :: b => (true, b)
    | 43%N :: b => (false, b)
    | _ => (false, s)
    end in
  match body with
  | c :: _ =>
      if is_digit c
      then
        match int_body false 0 0 body with
        | Some (n, count) =>
            if (max_str_digits <? count)%nat then None
            else Some (if neg then (- Z.of_N n)%Z else Z.of_N n)
        | None => None
        end
      else None
  | [] => None
  end.

(** The exceptions that the calls of [parse_period] raise. *)
Inductive exn := ValueError | OverflowError.

(** [datetime.date] *)
Record date := Date { year : Z; month : Z; day : Z }.

(** [date(year, month, 1)] for a month of the table: a year that does not
    fit a C [int] raises [OverflowError], any other year outside
    [MINYEAR..MAXYEAR] raises [ValueError]. *)
Definition mk_date (y m : Z) : exn + date :=
  if ((y <? - 2 ^ 31) || (2 ^ 31 - 1 <? y))%Z then inl OverflowError
  else if ((1 <=? y) && (y <=? 9999))%Z then inr (Date y m 1)
  else inl ValueError.

Definition month_map : list (pystr * Z) :=
  [ (str "Январь", 1); (str "Февраль", 2); (str "Март", 3);
    (str "Апрель", 4); (str "Май", 5); (str "Июнь", 6);
    (str "Июль", 7); (str "Август", 8); (str "Сентябрь", 9);
    (str "Октябрь", 10); (str "Ноябрь", 11); (str "Декабрь", 12) ]%Z.

(** [d.get(k)] on a dictionary kept as an association list. *)
Fixpoint dict_get {V : Type} (d : list (pystr * V)) (k : pystr) : option V :=
  match d with
  | [] => None
  | (k', v) :: t => if PyStr.eqb k' k then Some v else dict_get t k
  end.

(** [parse_period]: what it returns, or the exception that leaves it. Its
    handler is [except (ValueError, IndexError)]: the [ValueError] of
    [int()] and of [date()] gives [None], the [OverflowError] of [date()]
    is not caught. *)
Definition parse_period (period_str : pystr) : exn + option date :=
  if negb (truthy period_str) then inr None
  else
    let parts := split_ws (strip (replace (str ",") [] period_str)) in
    if (2 <=? length parts)%nat
    then
      let month_name := part 0 parts in
      match py_int (part 1 parts) with
      | None => inr None
      | Some year =>
          match dict_get month_map month_name with
          | Some month =>
              match mk_date year month with
              | inr d => inr (Some d)
              | inl ValueError => inr None
              | inl OverflowError => inl OverflowError
              end
          | None => inr None
          end
      end
    else inr None.

(** A validator as [clean_and_validate] runs it, inside
    [try: ... except Exception]: an exception gives [None]. *)
Definition caught {A : Type} (r : exn + option A) : option A :=
  match r with
  | inr v => v
  | inl _ => None
  end.

(** [validate_row_length(row, expected_length)] *)
Definition validate_row_length (row : list pystr) (expected_length : nat)
  : bool :=
  match row with
  | [] => false
  | _ => negb (length row <? expected_length)%nat
  end.

Definition clean_string (value : pystr) : pystr :=
  if negb (truthy value) then [] else strip value.

(** What [clean_and_validate] hands to the validator of the field kept at
    [index]: the cell, trimmed, or [None] when the row is too short. *)
Definition raw_value (row : list pystr) (index : nat) : option pystr :=
  option_map clean_string (nth_error row index).

End Validation.

Import Validation.


(* ===================================================================== *)
(** ** Python floats *)
(* ===================================================================== *)

Module PyFloat.

(** A Python [float]: an IEEE binary64 value. *)
Definition float := spec_float.

Definition prec : Z := 53.
Definition emax : Z := 1024.

Definition zero : float := S754_zero false.

(** [float(n)] of an integer, rounded to nearest even. *)
Definition of_Z (n : Z) : float := binary_normalize prec emax n 0 false.

Definition add (x y : float) : float := SFadd prec emax x y.
Definition ltb (x y : float) : bool := SFltb x y.
Definition leb (x y : float) : bool := SFleb x y.

(** The literal [0.3]: the binary64 value nearest to three tenths. *)
Definition lit_0_3 : float := S754_finite false 5404319552844595 (-54).

(** [a / b] on two non-negative [int]s: the quotient rounded once; [None]
    stands for [ZeroDivisionError]. *)
Definition int_truediv (a b : nat) : option float :=
  match b with
  | O => None
  | S _ =>
      match a with
      | O => Some zero
      | S _ =>
          Some (SFdiv prec emax
                  (S754_finite false (Pos.of_nat a) 0)
                  (S754_finite false (Pos.of_nat b) 0))
      end
  end.

(** Whether [a / b] on two non-negative [int]s, [b] not zero, raises
    [OverflowError]: the quotient, rounded to nearest even, is beyond the
    largest float, that is at least [2^1024 - 2^970]. *)
Definition truediv_overflows (a b : nat) : bool :=
  (N.of_nat b * (2 ^ 1024 - 2 ^ 970) <=? N.of_nat a)%N.

(** The binary64 value nearest to [(-1)^neg * mant * 10^e10]. *)
Definition of_decimal (neg : bool) (mant : N) (e10 : Z) : float :=
  match mant with
  | N0 => S754_zero neg
  | Npos m =>
      if (0 <=? e10)%Z
      then binary_normalize prec emax
             ((if neg then Z.neg m else Z.pos m) * 10 ^ e10) 0 neg
      else SFdiv prec emax
             (S754_finite neg m 0)
             (S754_finite false (Z.to_pos (10 ^ (- e10))) 0)
  end.

(** An underscore is accepted only between two digits. [prev] is the
    character read before. *)
Fixpoint underscores_ok (prev : N) (s : pystr) : bool :=
  match s with
  | [] => negb (prev =? 95)%N
  | c :: t =>
      (if (c =? 95)%N then is_digit prev
       else negb (prev =? 95)%N || is_digit c)
      && underscores_ok c t
  end.

Fixpoint span_digits (s : pystr) : pystr * pystr :=
  match s with
  | c :: t =>
      if is_digit c
      then let '(ds, r) := span_digits t in (c :: ds, r)
      else ([], s)
  | [] => ([], [])
  end.

Definition take_sign (s : pystr) : bool * pystr :=
  match s with
  | 45%N :: b => (true, b)
  | 43%N :: b => (false, b)
  | _ => (false, s)
  end.

(** An unsigned decimal literal, digits with an optional point and an
    optional exponent, read to the end of the string: the mantissa and the
    power of ten. *)
Definition parse_decimal (s : pystr) : option (N * Z) :=
  let '(ip, r1) := span_digits s in
  let '(fp, r2) :=
    match r1 with
    | 46%N :: r => span_digits r
    | _ => ([], r1)
    end in
  if negb (truthy (ip ++ fp)) then None
  else
    let mant := digits_value 0 (ip ++ fp) in
    let k := Z.of_nat (length fp) in
    match r2 with
    | [] => Some (mant, (- k)%Z)
    | c :: r3 =>
        if ((c =? 101) || (c =? 69))%N
        then
          let '(eneg, r4) := take_sign r3 in
          let '(ed, r5) := span_digits r4 in
          if truthy ed && negb (truthy r5)
          then
            let e := Z.of_N (digits_value 0 ed) in
            Some (mant, ((if eneg then - e else e) - k)%Z)
          else None
        else None
    end.

(** [float(s)], [None] standing for [ValueError]: the text is made ASCII,
    trimmed, rid of its underscores when they stand between digits, and
    read as a decimal literal or as [inf], [infinity] or [nan] under a
    sign. *)
Definition py_float (s : pystr) : option float :=
  let s := to_ascii_decimal s in
  let s := rstrip_by ascii_space (lstrip_by ascii_space s) in
  if contains (str "_") s && negb (underscores_ok 0 s) then None
  else
    let s := filter (fun c => negb (c =? 95)%N) s in
    let '(neg, body) := take_sign s in
    match parse_decimal body with
    | Some (mant, e10) => Some (of_decimal neg mant e10)
    | None =>
        let word := lower body in
        if PyStr.eqb word (str "inf") || PyStr.eqb word (str "infinity")
        then Some (S754_infinity neg)
        else if PyStr.eqb word (str "nan") then Some S754_nan
        else None
    end.

End PyFloat.

(* ===================================================================== *)
(** ** services/data_processor.py *)
(* ===================================================================== *)

Module DataProcessor.

(** *** Projects *)

Record ProjectRecord := {
  pr_name : pystr;
  pr_language : pystr;
  pr_repository_url : pystr;
  pr_author_github_url : pystr;
  pr_submission_date : option date
}.

Record ProjectStats := {
  ps_total : nat;
  ps_imported : nat;
  ps_linking_errors : nat
}.

(** [lambda x: x.strip() if x else None] *)
Definition strip_or_none (x : option pystr) : option pystr :=
  match x with
  | Some v => if truthy v then Some (strip v) else None
  | None => None
  end.

(** [lambda x: x.strip() if x else ""] *)
Definition strip_or_empty (x : option pystr) : pystr :=
  match x with
  | Some v => if truthy v then strip v else []
  | None => []
  end.

(** A validator of [validation.py] on a cell that may be missing. *)
Definition on_cell {A : Type} (f : pystr -> option A) (x : option pystr)
  : option A :=
  match x with
  | Some v => f v
  | None => None
  end.

(** The variables of the loop of [_process_projects]. *)
Record ProjectLoop := {
  current_period : option date;
  processed_projects : list ProjectRecord
}.

(** [len(row) <= 2 or (len(row) > 1 and not row[1].strip())] *)
Definition is_period_header (row : list pystr) : bool :=
  (length row <=? 2)%nat
  || ((1 <? length row)%nat && negb (truthy (strip (part 1 row)))).

(** [parse_period(row[0]) if row and row[0] else None]; the call stands
    outside any [try], so what [parse_period] raises leaves the loop. *)
Definition header_period (row : list pystr) : exn + option date :=
  match row with
  | c :: _ => if truthy c then parse_period c else inr None
  | [] => inr None
  end.

(** The record of a data row, [None] when [_filter_project] turns it down:
    the name and the author's GitHub URL are both required. *)
Definition project_of_row (period : option date) (row : list pystr)
  : option ProjectRecord :=
  let name := strip_or_none (raw_value row 1) in
  let language := strip_or_empty (raw_value row 2) in
  let repository_url := strip_or_empty (raw_value row 4) in
  let author_github_url := on_cell normalize_github_url (raw_value row 6) in
  match name, author_github_url with
  | Some n, Some a =>
      if truthy n && truthy a
      then Some {| pr_name := n; pr_language := language;
                   pr_repository_url := repository_url;
                   pr_author_github_url := a;
                   pr_submission_date := period |}
      else None
  | _, _ => None
  end.

(** The records that one data row adds under the period in force: none
    when the row is too short or is filtered out. *)
Definition data_row_records (period : option date) (row : list pystr)
  : list ProjectRecord :=
  if validate_row_length row 8
  then match project_of_row period row with
       | Some r => [r]
       | None => []
       end
  else [].

(** One turn of the loop over the project rows, or the exception that
    ends it. *)
Definition project_row_step (st : ProjectLoop) (row : list pystr)
  : exn + ProjectLoop :=
  if is_period_header row
  then
    match header_period row with
    | inr period =>
        inr {| current_period := period;
               processed_projects := processed_projects st |}
    | inl e => inl e
    end
  else if negb (validate_row_length row 8) then inr st
  else
    match project_of_row (current_period st) row with
    | None => inr st
    | Some r =>
        inr {| current_period := current_period st;
               processed_projects := processed_projects st ++ [r] |}
    end.

(** [for row in projects_data: ...] *)
Fixpoint project_rows (st : ProjectLoop) (rows : list (list pystr))
  : exn + ProjectLoop :=
  match rows with
  | [] => inr st
  | row :: t =>
      match project_row_step st row with
      | inr st' => project_rows st' t
      | inl e => inl e
      end
  end.

(** [_process_projects]: the list it returns or the exception it raises,
    and the statistics as it leaves them: [total] is written before the
    loop, [imported] after it. *)
Definition _process_projects (stats : ProjectStats)
  (projects_data : list (list pystr))
  : (exn + list ProjectRecord) * ProjectStats :=
  match project_rows {| current_period := None; processed_projects := [] |}
          projects_data with
  | inr st =>
      (inr (processed_projects st),
       {| ps_total := length projects_data;
          ps_imported := length (processed_projects st);
          ps_linking_errors := ps_linking_errors stats |})
  | inl e =>
      (inl e,
       {| ps_total := length projects_data;
          ps_imported := ps_imported stats;
          ps_linking_errors := ps_linking_errors stats |})
  end.

(** The loop, from a given period and a given list. *)
Definition run_projects (cur : option date) (acc : list ProjectRecord)
  (rows : list (list pystr)) : exn + ProjectLoop :=
  project_rows {| current_period := cur; processed_projects := acc |} rows.

(** *** Sponsored reviews *)

Record SponsoredReviewRecord := {
  sr_period : option pystr;
  sr_mentor_identifier : pystr;
  sr_project_github_url : pystr;
  sr_project_name : pystr;
  sr_telegram_message_url : option pystr;
  sr_cost : PyFloat.float;
  sr_currency : pystr;
  sr_payment_status : pystr;
  sr_created_at : pystr
}.

Record SponsoredStats := {
  ss_total : nat;
  ss_imported : nat;
  ss_linking_errors : nat;
  ss_validation_errors : nat
}.

Definition header_keywords : list pystr :=
  [ str "период"; str "github"; str "telegram"; str "стоимость";
    str "ревью"; str "месяц" ].

(** [not cell.strip()] *)
Definition blank (cell : pystr) : bool := negb (truthy (strip cell)).

(** [not row or all(not cell.strip() for cell in row)] *)
Definition is_empty_row (row : list pystr) : bool :=
  match row with
  | [] => true
  | _ => forallb blank row
  end.

(** [len(row) >= 1 and any(keyword.lower() in str(row[0]).lower() ...)] *)
Definition is_header_row (row : list pystr) : bool :=
  (1 <=? length row)%nat
  && existsb (fun keyword => contains (lower keyword) (lower (part 0 row)))
             header_keywords.

(** [len(row) >= 1 and str(row[0]).strip()
     and all(not str(cell).strip() for cell in row[1:])] *)
Definition is_period_only_row (row : list pystr) : bool :=
  (1 <=? length row)%nat && truthy (strip (part 0 row))
  && forallb blank (tl row).

(** [str(c).strip() if c else None] *)
Definition cell_value (c : pystr) : option pystr :=
  if truthy c then Some (strip c) else None.

(** Truthiness of an optional string, as [all([...])] tests it. *)
Definition present (x : option pystr) : bool :=
  match x with
  | Some v => truthy v
  | None => false
  end.

(** The cost cell without currency signs and with a decimal point. *)
Definition cost_clean (cost_str : pystr) : pystr :=
  strip (replace (str ",") (str ".")
           (replace (str "₽") []
              (replace (str "€") []
                 (replace (str "$") [] cost_str)))).

(** [project_github_url.split("/")[-1].replace(".git", "")] *)
Definition project_name_of_url (project_github_url : pystr) : pystr :=
  if truthy project_github_url
  then replace (str ".git") [] (last_part (split (str "/") project_github_url))
  else str "unknown_project".

(** How the body of the loop of [_process_sponsored_reviews] leaves a row:
    passed over, counted as a validation error, or turned into a record.
    The cells are strings, so [float()] is the only call of the body that
    can raise, and its [ValueError] is caught on the spot. *)
Inductive outcome :=
| Skipped
| Rejected
| Accepted (r : SponsoredReviewRecord).

(** The rows that the loop passes over without counting them: blank rows,
    rows that look like column headers, rows that hold a period only. *)
Definition skipped (row : list pystr) : bool :=
  is_empty_row row || is_header_row row || is_period_only_row row.

(** The cost of a row as [float()] reads it. *)
Definition cost_of (row : list pystr) : option PyFloat.float :=
  PyFloat.py_float (cost_clean (strip (part 4 row))).

(** What a row that is not passed over must satisfy to become a record:
    five cells at least; mentor, project URL and cost not blank; the URL
    under [https://github.com/]; a cost that [float()] reads and that is
    not below zero. *)
Definition retained_conditions (row : list pystr) : bool :=
  (5 <=? length row)%nat
  && truthy (strip (part 3 row))
  && truthy (strip (part 1 row))
  && truthy (strip (part 4 row))
  && startswith (str "https://github.com/") (strip (part 1 row))
  && match cost_of row with
     | Some cost => negb (PyFloat.ltb cost PyFloat.zero)
     | None => false
     end.

(** The rows that become records and the rows that are counted as
    validation errors. *)
Definition accepted (row : list pystr) : bool :=
  negb (skipped row) && retained_conditions row.
Definition rejected (row : list pystr) : bool :=
  negb (skipped row) && negb (retained_conditions row).

Section Clock.

(** [datetime.utcnow().isoformat()]: the readings of the clock during one
    call, in the order in which they are taken. *)
Variable utcnow_isoformat : nat -> pystr.

(** The body of the loop on one row, when [readings] readings of the clock
    have been taken. *)
Definition sponsored_row (readings : nat) (row : list pystr) : outcome :=
  if is_empty_row row then Skipped
  else if is_header_row row then Skipped
  else if is_period_only_row row then Skipped
  else if (length row <? 5)%nat then Rejected
  else
    let period := cell_value (part 0 row) in
    let project_github_url := cell_value (part 1 row) in
    let telegram_message_url := cell_value (part 2 row) in
    let mentor_telegram := cell_value (part 3 row) in
    let cost_str := cell_value (part 4 row) in
    match mentor_telegram, project_github_url, cost_str with
    | Some mentor, Some url, Some cost_s =>
        if negb (truthy mentor && truthy url && truthy cost_s) then Rejected
        else if negb (startswith (str "https://github.com/") url)
        then Rejected
        else
          match PyFloat.py_float (cost_clean cost_s) with
          | None => Rejected
          | Some cost =>
              if PyFloat.ltb cost PyFloat.zero then Rejected
              else
                Accepted
                  {| sr_period := period;
                     sr_mentor_identifier := mentor;
                     sr_project_github_url := url;
                     sr_project_name := project_name_of_url url;
                     sr_telegram_message_url := telegram_message_url;
                     sr_cost := cost;
                     sr_currency := str "USD";
                     sr_payment_status := str "pending";
                     sr_created_at := utcnow_isoformat readings |}
          end
    | _, _, _ => Rejected
    end.

(** The record of a row that satisfies [retained_conditions]. *)
Definition record_of (readings : nat) (row : list pystr)
  : SponsoredReviewRecord :=
  {| sr_period := cell_value (part 0 row);
     sr_mentor_identifier := strip (part 3 row);
     sr_project_github_url := strip (part 1 row);
     sr_project_name := project_name_of_url (strip (part 1 row));
     sr_telegram_message_url := cell_value (part 2 row);
     sr_cost := match cost_of row with
                | Some cost => cost
                | None => PyFloat.zero
                end;
     sr_currency := str "USD";
     sr_payment_status := str "pending";
     sr_created_at := utcnow_isoformat readings |}.

(** The records of the rows [rows], the first of which takes the reading
    [readings]. *)
Fixpoint records_of (readings : nat) (rows : list (list pystr))
  : list SponsoredReviewRecord :=
  match rows with
  | [] => []
  | row :: t => record_of readings row :: records_of (S readings) t
  end.

(** One turn of the loop: the list being built and the statistics. The
    clock is read once for every record, so the readings taken are as many
    as the records. *)
Definition sponsored_row_step
  (st : list SponsoredReviewRecord * SponsoredStats) (row : list pystr)
  : list SponsoredReviewRecord * SponsoredStats :=
  let '(processed, stats) := st in
  match sponsored_row (length processed) row with
  | Skipped => st
  | Rejected =>
      (processed,
       {| ss_total := ss_total stats;
          ss_imported := ss_imported stats;
          ss_linking_errors := ss_linking_errors stats;
          ss_validation_errors := ss_validation_errors stats + 1 |})
  | Accepted r =>
      (processed ++ [r],
       {| ss_total := ss_total stats;
          ss_imported := ss_imported stats + 1;
          ss_linking_errors := ss_linking_errors stats;
          ss_validation_errors := ss_validation_errors stats |})
  end.

Definition _process_sponsored_reviews (stats : SponsoredStats)
  (sponsored_reviews_data : list (list pystr))
  : list SponsoredReviewRecord * SponsoredStats :=
  fold_left sponsored_row_step sponsored_reviews_data
    ([], {| ss_total := length sponsored_reviews_data;
            ss_imported := ss_imported stats;
            ss_linking_errors := ss_linking_errors stats;
            ss_validation_errors := ss_validation_errors stats |}).

End Clock.

End DataProcessor.

Import DataProcessor.

(* ===================================================================== *)
(** ** models/ : the rows of the store *)
(* ===================================================================== *)

Module Models.

Record User := {
  u_id : Z;
  u_telegram_user_id : option Z;
  u_telegram_username : option pystr;
  u_github_url : option pystr
}.

Record Role := {
  role_id : Z;
  role_name : pystr
}.

Record MentorProfile := {
  mp_user_id : Z;
  mp_full_name : option pystr;
  mp_languages : option pystr;
  mp_services : option pystr;
  mp_price_type : option pystr;
  mp_website_url : option pystr
}.

Record Project := {
  p_id : Z;
  p_name : pystr;
  p_language : option pystr;
  p_repository_url : option pystr;
  p_submission_date : option date;
  p_student_id : Z
}.

Record Review := {
  r_id : Z;
  r_period_date : option date;
  r_review_type : option pystr;
  r_review_url : option pystr;
  r_project_id : Z;
  r_mentor_id : Z
}.

(** The columns that the importer writes; the others keep their
    defaults. *)
Record SponsoredReview := {
  s_id : Z;
  s_review_id : option Z;
  s_project_id : Z;
  s_mentor_id : Z;
  s_cost : option PyFloat.float;
  s_currency : pystr;
  s_payment_status : pystr;
  s_payment_date : option pystr;
  s_notes : option pystr;
  s_telegram_message_url : option pystr
}.

(** The store. A table that does not exist is [None]. [users_roles] holds
    the pairs (user id, role id). *)
Record DB := {
  users : option (list User);
  users_roles : option (list (Z * Z));
  roles : option (list Role);
  mentor_profiles : option (list MentorProfile);
  projects : option (list Project);
  reviews : option (list Review);
  sponsored_reviews : option (list SponsoredReview)
}.

Definition set_users (v : option (list User)) (d : DB) : DB :=
  {| users := v; users_roles := users_roles d; roles := roles d;
     mentor_profiles := mentor_profiles d; projects := projects d;
     reviews := reviews d; sponsored_reviews := sponsored_reviews d |}.
Definition set_users_roles (v : option (list (Z * Z))) (d : DB) : DB :=
  {| users := users d; users_roles := v; roles := roles d;
     mentor_profiles := mentor_profiles d; projects := projects d;
     reviews := reviews d; sponsored_reviews := sponsored_reviews d |}.
Definition set_roles (v : option (list Role)) (d : DB) : DB :=
  {| users := users d; users_roles := users_roles d; roles := v;
     mentor_profiles := mentor_profiles d; projects := projects d;
     reviews := reviews d; sponsored_reviews := sponsored_reviews d |}.
Definition set_mentor_profiles (v : option (list MentorProfile)) (d : DB)
  : DB :=
  {| users := users d; users_roles := users_roles d; roles := roles d;
     mentor_profiles := v; projects := projects d;
     reviews := reviews d; sponsored_reviews := sponsored_reviews d |}.
Definition set_projects (v : option (list Project)) (d : DB) : DB :=
  {| users := users d; users_roles := users_roles d; roles := roles d;
     mentor_profiles := mentor_profiles d; projects := v;
     reviews := reviews d; sponsored_reviews := sponsored_reviews d |}.
Definition set_reviews (v : option (list Review)) (d : DB) : DB :=
  {| users := users d; users_roles := users_roles d; roles := roles d;
     mentor_profiles := mentor_profiles d; projects := projects d;
     reviews := v; sponsored_reviews := sponsored_reviews d |}.
Definition set_sponsored_reviews (v : option (list SponsoredReview))
  (d : DB) : DB :=
  {| users := users d; users_roles := users_roles d; roles := roles d;
     mentor_profiles := mentor_profiles d; projects := projects d;
     reviews := reviews d; sponsored_reviews := v |}.

(** A table of the store: how to read it and how to write it back. *)
Record Table (R : Type) := {
  rows_of : DB -> option (list R);
  with_rows : option (list R) -> DB -> DB
}.

Definition User_ : Table User :=
  {| rows_of := users; with_rows := set_users |}.
Definition user_roles : Table (Z * Z) :=
  {| rows_of := users_roles; with_rows := set_users_roles |}.
Definition Role_ : Table Role :=
  {| rows_of := roles; with_rows := set_roles |}.
Definition MentorProfile_ : Table MentorProfile :=
  {| rows_of := mentor_profiles; with_rows := set_mentor_profiles |}.
Definition Project_ : Table Project :=
  {| rows_of := projects; with_rows := set_projects |}.
Definition Review_ : Table Review :=
  {| rows_of := reviews; with_rows := set_reviews |}.
Definition SponsoredReview_ : Table SponsoredReview :=
  {| rows_of := sponsored_reviews; with_rows := set_sponsored_reviews |}.

(** The next value of an integer primary key: one more than the largest
    in the table. *)
Definition next_id {R : Type} (id_of : R -> Z) (rows : list R) : Z :=
  (fold_right Z.max 0 (map id_of rows) + 1)%Z.

End Models.

Import Models.

(* ===================================================================== *)
(** ** The session: a state and error monad *)
(* ===================================================================== *)

Module Session.

(** What can be raised while the importer talks to the store. *)
Inductive Fault :=
| MultipleResultsFound   (** [scalar_one_or_none] on several rows *)
| ZeroDivisionError
| OperationalError       (** a statement on a table that does not exist *)
| OverflowError          (** an [int] quotient too large for a [float] *)
| StoreFault.            (** any other fault of the store or of the link
                             to it: a constraint, a lost connection *)

(** A [Dict[str, int]] in insertion order. *)
Definition dict := list (pystr * Z).

Fixpoint dict_set (d : dict) (k : pystr) (v : Z) : dict :=
  match d with
  | [] => [(k, v)]
  | (k', v') :: t =>
      if PyStr.eqb k' k then (k', v) :: t else (k', v') :: dict_set t k v
  end.

(** The counters of [import_stats]. *)
Inductive Counter :=
| students_created | students_errors
| mentors_created | mentors_errors
| projects_created | projects_linking_errors | projects_errors
| reviews_created | reviews_linking_errors | reviews_errors
| sponsored_created | sponsored_linking_errors.

Definition Counter_eqb (a b : Counter) : bool :=
  match a, b with
  | students_created, students_created
  | students_errors, students_errors
  | mentors_created, mentors_created
  | mentors_errors, mentors_errors
  | projects_created, projects_created
  | projects_linking_errors, projects_linking_errors
  | projects_errors, projects_errors
  | reviews_created, reviews_created
  | reviews_linking_errors, reviews_linking_errors
  | reviews_errors, reviews_errors
  | sponsored_created, sponsored_created
  | sponsored_linking_errors, sponsored_linking_errors => true
  | _, _ => false
  end.

Definition all_counters : list Counter :=
  [ students_created; students_errors; mentors_created; mentors_errors;
    projects_created; projects_linking_errors; projects_errors;
    reviews_created; reviews_linking_errors; reviews_errors;
    sponsored_created; sponsored_linking_errors ].

(** [import_stats]: the value of each counter, in the order of
    [all_counters]. *)
Definition ImportStats := list (Counter * nat).

Definition zero_stats : ImportStats := map (fun c => (c, 0)) all_counters.

Definition stat (s : ImportStats) (c : Counter) : nat :=
  match find (fun e => Counter_eqb (fst e) c) s with
  | Some e => snd e
  | None => 0
  end.

Definition incr (c : Counter) (s : ImportStats) : ImportStats :=
  map (fun e => if Counter_eqb (fst e) c then (fst e, snd e + 1) else e) s.

(** The world of one run. [committed] is what every reader of the store
    sees, [working] is the view of the open transaction. [sent] counts the
    statements sent to the store. [observed] and [raised] are ghost
    fields: the snapshot readers could see after each statement, and the
    number of faults raised so far, caught or not. The three dictionaries
    and the counters are the objects that [_import_to_database] creates and
    hands to the phases. *)
Record State := {
  committed : DB;
  working : DB;
  sent : nat;
  observed : list DB;
  raised : nat;
  github_to_user_id : dict;
  telegram_to_user_id : dict;
  project_name_to_id : dict;
  import_stats : ImportStats
}.

Definition set_working (w : DB) (st : State) : State :=
  {| committed := committed st; working := w; sent := sent st;
     observed := observed st; raised := raised st;
     github_to_user_id := github_to_user_id st;
     telegram_to_user_id := telegram_to_user_id st;
     project_name_to_id := project_name_to_id st;
     import_stats := import_stats st |}.

Definition set_committed (c : DB) (st : State) : State :=
  {| committed := c; working := working st; sent := sent st;
     observed := observed st; raised := raised st;
     github_to_user_id := github_to_user_id st;
     telegram_to_user_id := telegram_to_user_id st;
     project_name_to_id := project_name_to_id st;
     import_stats := import_stats st |}.

(** One more statement has gone to the store; readers still see
    [committed]. *)
Definition tick (st : State) : State :=
  {| committed := committed st; working := working st; sent := S (sent st);
     observed := observed st ++ [committed st]; raised := raised st;
     github_to_user_id := github_to_user_id st;
     telegram_to_user_id := telegram_to_user_id st;
     project_name_to_id := project_name_to_id st;
     import_stats := import_stats st |}.

Definition note_raise (st : State) : State :=
  {| committed := committed st; working := working st; sent := sent st;
     observed := observed st; raised := S (raised st);
     github_to_user_id := github_to_user_id st;
     telegram_to_user_id := telegram_to_user_id st;
     project_name_to_id := project_name_to_id st;
     import_stats := import_stats st |}.

Definition set_locals (g t p : dict) (s : ImportStats) (st : State) : State :=
  {| committed := committed st; working := working st; sent := sent st;
     observed := observed st; raised := raised st;
     github_to_user_id := g; telegram_to_user_id := t;
     project_name_to_id := p; import_stats := s |}.

(** A computation: it ends with a fault or with a value, and in both cases
    leaves a state. *)
Definition M (A : Type) : Type := State -> (Fault + A) * State.

Definition ret {A : Type} (a : A) : M A := fun st => (inr a, st).

Definition bind {A B : Type} (m : M A) (k : A -> M B) : M B :=
  fun st =>
    match m st with
    | (inl e, st') => (inl e, st')
    | (inr a, st') => k a st'
    end.

Definition raise {A : Type} (e : Fault) : M A :=
  fun st => (inl e, note_raise st).

(** [try: m  except Exception as e: h e] *)
Definition try_catch {A : Type} (m : M A) (h : Fault -> M A) : M A :=
  fun st =>
    match m st with
    | (inl e, st') => h e st'
    | (inr a, st') => (inr a, st')
    end.

Definition gets {A : Type} (f : State -> A) : M A := fun st => (inr (f st), st).
Definition modify (f : State -> State) : M unit := fun st => (inr tt, f st).

Declare Scope session_scope.
Delimit Scope session_scope with session.
Notation "x <- m ;; k" := (bind m (fun x => k))
  (at level 61, m at next level, right associativity) : session_scope.
Notation "m ;; k" := (bind m (fun _ => k))
  (at level 61, right associativity) : session_scope.
Open Scope session_scope.

(** [for x in l: body x] *)
Fixpoint for_each {A : Type} (l : list A) (body : A -> M unit) : M unit :=
  match l with
  | [] => ret tt
  | x :: t => body x ;; for_each t body
  end.

(** A statement: what it does to the view of the transaction. *)
Definition Stmt (A : Type) : Type := DB -> Fault + (A * DB).

(** [select(T).where(p)]: the rows, in the order of the table. *)
Definition select {R : Type} (T : Table R) (p : R -> bool) : Stmt (list R) :=
  fun d =>
    match rows_of T d with
    | None => inl OperationalError
    | Some rows => inr (filter p rows, d)
    end.

(** [delete(T)] *)
Definition delete {R : Type} (T : Table R) : Stmt unit :=
  fun d =>
    match rows_of T d with
    | None => inl OperationalError
    | Some _ => inr (tt, with_rows T (Some []) d)
    end.

(** INSERT of a row whose integer key the store chooses. *)
Definition insert {R : Type} (T : Table R) (id_of : R -> Z) (mk : Z -> R)
  : Stmt R :=
  fun d =>
    match rows_of T d with
    | None => inl OperationalError
    | Some rows =>
        let r := mk (next_id id_of rows) in
        inr (r, with_rows T (Some (rows ++ [r])) d)
    end.

(** INSERT of a row that carries its key. *)
Definition insert_row {R : Type} (T : Table R) (r : R) : Stmt unit :=
  fun d =>
    match rows_of T d with
    | None => inl OperationalError
    | Some rows => inr (tt, with_rows T (Some (rows ++ [r])) d)
    end.

(** UPDATE of the rows that satisfy [p]. *)
Definition update {R : Type} (T : Table R) (p : R -> bool) (r : R)
  : Stmt unit :=
  fun d =>
    match rows_of T d with
    | None => inl OperationalError
    | Some rows =>
        inr (tt, with_rows T (Some (map (fun x => if p x then r else x) rows)) d)
    end.

(** The test of [_clear_database] on [sqlite_master]. *)
Definition table_exists {R : Type} (T : Table R) : Stmt bool :=
  fun d =>
    match rows_of T d with
    | None => inr (false, d)
    | Some _ => inr (true, d)
    end.

(** [result.scalar_one_or_none()] *)
Definition scalar_one_or_none {R : Type} (rows : list R) : M (option R) :=
  match rows with
  | [] => ret None
  | [r] => ret (Some r)
  | _ :: _ :: _ => raise MultipleResultsFound
  end.

Section Store.

(** Whether the statement sent after [n] others is answered by a fault. *)
Variable faulty : nat -> bool.

(** [await session.execute(stmt)], and [session.add] followed by the flush
    that sends it: the unit of work is flushed as soon as it changes. *)
Definition execute {A : Type} (stmt : Stmt A) : M A :=
  fun st =>
    let st1 := tick st in
    if faulty (sent st) then raise StoreFault st1
    else
      match stmt (working st1) with
      | inl e => raise e st1
      | inr (a, w) => (inr a, set_working w st1)
      end.

(** [await session.commit()]: the view of the transaction becomes what
    readers see, in one step. *)
Definition commit : M unit :=
  fun st =>
    if faulty (sent st) then raise StoreFault (tick st)
    else
      let st1 := set_committed (working st) st in
      (inr tt,
       {| committed := committed st1; working := working st1;
          sent := S (sent st1); observed := observed st1 ++ [committed st1];
          raised := raised st1;
          github_to_user_id := github_to_user_id st1;
          telegram_to_user_id := telegram_to_user_id st1;
          project_name_to_id := project_name_to_id st1;
          import_stats := import_stats st1 |}).

(** [await session.rollback()] *)
Definition rollback : M unit :=
  fun st =>
    let st1 := tick st in
    if faulty (sent st) then raise StoreFault st1
    else (inr tt, set_working (committed st1) st1).

(** Entering and leaving [async with ...async_session_factory() as
    session]: the transaction starts from what is committed, and what it
    has not committed is dropped when the session closes. *)
Definition open_session : M unit :=
  modify (fun st => set_working (committed st) st).
Definition close_session : M unit :=
  modify (fun st => set_working (committed st) st).

(** [async with ... as session: body]: the session is closed on the way
    out, fault or not. *)
Definition with_session {A : Type} (body : M A) : M A :=
  fun st =>
    let '(r, st') := (open_session ;; body) st in
    (r, snd (close_session st')).

End Store.

(** [st'] is reached from [st] without a commit: what is committed has not
    moved and readers have seen nothing but that snapshot; faults may have
    been raised on the way. *)
Definition quiet (st st' : State) : Prop :=
  committed st' = committed st
  /\ (exists obs, observed st' = observed st ++ obs
                  /\ Forall (eq (committed st)) obs)
  /\ raised st <= raised st'.

(** A computation that does not commit, and that counts the fault it ends
    with. *)
Definition safe {A : Type} (m : M A) : Prop :=
  forall st r st',
    m st = (r, st') ->
    quiet st st' /\ (forall e, r = inl e -> raised st < raised st').

End Session.

Import Session.

(* ===================================================================== *)
(** ** services/import_service.py *)
(* ===================================================================== *)

Module ImportService.

(** The processed records that [_import_to_database] receives. *)
Record ProfileData := {
  pd_full_name : pystr;
  pd_languages : pystr;
  pd_services : pystr;
  pd_price_type : pystr;
  pd_website_url : pystr
}.

Record UserData := {
  ud_github_url : option pystr;
  ud_telegram_user_id : option Z;
  ud_telegram_username : option pystr;
  ud_profile : option ProfileData
}.

Record ReviewData := {
  rv_project_name : option pystr;
  rv_mentor_telegram : option pystr;
  rv_repository_url : pystr;
  rv_period_date : option date;
  rv_review_type : pystr;
  rv_review_url : pystr
}.

Record ProcessedData := {
  students : list UserData;
  mentors : list UserData;
  projects_ : list ProjectRecord;
  reviews_ : list ReviewData;
  sponsored_reviews_ : option (list SponsoredReviewRecord)
}.

(** [not x] on an optional integer: [None] and [0] are false values. *)
Definition falsy_id (x : option Z) : bool :=
  match x with
  | Some z => (z =? 0)%Z
  | None => true
  end.

(** [a or b] on optional strings and on optional integers. *)
Definition or_str (a b : option pystr) : option pystr :=
  if present a then a else b.
Definition or_int (a b : option Z) : option Z :=
  if falsy_id a then b else a.

(** SQLite's [lower()]: it folds the ASCII letters only. *)
Definition sql_lower (s : pystr) : pystr :=
  map (fun c => if ((65 <=? c) && (c <=? 90))%N then (c + 32)%N else c) s.

Definition opt_eqb (a : option pystr) (b : pystr) : bool :=
  match a with
  | Some x => PyStr.eqb x b
  | None => false
  end.

Definition bump (c : Counter) : M unit :=
  modify (fun st =>
    set_locals (github_to_user_id st) (telegram_to_user_id st)
      (project_name_to_id st) (incr c (import_stats st)) st).

Definition set_github (k : pystr) (v : Z) : M unit :=
  modify (fun st =>
    set_locals (dict_set (github_to_user_id st) k v) (telegram_to_user_id st)
      (project_name_to_id st) (import_stats st) st).

Definition set_telegram (k : pystr) (v : Z) : M unit :=
  modify (fun st =>
    set_locals (github_to_user_id st) (dict_set (telegram_to_user_id st) k v)
      (project_name_to_id st) (import_stats st) st).

Definition set_project_name (k : pystr) (v : Z) : M unit :=
  modify (fun st =>
    set_locals (github_to_user_id st) (telegram_to_user_id st)
      (dict_set (project_name_to_id st) k v) (import_stats st) st).

(** *** Strategy 4 of the project lookup *)

(** The score of one candidate: each of the two search strings that occurs
    inside the candidate's name adds its share of that name. *)
Definition name_similarity (search_name repo_name project_name_lower : pystr)
  : option PyFloat.float :=
  let similarity := PyFloat.zero in
  match
    (if contains search_name project_name_lower
     then option_map (PyFloat.add similarity)
            (PyFloat.int_truediv (length search_name)
               (length project_name_lower))
     else Some similarity)
  with
  | None => None
  | Some similarity =>
      if contains repo_name project_name_lower
      then option_map (PyFloat.add similarity)
             (PyFloat.int_truediv (length repo_name)
                (length project_name_lower))
      else Some similarity
  end.

(** The test that opens the scoring of a candidate. *)
Definition similarity_patterns (search_name repo_name project_name_lower : pystr)
  : bool :=
  contains search_name project_name_lower
  || contains project_name_lower search_name
  || contains repo_name project_name_lower
  || contains project_name_lower repo_name.

(** The loop of strategy 4 over [all_projects]: the id of the first
    candidate whose score is above 0.3. *)
Fixpoint fuzzy_name_match (search_name repo_name : pystr)
  (all_projects : list Project) : Fault + option Z :=
  match all_projects with
  | [] => inr None
  | project :: rest =>
      let project_name_lower := strip (lower (p_name project)) in
      if similarity_patterns search_name repo_name project_name_lower
      then
        match name_similarity search_name repo_name project_name_lower with
        | None => inl ZeroDivisionError
        | Some similarity =>
            if PyFloat.ltb PyFloat.lit_0_3 similarity
            then inr (Some (p_id project))
            else fuzzy_name_match search_name repo_name rest
        end
      else fuzzy_name_match search_name repo_name rest
  end.

(** Strategy 2: the first project whose stored URL has the same canonical
    form. *)
Definition canonical_match (canonical_url : pystr) (project : Project) : bool :=
  match p_repository_url project with
  | Some url =>
      truthy url &&
      match normalize_github_url_canonical url with
      | Some project_canonical =>
          truthy project_canonical && PyStr.eqb project_canonical canonical_url
      | None => false
      end
  | None => false
  end.

(** Strategy 3: owner and repository both occur in the stored URL. *)
Definition pattern_match (owner repo : pystr) (project : Project) : bool :=
  match p_repository_url project with
  | Some url =>
      truthy url &&
      contains (lower owner) (lower url) && contains (lower repo) (lower url)
  | None => false
  end.

Definition owner_repo_match (canonical_url : pystr)
  (all_projects : list Project) : option Project :=
  if contains (str "github.com/") canonical_url
  then
    let path := last_part (split (str "github.com/") canonical_url) in
    let parts := split (str "/") path in
    if (2 <=? length parts)%nat
    then find (pattern_match (part 0 parts) (part 1 parts)) all_projects
    else None
  else None.

(** A table without its rows. *)
Definition emptied {R : Type} (t : option (list R)) : option (list R) :=
  option_map (fun _ => []) t.

(** The store once the five tables that the importer owns are cleared;
    the roles stay, and the role links go with the users when the store
    cascades. *)
Definition clear_owned (cascade : bool) (d : DB) : DB :=
  {| users := emptied (users d);
     users_roles :=
       match users d with
       | Some _ =>
           if cascade then emptied (users_roles d) else users_roles d
       | None => users_roles d
       end;
     roles := roles d;
     mentor_profiles := emptied (mentor_profiles d);
     projects := emptied (projects d);
     reviews := emptied (reviews d);
     sponsored_reviews := emptied (sponsored_reviews d) |}.

Section Run.

Variable faulty : nat -> bool.

(** Whether the store removes the [users_roles] rows of a user together
    with the user. *)
Variable on_delete_cascade : bool.

(** [settings.enable_financial_import] *)
Variable enable_financial_import : bool.

(** [datetime.utcnow()] *)
Variable utcnow : pystr.

Definition _find_project_by_github_url (github_url : pystr)
  (project_name : option pystr) : M (option Z) :=
  if negb (truthy github_url) then ret None
  else
    match normalize_github_url_canonical github_url with
    | None => ret None
    | Some canonical_url =>
        if negb (truthy canonical_url) then ret None
        else
          (* Strategy 1 *)
          result <- execute faulty
            (select Project_
               (fun p => opt_eqb (p_repository_url p) canonical_url)) ;;
          project <- scalar_one_or_none result ;;
          match project with
          | Some p => ret (Some (p_id p))
          | None =>
              (* Strategy 2 *)
              all_projects <- execute faulty
                (select Project_
                   (fun p => match p_repository_url p with
                             | Some _ => true
                             | None => false
                             end)) ;;
              match find (canonical_match canonical_url) all_projects with
              | Some p => ret (Some (p_id p))
              | None =>
                  (* Strategy 3 *)
                  match owner_repo_match canonical_url all_projects with
                  | Some p => ret (Some (p_id p))
                  | None =>
                      (* Strategy 4 *)
                      if present project_name
                      then
                        let search_name :=
                          strip (lower (match project_name with
                                        | Some n => n
                                        | None => []
                                        end)) in
                        let repo_name :=
                          lower (last_part (split (str "/") canonical_url)) in
                        match fuzzy_name_match search_name repo_name
                                all_projects with
                        | inl e => raise e
                        | inr found => ret found
                        end
                      else ret None
                  end
              end
          end
    end.

Definition _find_review_by_url (telegram_message_url : option pystr)
  (mentor_id project_id : Z) : M (option Z) :=
  match telegram_message_url with
  | None => ret None
  | Some url =>
      if negb (truthy url) then ret None
      else
        result <- execute faulty
          (select Review_ (fun r => opt_eqb (r_review_url r) url)) ;;
        review <- scalar_one_or_none result ;;
        match review with
        | Some r => ret (Some (r_id r))
        | None => ret None
        end
  end.

Definition _get_or_create_role (role_name : pystr) : M Role :=
  result <- execute faulty
    (select Role_ (fun r => PyStr.eqb (Models.role_name r) role_name)) ;;
  role <- scalar_one_or_none result ;;
  match role with
  | Some r => ret r
  | None =>
      execute faulty
        (insert Role_ role_id
           (fun id => {| role_id := id; Models.role_name := role_name |}))
  end.

Definition _find_existing_user (user_data : UserData) : M (option User) :=
  if present (ud_telegram_username user_data)
  then
    let telegram_username :=
      match ud_telegram_username user_data with Some t => t | None => [] end in
    result <- execute faulty
      (select User_
         (fun u => match u_telegram_username u with
                   | Some x => PyStr.eqb (sql_lower x) (lower telegram_username)
                   | None => false
                   end)) ;;
    scalar_one_or_none result
  else if present (ud_github_url user_data)
  then
    let github_url :=
      match ud_github_url user_data with Some g => g | None => [] end in
    result <- execute faulty
      (select User_ (fun u => opt_eqb (u_github_url u) github_url)) ;;
    scalar_one_or_none result
  else ret None.

Definition is_student (role_name : pystr) : bool :=
  PyStr.eqb role_name (str "STUDENT").

(** The body of the [try] in the loop of [_import_users]. *)
Definition import_user (role_name : pystr) (role : Role)
  (user_data : UserData) : M unit :=
  existing_user <- _find_existing_user user_data ;;
  user <-
    match existing_user with
    | Some u =>
        let user :=
          {| u_id := u_id u;
             u_telegram_user_id :=
               if PyStr.eqb role_name (str "MENTOR") then None
               else or_int (ud_telegram_user_id user_data)
                           (u_telegram_user_id u);
             u_telegram_username := u_telegram_username u;
             u_github_url := or_str (ud_github_url user_data) (u_github_url u)
          |} in
        execute faulty
          (update User_ (fun x => (u_id x =? u_id u)%Z) user) ;;
        ret user
    | None =>
        execute faulty
          (insert User_ u_id
             (fun id =>
                {| u_id := id;
                   u_telegram_user_id := ud_telegram_user_id user_data;
                   u_telegram_username := ud_telegram_username user_data;
                   u_github_url := ud_github_url user_data |}))
    end ;;
  result <- execute faulty
    (select user_roles
       (fun l => (fst l =? u_id user)%Z && (snd l =? role_id role)%Z)) ;;
  link <- scalar_one_or_none result ;;
  (if falsy_id (option_map fst link)
   then execute faulty (insert_row user_roles (u_id user, role_id role))
   else ret tt) ;;
  (match u_github_url user with
   | Some g => if truthy g then set_github g (u_id user) else ret tt
   | None => ret tt
   end) ;;
  (match u_telegram_username user with
   | Some t => if truthy t then set_telegram (lower t) (u_id user) else ret tt
   | None => ret tt
   end) ;;
  bump (if is_student role_name then students_created else mentors_created).

Definition _import_users (users_data : list UserData) (role_name : pystr)
  : M unit :=
  role <- _get_or_create_role role_name ;;
  for_each users_data (fun user_data =>
    try_catch (import_user role_name role user_data)
      (fun _ =>
         bump (if is_student role_name then students_errors
               else mentors_errors))).

(** [profile_data.get(...)] on [mentor_data.get("profile", {})] *)
Definition profile_field (f : ProfileData -> pystr) (mentor_data : UserData)
  : option pystr :=
  option_map f (ud_profile mentor_data).

Definition import_mentor_profile (mentor_data : UserData) : M unit :=
  t2u <- gets telegram_to_user_id ;;
  match ud_telegram_username mentor_data with
  | None => ret tt
  | Some telegram_username =>
      match
        (if truthy telegram_username
         then Validation.dict_get t2u telegram_username else None)
      with
      | None => ret tt
      | Some user_id =>
          found <- execute faulty
            (select MentorProfile_ (fun m => (mp_user_id m =? user_id)%Z)) ;;
          let profile :=
            {| mp_user_id := user_id;
               mp_full_name := profile_field pd_full_name mentor_data;
               mp_languages := profile_field pd_languages mentor_data;
               mp_services := profile_field pd_services mentor_data;
               mp_price_type := profile_field pd_price_type mentor_data;
               mp_website_url := profile_field pd_website_url mentor_data |} in
          match found with
          | _ :: _ =>
              execute faulty
                (update MentorProfile_
                   (fun m => (mp_user_id m =? user_id)%Z) profile)
          | [] => execute faulty (insert_row MentorProfile_ profile)
          end
      end
  end.

Definition _import_mentor_profiles (mentors_data : list UserData) : M unit :=
  for_each mentors_data (fun mentor_data =>
    try_catch (import_mentor_profile mentor_data)
      (fun _ => bump mentors_errors)).

Definition import_project (project_data : ProjectRecord) : M unit :=
  g2u <- gets github_to_user_id ;;
  let github_url := pr_author_github_url project_data in
  match
    (if truthy github_url then Validation.dict_get g2u github_url else None)
  with
  | None => bump projects_linking_errors
  | Some student_id =>
      project <- execute faulty
        (insert Project_ p_id
           (fun id =>
              {| p_id := id;
                 p_name := pr_name project_data;
                 p_language := Some (pr_language project_data);
                 p_repository_url := Some (pr_repository_url project_data);
                 p_submission_date := pr_submission_date project_data;
                 p_student_id := student_id |})) ;;
      set_project_name (pr_name project_data) (p_id project) ;;
      bump projects_created
  end.

Definition _import_projects (projects_data : list ProjectRecord) : M unit :=
  for_each projects_data (fun project_data =>
    try_catch (import_project project_data)
      (fun _ => bump projects_errors)).

(** [d.get(k) if isinstance(k, str) else None] *)
Definition lookup (d : dict) (k : option pystr) : option Z :=
  match k with
  | Some k => Validation.dict_get d k
  | None => None
  end.

Definition import_review (review_data : ReviewData) : M unit :=
  t2u <- gets telegram_to_user_id ;;
  p2i <- gets project_name_to_id ;;
  let mentor_id := lookup t2u (rv_mentor_telegram review_data) in
  let project_id := lookup p2i (rv_project_name review_data) in
  match mentor_id, project_id with
  | Some m, Some p =>
      if (m =? 0)%Z then bump reviews_linking_errors
      else if (p =? 0)%Z then bump reviews_linking_errors
      else
        execute faulty
          (insert Review_ r_id
             (fun id =>
                {| r_id := id;
                   r_period_date := rv_period_date review_data;
                   r_review_type := Some (rv_review_type review_data);
                   r_review_url := Some (rv_review_url review_data);
                   r_project_id := p;
                   r_mentor_id := m |})) ;;
        bump reviews_created
  | _, _ => bump reviews_linking_errors
  end.

Definition _import_reviews (reviews_data : list ReviewData) : M unit :=
  for_each reviews_data (fun review_data =>
    try_catch (import_review review_data)
      (fun _ => bump reviews_errors)).

(** Rows by decreasing id: [order_by(Review.id.desc())]. *)
Fixpoint insert_desc (r : Review) (l : list Review) : list Review :=
  match l with
  | [] => [r]
  | x :: t => if (r_id x <? r_id r)%Z then r :: l else x :: insert_desc r t
  end.
Definition order_by_id_desc (l : list Review) : list Review :=
  fold_right insert_desc [] l.

(** The body of the [try] in the loop of [_import_sponsored_reviews]. *)
Definition import_sponsored_review (review_data : SponsoredReviewRecord)
  : M unit :=
  let mentor_identifier := sr_mentor_identifier review_data in
  let project_github_url := sr_project_github_url review_data in
  let project_name := sr_project_name review_data in
  let telegram_message_url := sr_telegram_message_url review_data in
  t2u <- gets telegram_to_user_id ;;
  let mentor_id :=
    if startswith (str "@") mentor_identifier
    then Validation.dict_get t2u (lower (skipn 1 mentor_identifier))
    else None in
  match mentor_id with
  | None => bump sponsored_linking_errors
  | Some mentor_id =>
      if (mentor_id =? 0)%Z then bump sponsored_linking_errors
      else
        project_id <- _find_project_by_github_url project_github_url
                        (Some project_name) ;;
        match project_id with
        | None => bump sponsored_linking_errors
        | Some project_id =>
            if (project_id =? 0)%Z then bump sponsored_linking_errors
            else
              review_id <- _find_review_by_url telegram_message_url
                             mentor_id project_id ;;
              review_id <-
                (if negb (falsy_id review_id) then ret review_id
                 else
                   review_result <- execute faulty
                     (fun d =>
                        match select Review_
                                (fun r => (r_mentor_id r =? mentor_id)%Z
                                          && (r_project_id r =? project_id)%Z)
                                d with
                        | inl e => inl e
                        | inr (rows, d') => inr (order_by_id_desc rows, d')
                        end) ;;
                   review <- scalar_one_or_none review_result ;;
                   match review with
                   | Some r => ret (Some (r_id r))
                   | None => ret review_id
                   end) ;;
              execute faulty
                (insert SponsoredReview_ s_id
                   (fun id =>
                      {| s_id := id;
                         s_review_id := review_id;
                         s_project_id := project_id;
                         s_mentor_id := mentor_id;
                         s_cost := Some (sr_cost review_data);
                         s_currency := sr_currency review_data;
                         s_payment_status := sr_payment_status review_data;
                         s_payment_date :=
                           if PyStr.eqb (sr_payment_status review_data)
                                (str "paid")
                           then Some utcnow else None;
                         s_notes :=
                           Some (str "Period: " ++
                                 match sr_period review_data with
                                 | Some p => p
                                 | None => str "None"
                                 end);
                         s_telegram_message_url := telegram_message_url |})) ;;
              bump sponsored_created
        end
  end.

(** [a / b * 100] in the report that ends [_import_sponsored_reviews]:
    the division raises on a zero divisor and on a quotient too large for
    a float; the value is only logged. *)
Definition rate (a b : nat) : M unit :=
  match b with
  | O => raise ZeroDivisionError
  | S _ => if PyFloat.truediv_overflows a b then raise OverflowError
           else ret tt
  end.

(** The loop of [_import_sponsored_reviews]: a row that raises is logged
    and left. *)
Definition sponsored_rows
  (sponsored_reviews_data : list SponsoredReviewRecord) : M unit :=
  for_each sponsored_reviews_data (fun review_data =>
    try_catch (import_sponsored_review review_data) (fun _ => ret tt)).

(** The report that follows the loop: the success rate is computed when
    there are rows; with linking errors on the counter, the error rate is
    computed without that test. *)
Definition sponsored_report (total_processed : nat) : M unit :=
  success_count <-
    gets (fun st => stat (import_stats st) sponsored_created) ;;
  error_count <-
    gets (fun st => stat (import_stats st) sponsored_linking_errors) ;;
  (if (0 <? total_processed)%nat then rate success_count total_processed
   else ret tt) ;;
  if (0 <? error_count)%nat then rate error_count total_processed
  else ret tt.

Definition _import_sponsored_reviews
  (sponsored_reviews_data : list SponsoredReviewRecord) : M unit :=
  sponsored_rows sponsored_reviews_data ;;
  sponsored_report (length sponsored_reviews_data).

(** [delete(model)] when the table is there; a fault while clearing one
    table is logged and the next table is tried. *)
Definition clear_table {R : Type} (T : Table R) : M unit :=
  try_catch
    (exists_ <- execute faulty (table_exists T) ;;
     if exists_ then execute faulty (delete T) else ret tt)
    (fun _ => ret tt).

(** [delete(User)], with the [users_roles] rows when the store cascades. *)
Definition delete_users : Stmt unit :=
  fun d =>
    match delete User_ d with
    | inl e => inl e
    | inr (_, d') =>
        if on_delete_cascade
        then inr (tt, set_users_roles
                        (option_map (fun _ => []) (users_roles d')) d')
        else inr (tt, d')
    end.

Definition _clear_database : M unit :=
  clear_table SponsoredReview_ ;;
  clear_table Review_ ;;
  clear_table MentorProfile_ ;;
  clear_table Project_ ;;
  try_catch
    (exists_ <- execute faulty (table_exists User_) ;;
     if exists_ then execute faulty delete_users else ret tt)
    (fun _ => ret tt).

(** One table without its rows, when it exists. *)
Definition empty_table {R : Type} (T : Table R) (d : DB) : DB :=
  match rows_of T d with
  | Some _ => with_rows T (Some []) d
  | None => d
  end.

Definition empty_users (d : DB) : DB :=
  match delete_users d with
  | inr (_, d') => d'
  | inl _ => d
  end.

(** What [_import_to_database] does between clearing the tables and the
    commit. *)
Definition import_phases (processed_data : ProcessedData) : M unit :=
  modify (fun st =>
    set_locals [] [] (project_name_to_id st) (import_stats st) st) ;;
  _import_users (students processed_data) (str "STUDENT") ;;
  _import_users (mentors processed_data) (str "MENTOR") ;;
  _import_mentor_profiles (mentors processed_data) ;;
  modify (fun st =>
    set_locals (github_to_user_id st) (telegram_to_user_id st) []
      (import_stats st) st) ;;
  _import_projects (projects_ processed_data) ;;
  _import_reviews (reviews_ processed_data) ;;
  match sponsored_reviews_ processed_data with
  | Some sponsored =>
      if enable_financial_import then _import_sponsored_reviews sponsored
      else ret tt
  | None => ret tt
  end.

(** The state in which the transaction starts: fresh counters, and a view
    equal to what is committed. *)
Definition begin_run (st : State) : State :=
  set_working (committed st)
    (set_locals (github_to_user_id st) (telegram_to_user_id st)
       (project_name_to_id st) zero_stats st).

Definition _import_to_database (processed_data : ProcessedData)
  : M ImportStats :=
  modify (fun st =>
    set_locals (github_to_user_id st) (telegram_to_user_id st)
      (project_name_to_id st) zero_stats st) ;;
  with_session
    (try_catch
       (_clear_database ;;
        import_phases processed_data ;;
        commit faulty ;;
        gets import_stats)
       (fun e => rollback faulty ;; raise e)).

End Run.

End ImportService.

Import ImportService.

(* ===================================================================== *)
(** ** Inputs used as examples *)
(* ===================================================================== *)

Module Examples.

(** A store that answers every statement. *)
Definition no_fault : nat -> bool := fun _ => false.

(** The world before a run, with [d] committed. *)
Definition fresh (d : DB) : State :=
  {| committed := d; working := d; sent := 0; observed := []; raised := 0;
     github_to_user_id := []; telegram_to_user_id := [];
     project_name_to_id := []; import_stats := zero_stats |}.

Definition empty_store : DB :=
  {| users := Some []; users_roles := Some []; roles := Some [];
     mentor_profiles := Some []; projects := Some []; reviews := Some [];
     sponsored_reviews := Some [] |}.

(** A store left by an earlier run: one user, one project. *)
Definition old_store : DB :=
  {| users := Some [ {| u_id := 1; u_telegram_user_id := None;
                        u_telegram_username := Some (str "carol");
                        u_github_url := Some (str "https://github.com/carol") |} ];
     users_roles := Some [ (1, 1) ]%Z;
     roles := Some [ {| role_id := 1; role_name := str "STUDENT" |} ];
     mentor_profiles := Some [];
     projects := Some [ {| p_id := 1; p_name := str "old";
                           p_language := None; p_repository_url := None;
                           p_submission_date := None; p_student_id := 1 |} ];
     reviews := Some [];
     sponsored_reviews := Some [] |}.

(** The same store without its role link. *)
Definition unlinked_store : DB := set_users_roles (Some []) old_store.

Definition alice : UserData :=
  {| ud_github_url := Some (str "https://github.com/alice");
     ud_telegram_user_id := None;
     ud_telegram_username := None;
     ud_profile := None |}.

Definition bob : UserData :=
  {| ud_github_url := None;
     ud_telegram_user_id := None;
     ud_telegram_username := Some (str "bob");
     ud_profile := Some {| pd_full_name := str "Bob"; pd_languages := [];
                           pd_services := []; pd_price_type := [];
                           pd_website_url := [] |} |}.

Definition proj1 : ProjectRecord :=
  {| pr_name := str "proj1"; pr_language := str "Python";
     pr_repository_url := str "https://github.com/alice/proj1";
     pr_author_github_url := str "https://github.com/alice";
     pr_submission_date := None |}.

Definition review_of_proj1 (url : string) : ReviewData :=
  {| rv_project_name := Some (str "proj1");
     rv_mentor_telegram := Some (str "bob");
     rv_repository_url := [];
     rv_period_date := None;
     rv_review_type := str "Текст";
     rv_review_url := str url |}.

Definition sponsored_of_proj1 (message_url : option pystr)
  : SponsoredReviewRecord :=
  {| sr_period := Some (str "Январь, 2025");
     sr_mentor_identifier := str "@bob";
     sr_project_github_url := str "https://github.com/alice/proj1";
     sr_project_name := str "proj1";
     sr_telegram_message_url := message_url;
     sr_cost := PyFloat.of_Z 20;
     sr_currency := str "USD";
     sr_payment_status := str "pending";
     sr_created_at := [] |}.

(** One student, one mentor, one project, one review of it, and a
    sponsored review whose message is that review. *)
Definition one_review : ProcessedData :=
  {| students := [alice]; mentors := [bob]; projects_ := [proj1];
     reviews_ := [review_of_proj1 "https://t.me/c/1/10"];
     sponsored_reviews_ :=
       Some [sponsored_of_proj1 (Some (str "https://t.me/c/1/10"))] |}.

(** The same with two reviews of the project by the mentor, and a sponsored
    review whose message is neither. *)
Definition two_reviews : ProcessedData :=
  {| students := [alice]; mentors := [bob]; projects_ := [proj1];
     reviews_ := [review_of_proj1 "https://t.me/c/1/10";
                  review_of_proj1 "https://t.me/c/1/20"];
     sponsored_reviews_ :=
       Some [sponsored_of_proj1 (Some (str "https://t.me/c/1/30"))] |}.

(** A store whose only project is named [my-proj] and lives under another
    owner and another repository name. *)
Definition renamed_project : Project :=
  {| p_id := 1; p_name := str "my-proj"; p_language := None;
     p_repository_url := Some (str "https://github.com/acme/renamed");
     p_submission_date := None; p_student_id := 1 |}.

Definition renamed_store : DB :=
  {| users := Some []; users_roles := Some []; roles := Some [];
     mentor_profiles := Some [];
     projects := Some [renamed_project];
     reviews := Some []; sponsored_reviews := Some [] |}.

(** A store with one review, of project 1 by mentor 2. *)
Definition the_review (url : pystr) : Review :=
  {| r_id := 5; r_period_date := None; r_review_type := None;
     r_review_url := Some url; r_project_id := 1; r_mentor_id := 2 |}.

Definition one_review_store (url : pystr) : DB :=
  {| users := Some []; users_roles := Some []; roles := Some [];
     mentor_profiles := Some []; projects := Some [];
     reviews := Some [the_review url]; sponsored_reviews := Some [] |}.

End Examples.

Import Examples.

(* ===================================================================== *)
(** ** The specification's own words *)
(* ===================================================================== *)

Module Spec.

(** What the specification says of Telegram handles: ONE leading [@] is
    removed. *)
Definition strip_single_at (s : pystr) : pystr :=
  match s with
  | 64%N :: t => t
  | _ => s
  end.

(** The five spellings of one repository that the specification lists. *)
Definition url_variants (owner repo : pystr) : list pystr :=
  [ owner ++ str "/" ++ repo;
    str "github.com/" ++ owner ++ str "/" ++ repo;
    str "http://github.com/" ++ owner ++ str "/" ++ repo;
    str "https://github.com/" ++ owner ++ str "/" ++ repo ++ str "/";
    str "https://github.com/" ++ owner ++ str "/" ++ repo ++ str ".git" ].

(** The cost cell as the specification words it: the currency symbols [$],
    [€] and [₽] are stripped and the decimal comma is replaced with a dot;
    what is left is trimmed. *)
Definition cost_text (cost_str : pystr) : pystr :=
  strip
    (map (fun c => if (c =? 44)%N then 46%N else c)
       (filter (fun c => negb ((c =? 36) || (c =? 8364) || (c =? 8381))%N)
          cost_str)).

(** The conditions that the specification puts on a sponsored-review row:
    mentor, project URL and cost present, the URL under the expected host,
    and a cost that parses to a float that is zero or more. *)
Definition claimed_conditions (row : list pystr) : bool :=
  truthy (strip (part 3 row))
  && truthy (strip (part 1 row))
  && truthy (strip (part 4 row))
  && startswith (str "https://github.com/") (strip (part 1 row))
  && match cost_of row with
     | Some cost => PyFloat.leb PyFloat.zero cost
     | None => false
     end.

(** The share of one search string in the score, as the specification
    words it: the string counts when it lies inside the candidate's name
    AND when the name lies inside it, for the length of the overlap over
    the length of the name. *)
Definition claimed_share (s candidate : pystr) : option PyFloat.float :=
  if contains s candidate
  then PyFloat.int_truediv (length s) (length candidate)
  else if contains candidate s
  then PyFloat.int_truediv (length candidate) (length candidate)
  else Some PyFloat.zero.

Definition claimed_similarity (search_name repo_name candidate : pystr)
  : option PyFloat.float :=
  match claimed_share search_name candidate,
        claimed_share repo_name candidate with
  | Some a, Some b => Some (PyFloat.add (PyFloat.add PyFloat.zero a) b)
  | _, _ => None
  end.

End Spec.

Import Spec.

(* ===================================================================== *)
(** ** utils/validation.py, the remaining helpers *)
(* ===================================================================== *)

Module ValidationHelpers.

Definition extract_github_url_from_repository (repository_url : pystr)
  : option pystr :=
  if negb (truthy repository_url) then None
  else if contains (str "github.com") repository_url
  then
    let repo_path := last_part (split (str "github.com/") repository_url) in
    if contains (str "/") repo_path
    then
      let owner := first_part (split (str "/") repo_path) in
      Some (github_prefix ++ owner)
    else None
  else None.

Definition validate_has_review (value : pystr) : bool :=
  if negb (truthy value) then false
  else
    existsb (PyStr.eqb (lower (strip value)))
      [ str "есть"; str "да"; str "true"; str "yes"; str "1";
        str "есть ревью" ].

(** The code points that [str.isdigit] accepts (Numeric_Type Decimal or
    Digit, Unicode 14.0), as ranges: the decimal digits of every script
    and the superscript, subscript, circled and other such digits. *)
Definition digit_ranges : list (N * N) :=
  [
    (48, 57); (178, 179); (185, 185); (1632, 1641); (1776, 1785);
    (1984, 1993); (2406, 2415); (2534, 2543); (2662, 2671); (2790, 2799);
    (2918, 2927); (3046, 3055); (3174, 3183); (3302, 3311); (3430, 3439);
    (3558, 3567); (3664, 3673); (3792, 3801); (3872, 3881); (4160, 4169);
    (4240, 4249); (4969, 4977); (6112, 6121); (6160, 6169); (6470, 6479);
    (6608, 6618); (6784, 6793); (6800, 6809); (6992, 7001); (7088, 7097);
    (7232, 7241); (7248, 7257); (8304, 8304); (8308, 8313); (8320, 8329);
    (9312, 9320); (9332, 9340); (9352, 9360); (9450, 9450); (9461, 9469);
    (9471, 9471); (10102, 10110); (10112, 10120); (10122, 10130); (42528, 42537);
    (43216, 43225); (43264, 43273); (43472, 43481); (43504, 43513); (43600, 43609);
    (44016, 44025); (65296, 65305); (66720, 66729); (68160, 68163); (68912, 68921);
    (69216, 69224); (69714, 69722); (69734, 69743); (69872, 69881); (69942, 69951);
    (70096, 70105); (70384, 70393); (70736, 70745); (70864, 70873); (71248, 71257);
    (71360, 71369); (71472, 71481); (71904, 71913); (72016, 72025); (72784, 72793);
    (73040, 73049); (73120, 73129); (92768, 92777); (92864, 92873); (93008, 93017);
    (120782, 120831); (123200, 123209); (123632, 123641); (125264, 125273); (127232, 127242);
    (130032, 130041) ]%N.

Definition is_digit_char (c : N) : bool :=
  existsb (fun r => (fst r <=? c) && (c <=? snd r))%N digit_ranges.

(** [x.isdigit()] *)
Definition isdigit (x : pystr) : bool := truthy x && forallb is_digit_char x.

(** [lambda x: int(x) if x and x.isdigit() else None] *)
Definition int_or_none (x : option pystr) : option Z :=
  match x with
  | Some v => if truthy v && isdigit v then py_int v else None
  | None => None
  end.

End ValidationHelpers.

Import ValidationHelpers.

(* ===================================================================== *)
(** ** services/data_processor.py, students, mentors and reviews *)
(* ===================================================================== *)

Module Pipeline.

Record UserStats := {
  us_total : nat;
  us_passed_filter : nat;
  us_imported : nat
}.

(** What [clean_and_validate] returns for a student row. *)
Record StudentFields := {
  sf_github_url : option pystr;
  sf_telegram_user_id : option Z;
  sf_telegram_username : option pystr
}.

Definition student_fields (row : list pystr) : StudentFields :=
  {| sf_github_url := on_cell normalize_github_url (raw_value row 0);
     sf_telegram_user_id := int_or_none (raw_value row 1);
     sf_telegram_username :=
       on_cell normalize_telegram_username (raw_value row 2) |}.

(** A student needs a GitHub URL or a Telegram handle. *)
Definition _filter_student (student_data : StudentFields) : bool :=
  if negb (present (sf_github_url student_data))
     && negb (present (sf_telegram_username student_data))
  then false
  else true.

(** One turn of the loop of [_process_students]; the key ["role"] of the
    record is not read by the import and is left out. *)
Definition student_row_step (processed_students : list UserData)
  (row : list pystr) : list UserData :=
  if negb (validate_row_length row 1) then processed_students
  else
    let student_data := student_fields row in
    if negb (_filter_student student_data) then processed_students
    else
      processed_students ++
      [ {| ud_github_url := sf_github_url student_data;
           ud_telegram_user_id := sf_telegram_user_id student_data;
           ud_telegram_username := sf_telegram_username student_data;
           ud_profile := None |} ].

Definition _process_students (stats : UserStats)
  (students_data : list (list pystr)) : list UserData * UserStats :=
  let processed_students := fold_left student_row_step students_data [] in
  (processed_students,
   {| us_total := length students_data;
      us_passed_filter := length processed_students;
      us_imported := us_imported stats |}).

(** What [clean_and_validate] returns for a mentor row. *)
Record MentorFields := {
  mf_github_url : option pystr;
  mf_full_name : pystr;
  mf_telegram_username : option pystr;
  mf_languages : pystr;
  mf_services : pystr;
  mf_price_type : pystr;
  mf_website_url : pystr
}.

Definition mentor_fields (row : list pystr) : MentorFields :=
  {| mf_github_url := on_cell normalize_github_url (raw_value row 0);
     mf_full_name := strip_or_empty (raw_value row 2);
     mf_telegram_username :=
       on_cell normalize_telegram_username (raw_value row 3);
     mf_languages := strip_or_empty (raw_value row 4);
     mf_services := strip_or_empty (raw_value row 5);
     mf_price_type := strip_or_empty (raw_value row 6);
     mf_website_url := strip_or_empty (raw_value row 7) |}.

(** A mentor needs a Telegram handle. *)
Definition _filter_mentor (mentor_data : MentorFields) : bool :=
  if negb (present (mf_telegram_username mentor_data)) then false else true.

Definition mentor_row_step (processed_mentors : list UserData)
  (row : list pystr) : list UserData :=
  if negb (validate_row_length row 4) then processed_mentors
  else
    let mentor_data := mentor_fields row in
    if negb (_filter_mentor mentor_data) then processed_mentors
    else
      processed_mentors ++
      [ {| ud_github_url := mf_github_url mentor_data;
           ud_telegram_user_id := None;
           ud_telegram_username := mf_telegram_username mentor_data;
           ud_profile :=
             Some {| pd_full_name := mf_full_name mentor_data;
                     pd_languages := mf_languages mentor_data;
                     pd_services := mf_services mentor_data;
                     pd_price_type := mf_price_type mentor_data;
                     pd_website_url := mf_website_url mentor_data |} |} ].

Definition _process_mentors (stats : UserStats)
  (mentors_data : list (list pystr)) : list UserData * UserStats :=
  let processed_mentors := fold_left mentor_row_step mentors_data [] in
  (processed_mentors,
   {| us_total := length mentors_data;
      us_passed_filter := length processed_mentors;
      us_imported := us_imported stats |}).

(** What [clean_and_validate] returns for a review row. The dictionary has
    no key ["author_github_url"]: no validator of the row produces it. *)
Record ReviewFields := {
  rf_project_name : option pystr;
  rf_mentor_telegram : option pystr;
  rf_period_date : option date;
  rf_review_type : pystr;
  rf_review_url : pystr;
  rf_repository_url : pystr
}.

Definition review_fields (row : list pystr) : ReviewFields :=
  {| rf_project_name := strip_or_none (raw_value row 1);
     rf_mentor_telegram :=
       on_cell normalize_telegram_username (raw_value row 7);
     rf_period_date :=
       on_cell (fun x => caught (parse_period x)) (raw_value row 0);
     rf_review_type := strip_or_empty (raw_value row 4);
     rf_review_url := strip_or_empty (raw_value row 5);
     rf_repository_url := strip_or_empty (raw_value row 3) |}.

(** [review_data.get("author_github_url")]: the key is never there. *)
Definition rf_author_github_url (review_data : ReviewFields) : option pystr :=
  None.

Definition _filter_review (review_data : ReviewFields) : bool :=
  if negb (present (rf_mentor_telegram review_data)) then false
  else if negb (present (rf_project_name review_data))
          && negb (present (rf_author_github_url review_data))
  then false
  else true.

Definition review_row_step (processed_reviews : list ReviewData)
  (row : list pystr) : list ReviewData :=
  if negb (validate_row_length row 8) then processed_reviews
  else
    let review_data := review_fields row in
    if negb (_filter_review review_data) then processed_reviews
    else
      processed_reviews ++
      [ {| rv_project_name := rf_project_name review_data;
           rv_mentor_telegram := rf_mentor_telegram review_data;
           rv_repository_url := rf_repository_url review_data;
           rv_period_date := rf_period_date review_data;
           rv_review_type := rf_review_type review_data;
           rv_review_url := rf_review_url review_data |} ].

Definition _process_reviews (stats : ProjectStats)
  (reviews_data : list (list pystr)) : list ReviewData * ProjectStats :=
  let processed_reviews := fold_left review_row_step reviews_data [] in
  (processed_reviews,
   {| ps_total := length reviews_data;
      ps_imported := length processed_reviews;
      ps_linking_errors := ps_linking_errors stats |}).

(** [raw_data]: the rows fetched for each range; the key of the sponsored
    reviews may be missing. *)
Record RawData := {
  raw_students : list (list pystr);
  raw_mentors : list (list pystr);
  raw_projects : list (list pystr);
  raw_reviews : list (list pystr);
  raw_sponsored_reviews : option (list (list pystr))
}.

(** [self.statistics] *)
Record Statistics := {
  st_students : UserStats;
  st_mentors : UserStats;
  st_projects : ProjectStats;
  st_reviews : ProjectStats;
  st_sponsored_reviews : SponsoredStats
}.

(** The two attributes of a [DataProcessor]. *)
Record Processor := {
  processed_data : ProcessedData;
  statistics : Statistics
}.

(** [DataProcessor.__init__] *)
Definition new_processor : Processor :=
  {| processed_data :=
       {| students := []; mentors := []; projects_ := []; reviews_ := [];
          sponsored_reviews_ := Some [] |};
     statistics :=
       {| st_students := {| us_total := 0; us_passed_filter := 0;
                            us_imported := 0 |};
          st_mentors := {| us_total := 0; us_passed_filter := 0;
                           us_imported := 0 |};
          st_projects := {| ps_total := 0; ps_imported := 0;
                            ps_linking_errors := 0 |};
          st_reviews := {| ps_total := 0; ps_imported := 0;
                           ps_linking_errors := 0 |};
          st_sponsored_reviews :=
            {| ss_total := 0; ss_imported := 0; ss_linking_errors := 0;
               ss_validation_errors := 0 |} |} |}.

Section Settings.

(** [settings.enable_financial_import] *)
Variable enable_financial_import : bool.

(** [datetime.utcnow().isoformat()]: the readings of the clock during one
    call, in the order in which they are taken. *)
Variable utcnow_isoformat : nat -> pystr.

(** The part of [process_all_data] on the sponsored reviews: the list and
    the statistics as they are left, and the number of readings of the
    clock taken, one for each record kept. *)
Definition sponsored_part (self : Processor) (raw_data : RawData)
  : option (list SponsoredReviewRecord) * SponsoredStats * nat :=
  let stats := st_sponsored_reviews (statistics self) in
  match raw_sponsored_reviews raw_data with
  | Some rows =>
      if enable_financial_import
      then
        let '(l, s) := _process_sponsored_reviews utcnow_isoformat stats
                         rows in
        (Some l, s, length l)
      else (sponsored_reviews_ (processed_data self), stats, 0)
  | None => (sponsored_reviews_ (processed_data self), stats, 0)
  end.

(** [process_all_data], on the processor it is called on: the
    ["timestamp"] of the result, or the exception that leaves the call, and
    the processor as the call leaves it. The result holds
    [self.processed_data] and [self.statistics] themselves, so they are
    read from the processor; each list is stored as soon as it is made, so
    a call that raises leaves the lists made before. The file written for
    debugging is left out. *)
Definition process_all_data (self : Processor) (raw_data : RawData)
  : (exn + pystr) * Processor :=
  let stats := statistics self in
  let data := processed_data self in
  let '(students, s1) := _process_students (st_students stats)
                           (raw_students raw_data) in
  let '(mentors, s2) := _process_mentors (st_mentors stats)
                          (raw_mentors raw_data) in
  let '(r, s3) := _process_projects (st_projects stats)
                    (raw_projects raw_data) in
  match r with
  | inl e =>
      (inl e,
       {| processed_data :=
            {| students := students; mentors := mentors;
               projects_ := projects_ data; reviews_ := reviews_ data;
               sponsored_reviews_ := sponsored_reviews_ data |};
          statistics :=
            {| st_students := s1; st_mentors := s2; st_projects := s3;
               st_reviews := st_reviews stats;
               st_sponsored_reviews := st_sponsored_reviews stats |} |})
  | inr projects =>
      let '(reviews, s4) := _process_reviews (st_reviews stats)
                              (raw_reviews raw_data) in
      let '(sponsored, s5, readings) := sponsored_part self raw_data in
      (inr (utcnow_isoformat readings),
       {| processed_data :=
            {| students := students; mentors := mentors;
               projects_ := projects; reviews_ := reviews;
               sponsored_reviews_ := sponsored |};
          statistics :=
            {| st_students := s1; st_mentors := s2; st_projects := s3;
               st_reviews := s4; st_sponsored_reviews := s5 |} |})
  end.

End Settings.

End Pipeline.

Import Pipeline.

(* ===================================================================== *)
(** ** Predicates used to state the properties *)
(* ===================================================================== *)

Module Shapes.

(** A character of a normalized handle: [a-z], [0-9] or [_]. *)
Definition lower_handle_char (c : N) : bool :=
  ((97 <=? c) && (c <=? 122) || (48 <=? c) && (c <=? 57) || (c =? 95))%N.

(** A normalized handle: not empty, and made of such characters. *)
Definition is_handle (s : pystr) : bool :=
  truthy s && forallb lower_handle_char s.

(** An optional value that, when it is there, satisfies [p]. *)
Definition if_some {A : Type} (p : A -> bool) (x : option A) : bool :=
  match x with
  | Some v => p v
  | None => true
  end.

(** An optional value that is there and satisfies [p]. *)
Definition is_some {A : Type} (p : A -> bool) (x : option A) : bool :=
  match x with
  | Some v => p v
  | None => false
  end.

Definition under_github (url : pystr) : bool :=
  startswith (str "https://github.com/") url.

Definition no_char (c : N) (s : pystr) : bool :=
  forallb (fun x => negb (x =? c)%N) s.

(** The code points that [lower_cp] leaves as they are. *)
Definition no_case (y : N) : Prop :=
  ~ (65 <= y <= 90)%N /\ ~ (192 <= y <= 222 /\ y <> 215)%N
  /\ ~ (1024 <= y <= 1071)%N /\ y <> 8490%N /\ y <> 8491%N.

(** Which tables of a store exist. *)
(** A sponsored-review record without the time at which it was made. *)
Definition sans_created_at (r : SponsoredReviewRecord)
  : SponsoredReviewRecord :=
  {| sr_period := sr_period r;
     sr_mentor_identifier := sr_mentor_identifier r;
     sr_project_github_url := sr_project_github_url r;
     sr_project_name := sr_project_name r;
     sr_telegram_message_url := sr_telegram_message_url r;
     sr_cost := sr_cost r;
     sr_currency := sr_currency r;
     sr_payment_status := sr_payment_status r;
     sr_created_at := [] |}.

Definition exists_ {A : Type} (t : option A) : bool :=
  match t with Some _ => true | None => false end.

Definition tables_of (d : DB) : list bool :=
  [ exists_ (users d); exists_ (users_roles d); exists_ (roles d);
    exists_ (mentor_profiles d); exists_ (projects d); exists_ (reviews d);
    exists_ (sponsored_reviews d) ].

(** The number of statements that [_clear_database] sends when none of
    them fails: for each of the five tables the test of its existence and,
    when it exists, its [DELETE]. *)
Definition clearing_statements (d : DB) : nat :=
  5 + length (filter (fun b : bool => b)
                [ exists_ (sponsored_reviews d); exists_ (reviews d);
                  exists_ (mentor_profiles d); exists_ (projects d);
                  exists_ (users d) ]).

(** Two states that hold the same data: the same view of the transaction,
    the same committed store, the same dictionaries and counters. *)
Definition same_data (st st' : State) : Prop :=
  working st' = working st
  /\ committed st' = committed st
  /\ github_to_user_id st' = github_to_user_id st
  /\ telegram_to_user_id st' = telegram_to_user_id st
  /\ project_name_to_id st' = project_name_to_id st
  /\ import_stats st' = import_stats st.

(** A computation that only reads. *)
Definition reads {A : Type} (m : M A) : Prop :=
  forall st r st', m st = (r, st') -> same_data st st'.

(** Counters that hold every key once, as [_import_to_database] creates
    them. *)
Definition complete (s : ImportStats) : Prop := map fst s = all_counters.

(** [s'] is [s] with one of the counters [cs] increased by one. *)
Definition one_more (cs : list Counter) (s s' : ImportStats) : Prop :=
  exists c, In c cs /\ s' = incr c s.

(** A computation that leaves the counters alone. *)
Definition keeps_stats {A : Type} (m : M A) : Prop :=
  forall st r st', m st = (r, st') -> import_stats st' = import_stats st.

(** A computation that, when it succeeds, has increased one of the
    counters [cs] by one, and that leaves them alone when it fails. *)
Definition counted {A : Type} (cs : list Counter) (m : M A) : Prop :=
  forall st r st',
    m st = (r, st') ->
    match r with
    | inr _ => one_more cs (import_stats st) (import_stats st')
    | inl _ => import_stats st' = import_stats st
    end.

(** The sum of the counters [cs]. *)
Definition total (cs : list Counter) (s : ImportStats) : nat :=
  fold_right (fun c n => stat s c + n) 0 cs.

(** The rows of a table, none when the table is missing, and their
    keys. *)
Definition table_rows {R : Type} (t : option (list R)) : list R :=
  match t with Some l => l | None => [] end.

Definition ids_of {R : Type} (id_of : R -> Z) (t : option (list R))
  : list Z :=
  map id_of (table_rows t).

(** Every reference of a row is the key of a row of the table it points
    to: the user and the role of a link, the user of a mentor profile, the
    student of a project, the project and the mentor of a review, and the
    project, the mentor and the review, when there is one, of a sponsored
    review. *)
Definition references_hold (d : DB) : Prop :=
  Forall (fun l => In (fst l) (ids_of u_id (users d))
                   /\ In (snd l) (ids_of role_id (roles d)))
    (table_rows (users_roles d))
  /\ Forall (fun m => In (mp_user_id m) (ids_of u_id (users d)))
       (table_rows (mentor_profiles d))
  /\ Forall (fun p => In (p_student_id p) (ids_of u_id (users d)))
       (table_rows (projects d))
  /\ Forall (fun r => In (r_project_id r) (ids_of p_id (projects d))
                      /\ In (r_mentor_id r) (ids_of u_id (users d)))
       (table_rows (reviews d))
  /\ Forall (fun s => In (s_project_id s) (ids_of p_id (projects d))
                      /\ In (s_mentor_id s) (ids_of u_id (users d))
                      /\ (forall id, s_review_id s = Some id ->
                                     In id (ids_of r_id (reviews d))))
       (table_rows (sponsored_reviews d)).

(** A project record with a name and an author under GitHub. *)
Definition named_authored (p : ProjectRecord) : Prop :=
  truthy (pr_name p) = true
  /\ under_github (pr_author_github_url p) = true.

(** Where a row of an owned table comes from: the record of the processed
    data from which the import wrote it. A user has the Telegram username
    of a student or mentor record and the GitHub URL of one; a mentor
    profile has the five fields of the profile of a mentor record; a
    project, a review and a sponsored review have the fields of a record
    of their list. *)
Definition user_from (pd : ProcessedData) (u : User) : Prop :=
  (exists ud, In ud (students pd ++ mentors pd)
              /\ u_telegram_username u = ud_telegram_username ud)
  /\ (exists ud, In ud (students pd ++ mentors pd)
                 /\ u_github_url u = ud_github_url ud).

Definition profile_from (pd : ProcessedData) (m : MentorProfile) : Prop :=
  exists md,
    In md (mentors pd)
    /\ mp_full_name m = option_map pd_full_name (ud_profile md)
    /\ mp_languages m = option_map pd_languages (ud_profile md)
    /\ mp_services m = option_map pd_services (ud_profile md)
    /\ mp_price_type m = option_map pd_price_type (ud_profile md)
    /\ mp_website_url m = option_map pd_website_url (ud_profile md).

Definition project_from (pd : ProcessedData) (p : Project) : Prop :=
  exists r,
    In r (projects_ pd)
    /\ p_name p = pr_name r
    /\ p_language p = Some (pr_language r)
    /\ p_repository_url p = Some (pr_repository_url r)
    /\ p_submission_date p = pr_submission_date r.

Definition review_from (pd : ProcessedData) (r : Review) : Prop :=
  exists rd,
    In rd (reviews_ pd)
    /\ r_period_date r = rv_period_date rd
    /\ r_review_type r = Some (rv_review_type rd)
    /\ r_review_url r = Some (rv_review_url rd).

Definition sponsored_from (pd : ProcessedData) (s : SponsoredReview) : Prop :=
  exists l rd,
    sponsored_reviews_ pd = Some l /\ In rd l
    /\ s_cost s = Some (sr_cost rd)
    /\ s_currency s = sr_currency rd
    /\ s_payment_status s = sr_payment_status rd
    /\ s_telegram_message_url s = sr_telegram_message_url rd.

(** Every row of the five owned tables was written from the processed
    data. *)
Definition written_from (pd : ProcessedData) (d : DB) : Prop :=
  Forall (user_from pd) (table_rows (users d))
  /\ Forall (profile_from pd) (table_rows (mentor_profiles d))
  /\ Forall (project_from pd) (table_rows (projects d))
  /\ Forall (review_from pd) (table_rows (reviews d))
  /\ Forall (sponsored_from pd) (table_rows (sponsored_reviews d)).

(** The tables of projects, reviews and sponsored reviews hold as many
    rows as the counters count as created. *)
Definition sized (d : DB) (s : ImportStats) : Prop :=
  length (table_rows (projects d)) = stat s projects_created
  /\ length (table_rows (reviews d)) = stat s reviews_created
  /\ length (table_rows (sponsored_reviews d)) = stat s sponsored_created.

(** A run between two rows: what its view holds was written from the
    processed data, and the counters agree with it. *)
Definition repopulating (pd : ProcessedData) (st : State) : Prop :=
  written_from pd (working st)
  /\ complete (import_stats st)
  /\ sized (working st) (import_stats st).

(** A dictionary whose values are among [l]. *)
Definition values_in (d : dict) (l : list Z) : Prop :=
  forall k v, Validation.dict_get d k = Some v -> In v l.

(** The references hold in the view of the transaction, and the two
    dictionaries of users hold keys of users. *)
Definition linked_users (st : State) : Prop :=
  references_hold (working st)
  /\ values_in (github_to_user_id st) (ids_of u_id (users (working st)))
  /\ values_in (telegram_to_user_id st) (ids_of u_id (users (working st))).

(** The same, and the dictionary of projects holds keys of projects. *)
Definition linked (st : State) : Prop :=
  linked_users st
  /\ values_in (project_name_to_id st) (ids_of p_id (projects (working st))).

(** Two states with the same three dictionaries. *)
Definition same_dicts (st st' : State) : Prop :=
  github_to_user_id st' = github_to_user_id st
  /\ telegram_to_user_id st' = telegram_to_user_id st
  /\ project_name_to_id st' = project_name_to_id st.

(** [Q] holds of the value and the state that [m] ends with from [st], or
    [E] of the state that it fails in. *)
Definition wp {A : Type} (m : M A) (Q : A -> State -> Prop)
  (E : State -> Prop) (st : State) : Prop :=
  match m st with
  | (inr a, st') => Q a st'
  | (inl _, st') => E st'
  end.

End Shapes.

Import Shapes.

(* ===================================================================== *)
(** ** Properties of the normalizers *)
(* ===================================================================== *)

Section StringFacts.

Lemma lstrip_by_suffix (p : N -> bool) (s : pystr) :
  exists pre, s = pre ++ lstrip_by p s.
Proof.
  induction s as [|c t IH]; simpl.
  - exists []; reflexivity.
  - destruct (p c).
    + destruct IH as [pre E]. exists (c :: pre). simpl. now rewrite <- E.
    + exists []. reflexivity.
Qed.

Lemma lstrip_by_head (p : N -> bool) (s : pystr) :
  match lstrip_by p s with
  | [] => True
  | c :: _ => p c = false
  end.
Proof.
  induction s as [|c t IH]; simpl; [exact I|].
  destruct (p c) eqn:E; [exact IH | exact E].
Qed.

(** A trimmed string does not end with a blank. *)
Lemma strip_last (s b : pystr) (c : N) :
  strip s = b ++ [c] -> is_space c = false.
Proof.
  unfold strip, rstrip_by. intros E.
  apply (f_equal (@rev N)) in E. rewrite rev_involutive, rev_app_distr in E.
  simpl in E.
  pose proof (lstrip_by_head is_space (rev (lstrip_by is_space s))) as H.
  rewrite E in H. exact H.
Qed.

Lemma lower_cp_newline (c : N) : lower_cp c = 10%N -> c = 10%N.
Proof.
  unfold lower_cp.
  repeat match goal with
         | |- context [if ?b then _ else _] => destruct b eqn:?
         end; intros; try lia;
  repeat match goal with
         | H : (_ && _)%bool = true |- _ => apply andb_prop in H; destruct H
         | H : (_ <=? _)%N = true |- _ => apply N.leb_le in H
         | H : (_ =? _)%N = true |- _ => apply N.eqb_eq in H
         end; lia.
Qed.

(** Without a newline at its end, a string matches the handle pattern when
    it is non-empty and made of handle characters. *)
Lemma re_match_handle_plain (s : pystr) :
  (forall b, s <> b ++ [10%N]) ->
  re_match_handle s = truthy s && forallb handle_char s.
Proof.
  intros H. unfold re_match_handle.
  destruct (rev s) as [|c b] eqn:E.
  - simpl. now rewrite orb_false_r.
  - assert (c <> 10%N) as Hc.
    { intros ->. apply (H (rev b)).
      rewrite <- (rev_involutive s), E. reflexivity. }
    destruct c as [|q]; [simpl; now rewrite orb_false_r|].
    repeat (destruct q as [q|q|]; try (simpl; now rewrite orb_false_r)).
Qed.

End StringFacts.

(** C4, as amended: [normalize_telegram_username] trims the surrounding
    whitespace, removes EVERY leading [@] (not a single one), lower-cases
    what is left, and returns it exactly when it is non-empty and made of
    the characters of [[a-zA-Z0-9_]]; in every other case it returns [None].
    It is a total function: no input makes it raise. *)
Theorem C4_normalize_telegram_username (raw : pystr) :
  normalize_telegram_username raw =
  let r := lower (lstrip_chars (str "@") (strip raw)) in
  if truthy r && forallb handle_char r then Some r else None.
Proof.
  unfold normalize_telegram_username.
  destruct raw as [|c0 raw0]; [reflexivity|].
  set (raw := c0 :: raw0). simpl negb. cbv iota.
  rewrite re_match_handle_plain.
  - cbv zeta. now destruct (truthy _ && forallb _ _).
  - intros b E. unfold lower, lstrip_chars in E.
    destruct (lstrip_by_suffix (fun c => mem c (str "@")) (strip raw))
      as [pre Hpre].
    destruct (lstrip_by (fun c => mem c (str "@")) (strip raw))
      as [|x l] eqn:El using rev_ind.
    + destruct b; discriminate.
    + rewrite map_app in E. simpl in E.
      apply app_inj_tail in E. destruct E as [_ E].
      apply lower_cp_newline in E. subst x.
      rewrite app_assoc in Hpre. apply strip_last in Hpre. discriminate.
Qed.

(** C4, as the specification words it, fails: after one [@] is taken from
    ["@@bob"] an [@] is left, a character outside the set, and yet the
    handle ["bob"] is returned. *)
Lemma C4_single_at_counterexample :
  ~ (forall raw : pystr,
        (exists c, In c (strip_single_at (strip raw)) /\ handle_char c = false) ->
        normalize_telegram_username raw = None).
Proof.
  intros H.
  assert (normalize_telegram_username (str "@@bob") = Some (str "bob")) as E
    by reflexivity.
  rewrite H in E; [discriminate|].
  exists 64%N. split; [left; reflexivity | reflexivity].
Qed.

(** C5 at the owner [octo] and the repository [digit]: [rstrip(".git")]
    removes every trailing character among [.], [g], [i] and [t], so four
    of the five spellings lose the end of the repository name while the
    spelling with a trailing slash keeps it. *)
Theorem C5_canonical_variants_disagree :
  map normalize_github_url_canonical (url_variants (str "octo") (str "digit"))
  = [ Some (str "https://github.com/octo/d");
      Some (str "https://github.com/octo/d");
      Some (str "https://github.com/octo/d");
      Some (str "https://github.com/octo/digit");
      Some (str "https://github.com/octo/d") ].
Proof. vm_compute. reflexivity. Qed.

(** Where no character of the set ends the name the five agree, here on
    [octo/repo]. *)
Lemma canonical_variants_agree_example :
  map normalize_github_url_canonical (url_variants (str "octo") (str "repo"))
  = repeat (Some (str "https://github.com/octo/repo")) 5.
Proof. vm_compute. reflexivity. Qed.

Section PrefixFacts.

Lemma startswith_app (p s : pystr) :
  startswith p s = true <-> exists t, s = p ++ t.
Proof.
  revert s. induction p as [|a p IH]; intros s; simpl.
  - split; [intros _; now exists s | reflexivity].
  - destruct s as [|b s].
    + split; [discriminate | intros [t E]; discriminate].
    + rewrite andb_true_iff, N.eqb_eq, IH. split.
      * intros [-> [t ->]]. now exists t.
      * intros [t E]. injection E as -> ->. split; [reflexivity | now exists t].
Qed.

Lemma startswith_prefix (p t : pystr) : startswith p (p ++ t) = true.
Proof. apply startswith_app. now exists t. Qed.

Lemma contains_middle (a b c : pystr) : contains b (a ++ b ++ c) = true.
Proof.
  induction a as [|x a IH]; simpl.
  - pose proof (startswith_prefix b c) as H.
    destruct (b ++ c); simpl; rewrite H; reflexivity.
  - rewrite IH. apply orb_true_r.
Qed.

Lemma strip_nil : strip [] = [].
Proof. reflexivity. Qed.

End PrefixFacts.

(** C9: a raw value that is not blank and holds neither [gist.github.com]
    nor the doubled prefix always yields a URL under [https://github.com/]:
    nothing is turned down, whatever characters or foreign host it holds. *)
Theorem C9_normalize_github_url_never_rejects (url : pystr) :
  truthy (strip url) = true ->
  contains (str "gist.github.com") (strip url) = false ->
  contains (str "https://github.com/https://") (strip url) = false ->
  exists r, normalize_github_url url = Some r
            /\ startswith (str "https://github.com/") r = true.
Proof.
  intros Hne Hgist Hdp. unfold normalize_github_url.
  destruct url as [|c0 u0]; [discriminate|].
  set (url := c0 :: u0) in *. simpl negb. cbv iota. cbv zeta.
  rewrite Hdp.
  destruct (startswith (str "https://github.com/") (strip url)) eqn:E1.
  { eexists; split; [reflexivity | exact E1]. }
  destruct (startswith (str "http://github.com/") (strip url)) eqn:E2.
  { apply startswith_app in E2. destruct E2 as [t ->].
    eexists; split; [reflexivity | reflexivity]. }
  destruct (startswith (str "github.com/") (strip url)) eqn:E3.
  { apply startswith_app in E3. destruct E3 as [t ->].
    eexists; split; [reflexivity | reflexivity]. }
  destruct (startswith (str "https://gist.github.com/") (strip url)) eqn:E4.
  { apply startswith_app in E4. destruct E4 as [t E4].
    rewrite E4 in Hgist.
    change (str "https://gist.github.com/" ++ t)
      with (str "https://" ++ str "gist.github.com" ++ (str "/" ++ t)) in Hgist.
    rewrite contains_middle in Hgist. discriminate. }
  match goal with
  | |- context [if ?b then _ else _] => destruct b
  end;
    eexists; (split; [reflexivity | apply startswith_prefix]).
Qed.

(** C9 at ["foo bar"], which holds a space, and at a URL of another host:
    both are prefixed as they are. *)
Lemma C9_witness :
  (exists r, normalize_github_url (str "foo bar") = Some r
             /\ startswith (str "https://github.com/") r = true)
  /\ normalize_github_url (str "foo bar")
     = Some (str "https://github.com/foo bar")
  /\ normalize_github_url (str "https://gitlab.com/x/y")
     = Some (str "https://github.com/https://gitlab.com/x/y").
Proof.
  split; [|split].
  - apply (C9_normalize_github_url_never_rejects (str "foo bar"));
      reflexivity.
  - reflexivity.
  - reflexivity.
Defined.

(* ===================================================================== *)
(** ** Properties of the row pipeline *)
(* ===================================================================== *)

Section ProjectRows.

Lemma project_row_step_acc (cur : option date) (acc : list ProjectRecord)
  (row : list pystr) :
  project_row_step {| current_period := cur; processed_projects := acc |} row
  = match project_row_step
            {| current_period := cur; processed_projects := [] |} row with
    | inr st =>
        inr {| current_period := current_period st;
               processed_projects := acc ++ processed_projects st |}
    | inl e => inl e
    end.
Proof.
  unfold project_row_step. simpl.
  destruct (is_period_header row); simpl.
  - destruct (header_period row); simpl; [reflexivity|].
    now rewrite app_nil_r.
  - destruct (validate_row_length row 8); simpl; [|now rewrite app_nil_r].
    destruct (project_of_row cur row); simpl; [reflexivity|].
    now rewrite app_nil_r.
Qed.

(** The list being built only grows at its end. *)
Lemma run_projects_acc (rows : list (list pystr)) :
  forall cur acc,
    run_projects cur acc rows =
    match run_projects cur [] rows with
    | inr st =>
        inr {| current_period := current_period st;
               processed_projects := acc ++ processed_projects st |}
    | inl e => inl e
    end.
Proof.
  unfold run_projects.
  induction rows as [|row rows IH]; intros cur acc; simpl.
  - now rewrite app_nil_r.
  - rewrite (project_row_step_acc cur acc row).
    destruct (project_row_step
                {| current_period := cur; processed_projects := [] |} row)
      as [e|[cur' out']] eqn:E; [reflexivity|]. simpl.
    rewrite (IH cur' (acc ++ out')), (IH cur' out').
    destruct (project_rows
                {| current_period := cur'; processed_projects := [] |} rows)
      as [e|st]; [reflexivity|]. simpl.
    now rewrite app_assoc.
Qed.

Lemma project_rows_app (a b : list (list pystr)) :
  forall st,
    project_rows st (a ++ b) =
    match project_rows st a with
    | inr st' => project_rows st' b
    | inl e => inl e
    end.
Proof.
  induction a as [|row a IH]; intros st; simpl; [reflexivity|].
  destruct (project_row_step st row) as [e|st']; [reflexivity|]. apply IH.
Qed.

(** Over data rows nothing is raised, the period does not move and every
    row gives its records under it. *)
Lemma run_projects_data (data : list (list pystr)) :
  Forall (fun row => is_period_header row = false) data ->
  forall cur,
    run_projects cur [] data =
    inr {| current_period := cur;
           processed_projects := flat_map (data_row_records cur) data |}.
Proof.
  induction 1 as [|row data Hrow _ IH]; intros cur; [reflexivity|].
  assert (project_row_step
            {| current_period := cur; processed_projects := [] |} row
          = inr {| current_period := cur;
                   processed_projects := data_row_records cur row |}) as E.
  { unfold project_row_step, data_row_records. rewrite Hrow. simpl.
    destruct (validate_row_length row 8); simpl; [|reflexivity].
    destruct (project_of_row cur row); reflexivity. }
  unfold run_projects. simpl. rewrite E.
  fold (run_projects cur (data_row_records cur row) data).
  rewrite run_projects_acc, IH. reflexivity.
Qed.

(** What follows a period header does not depend on the period in force
    before it. *)
Lemma run_projects_header_first (m : list pystr) (rest : list (list pystr)) :
  is_period_header m = true ->
  forall cur,
    run_projects cur [] (m :: rest) = run_projects None [] (m :: rest).
Proof.
  intros Hm cur. unfold run_projects. simpl.
  unfold project_row_step. now rewrite Hm.
Qed.

Lemma data_row_records_date (p : option date) (row : list pystr) :
  Forall (fun r => pr_submission_date r = p) (data_row_records p row).
Proof.
  unfold data_row_records, project_of_row.
  destruct (validate_row_length row 8); [|constructor].
  destruct (strip_or_none (raw_value row 1)) as [n|]; [|constructor].
  destruct (on_cell normalize_github_url (raw_value row 6)) as [a|];
    [|constructor].
  destruct (truthy n && truthy a); repeat constructor.
Qed.

Lemma process_projects_returns (stats : ProjectStats)
  (rows : list (list pystr)) (out : list ProjectRecord) :
  fst (_process_projects stats rows) = inr out ->
  exists cur, run_projects None [] rows
              = inr {| current_period := cur; processed_projects := out |}.
Proof.
  unfold _process_projects, run_projects.
  destruct (project_rows _ rows) as [e|[cur o]]; simpl; [discriminate|].
  intros [= <-]. now exists cur.
Qed.

End ProjectRows.

(** C7: [parse_period] is documented to return [None] for a period that is
    not valid, and the specification reads a header that cannot be parsed
    as no period. A header whose year does not fit a C [int] is neither:
    [date()] raises [OverflowError], the handler of [parse_period] names
    [ValueError] and [IndexError] only, and [_process_projects] calls it
    outside any [try]: the header ends the processing of the projects, and
    with it [process_all_data], and the data row after it gets no record.
    The same header with the year 0 is read as no period. *)
Theorem C7_overflowing_year_aborts_the_run :
  let stats := {| ps_total := 0; ps_imported := 0; ps_linking_errors := 0 |} in
  let row :=
    [ str "1"; str "proj1"; str "Python"; [];
      str "https://github.com/alice/p"; []; str "alice"; str "x" ] in
  let m := [ str "Январь, 99999999999999999999" ] in
  is_period_header m = true
  /\ parse_period (str "Январь, 99999999999999999999") = inl Validation.OverflowError
  /\ parse_period (str "Январь, 0") = inr None
  /\ fst (_process_projects stats [ m; row ]) = inl Validation.OverflowError
  /\ (forall now, fst (process_all_data true now new_processor
                         {| raw_students := []; raw_mentors := [];
                            raw_projects := [ m; row ]; raw_reviews := [];
                            raw_sponsored_reviews := None |})
                  = inl Validation.OverflowError)
  /\ map pr_submission_date
       (match fst (_process_projects stats [ [ str "Январь, 0" ]; row ]) with
        | inr l => l
        | inl _ => []
        end) = [ None ].
Proof.
  cbv zeta. repeat split; try (intros now); vm_compute; reflexivity.
Qed.

(** X26: a row of at most two cells, or whose second cell is blank, is a
    period header. When the year in its first cell fits a C [int], it gives no
    record; the period read from its first cell ([None] when the cell is
    empty or cannot be parsed) is the submission date of every record of
    the data rows that follow, up to the next header, and what comes from
    that next header on does not depend on it. *)
Theorem period_header_rows_carry_the_period
  (stats : ProjectStats) (before data rest : list (list pystr))
  (m : list pystr) (p : option date) (out0 out2 : list ProjectRecord) :
  is_period_header m = true ->
  Forall (fun row => is_period_header row = false) data ->
  (rest = [] \/ exists m' rest', rest = m' :: rest'
                                 /\ is_period_header m' = true) ->
  fst (_process_projects stats before) = inr out0 ->
  header_period m = inr p ->
  fst (_process_projects stats rest) = inr out2 ->
  fst (_process_projects stats (before ++ m :: data ++ rest))
  = inr (out0 ++ flat_map (data_row_records p) data ++ out2)
  /\ Forall (fun r => pr_submission_date r = p)
       (flat_map (data_row_records p) data).
Proof.
  intros Hm Hdata Hrest H0 Hp H2. split.
  - apply process_projects_returns in H0. destruct H0 as [cur0 E0].
    apply process_projects_returns in H2. destruct H2 as [cur2 E2].
    unfold _process_projects.
    fold (run_projects None [] (before ++ m :: data ++ rest)).
    assert (exists cur,
              run_projects None [] (before ++ m :: data ++ rest)
              = inr {| current_period := cur;
                       processed_projects :=
                         out0 ++ flat_map (data_row_records p) data
                         ++ out2 |})
      as [cur E]; [|now rewrite E].
    unfold run_projects in *. rewrite project_rows_app, E0.
    change (m :: data ++ rest) with ([m] ++ data ++ rest).
    rewrite project_rows_app. simpl.
    assert (project_row_step
              {| current_period := cur0; processed_projects := out0 |} m
            = inr {| current_period := p; processed_projects := out0 |})
      as Em.
    { unfold project_row_step. now rewrite Hm, Hp. }
    rewrite Em, project_rows_app.
    fold (run_projects p out0 data).
    rewrite run_projects_acc, run_projects_data by assumption. simpl.
    match goal with
    | |- exists cur, project_rows ?s rest = _ =>
        change (project_rows s rest)
          with (run_projects p
                  (out0 ++ flat_map (data_row_records p) data) rest)
    end.
    rewrite run_projects_acc.
    assert (exists cur,
              run_projects p [] rest
              = inr {| current_period := cur; processed_projects := out2 |})
      as [cur Er].
    { destruct Hrest as [-> | [m' [rest' [-> Hm']]]].
      - exists p. unfold run_projects in *. simpl in *. congruence.
      - exists cur2. rewrite run_projects_header_first by assumption.
        exact E2. }
    exists cur. rewrite Er. simpl. now rewrite <- app_assoc.
  - apply Forall_flat_map, Forall_forall. intros row _.
    apply data_row_records_date.
Qed.

(** X26 on a header for November 2021, one project row, and
    then a header for December 2021 whose second cell is blank, with
    another project row. *)
Lemma period_header_rows_witness :
  let stats := {| ps_total := 0; ps_imported := 0; ps_linking_errors := 0 |} in
  let m := [ str "Ноябрь, 2021" ] in
  let row name :=
    [ str "1"; name; str "Python"; []; str "https://github.com/alice/p";
      []; str "alice"; str "x" ] in
  let data := [ row (str "proj1") ] in
  let rest := [ [ str "Декабрь, 2021"; str " "; str "x" ];
                row (str "proj2") ] in
  let p := Some (Date 2021 11 1) in
  map pr_submission_date (flat_map (data_row_records p) data) = [ p ]
  /\ map pr_submission_date
       (match fst (_process_projects stats rest) with
        | inr l => l
        | inl _ => []
        end) = [ Some (Date 2021 12 1) ]
  /\ fst (_process_projects stats ([] ++ m :: data ++ rest))
     = inr ([] ++ flat_map (data_row_records p) data
            ++ match fst (_process_projects stats rest) with
               | inr l => l
               | inl _ => []
               end)
  /\ Forall (fun r => pr_submission_date r = p)
       (flat_map (data_row_records p) data).
Proof.
  intros stats m row data rest p.
  split; [reflexivity|]. split; [vm_compute; reflexivity|].
  apply (@period_header_rows_carry_the_period stats [] data rest m p [] _).
  - reflexivity.
  - repeat constructor.
  - right. eexists _, _. split; reflexivity.
  - reflexivity.
  - reflexivity.
  - vm_compute. reflexivity.
Defined.

Section SponsoredRows.

Variable now : nat -> pystr.

(** Replacing one character by nothing filters it out. *)
Lemma replace_char_by_nothing (c : N) (s : pystr) :
  replace [c] [] s = filter (fun x => negb (c =? x)%N) s.
Proof.
  unfold replace. induction s as [|a t IH]; [reflexivity|].
  cbn [replace_go startswith length Nat.sub filter].
  rewrite andb_true_r. destruct (c =? a)%N; simpl; now rewrite IH.
Qed.

(** Replacing one character by another maps it. *)
Lemma replace_char_by_char (c d : N) (s : pystr) :
  replace [c] [d] s = map (fun x => if (x =? c)%N then d else x) s.
Proof.
  unfold replace. induction s as [|a t IH]; [reflexivity|].
  cbn [replace_go startswith length Nat.sub map].
  rewrite andb_true_r, (N.eqb_sym a c).
  destruct (c =? a)%N; simpl; now rewrite IH.
Qed.

(** The four replacements of the code strip the three currency signs and
    turn the comma into a point. *)
Lemma cost_clean_is_cost_text (cost_str : pystr) :
  cost_clean cost_str = cost_text cost_str.
Proof.
  unfold cost_clean, cost_text.
  change (str ",") with [44%N]. change (str ".") with [46%N].
  change (str "$") with [36%N]. change (str "€") with [8364%N].
  change (str "₽") with [8381%N].
  rewrite replace_char_by_char, !replace_char_by_nothing.
  do 2 f_equal.
  induction cost_str as [|a t IH]; [reflexivity|]. cbn [filter].
  rewrite (N.eqb_sym a 36), (N.eqb_sym a 8364), (N.eqb_sym a 8381).
  destruct (36 =? a)%N; cbn [negb orb filter]; [exact IH|].
  destruct (8364 =? a)%N; cbn [negb orb filter]; [exact IH|].
  destruct (8381 =? a)%N; cbn [negb orb filter]; [exact IH|].
  now rewrite IH.
Qed.

Lemma present_cell_value (c : pystr) :
  present (cell_value c) = truthy (strip c).
Proof.
  unfold cell_value. destruct c as [|x c]; [reflexivity|]. reflexivity.
Qed.

Lemma cell_value_some (c v : pystr) : cell_value c = Some v -> v = strip c.
Proof.
  unfold cell_value. destruct (truthy c); [|discriminate].
  now intros [= <-].
Qed.

Lemma cell_value_none (c : pystr) :
  cell_value c = None -> truthy (strip c) = false.
Proof.
  unfold cell_value. destruct c; [reflexivity | discriminate].
Qed.

Local Opaque startswith strip PyFloat.py_float Nat.leb Nat.ltb str.

(** The body of the loop, row by row. *)
Lemma sponsored_row_char (readings : nat) (row : list pystr) :
  sponsored_row now readings row =
  if skipped row then Skipped
  else if retained_conditions row then Accepted (record_of now readings row)
  else Rejected.
Proof.
  unfold sponsored_row, skipped, retained_conditions, record_of.
  destruct (is_empty_row row); [reflexivity|].
  destruct (is_header_row row); [reflexivity|].
  destruct (is_period_only_row row); [reflexivity|]. simpl.
  destruct (length row <? 5)%nat eqn:Elen.
  { apply Nat.ltb_lt in Elen.
    destruct (5 <=? length row)%nat eqn:E; [apply Nat.leb_le in E; lia|].
    reflexivity. }
  apply Nat.ltb_ge in Elen. apply Nat.leb_le in Elen. rewrite Elen. simpl.
  destruct (cell_value (part 3 row)) as [mentor|] eqn:E3.
  2:{ apply cell_value_none in E3. now rewrite E3. }
  apply cell_value_some in E3. subst mentor.
  destruct (cell_value (part 1 row)) as [url|] eqn:E1.
  2:{ apply cell_value_none in E1. rewrite E1.
      now destruct (truthy (strip (part 3 row))). }
  apply cell_value_some in E1. subst url.
  destruct (cell_value (part 4 row)) as [cost_s|] eqn:E4.
  2:{ apply cell_value_none in E4. rewrite E4.
      now destruct (truthy (strip (part 3 row))),
                   (truthy (strip (part 1 row))). }
  apply cell_value_some in E4. subst cost_s.
  destruct (truthy (strip (part 3 row))); [|reflexivity].
  destruct (truthy (strip (part 1 row))); [|reflexivity].
  destruct (truthy (strip (part 4 row))); [|reflexivity]. simpl.
  destruct (startswith _ (strip (part 1 row))); [|reflexivity]. simpl.
  unfold cost_of.
  destruct (PyFloat.py_float _) as [cost|]; [|reflexivity].
  destruct (PyFloat.ltb cost PyFloat.zero); reflexivity.
Qed.

Local Transparent startswith strip PyFloat.py_float Nat.leb Nat.ltb str.

(** The loop as a whole: the records of the accepted rows, in order, each
    with its own reading of the clock, and one validation error for each
    rejected row. *)
Lemma sponsored_loop_char (rows : list (list pystr)) :
  forall acc stats,
    fold_left (sponsored_row_step now) rows (acc, stats) =
    (acc ++ records_of now (length acc) (filter accepted rows),
     {| ss_total := ss_total stats;
        ss_imported := ss_imported stats + length (filter accepted rows);
        ss_linking_errors := ss_linking_errors stats;
        ss_validation_errors :=
          ss_validation_errors stats + length (filter rejected rows) |}).
Proof.
  induction rows as [|row rows IH]; intros acc stats; simpl.
  - rewrite app_nil_r, !Nat.add_0_r. now destruct stats.
  - rewrite sponsored_row_char. unfold accepted, rejected.
    destruct (skipped row); simpl; [apply IH|].
    destruct (retained_conditions row); simpl; rewrite IH; simpl.
    + rewrite <- app_assoc, length_app, Nat.add_1_r. simpl.
      fold accepted. fold rejected.
      apply f_equal2; [reflexivity|]. f_equal; lia.
    + fold accepted. fold rejected.
      apply f_equal2; [reflexivity|]. f_equal; lia.
Qed.

Lemma records_of_length (readings : nat) (rows : list (list pystr)) :
  length (records_of now readings rows) = length rows.
Proof.
  revert readings. induction rows as [|row rows IH]; intros readings;
    simpl; [reflexivity|]. now rewrite IH.
Qed.

Lemma records_of_forall (P : SponsoredReviewRecord -> Prop)
  (rows : list (list pystr)) :
  (forall readings row, In row rows -> P (record_of now readings row)) ->
  forall readings, Forall P (records_of now readings rows).
Proof.
  induction rows as [|row rows IH]; intros H readings; simpl;
    constructor.
  - apply H. now left.
  - apply IH. intros n r Hr. apply H. now right.
Qed.

Lemma records_of_currency (readings : nat) (rows : list (list pystr)) :
  Forall (fun r => sr_currency r = str "USD")
         (records_of now readings rows).
Proof. apply records_of_forall. reflexivity. Qed.

End SponsoredRows.

(** C6, as amended. A row that the loop does not pass over (it passes over
    blank rows, rows whose first cell holds a header word and rows that
    hold a period only, without counting them) becomes a record exactly
    when it has five cells, its mentor, project URL and cost cells are not
    blank, the URL starts with [https://github.com/], and the cost, rid of
    [$], [€] and [₽] and with its comma turned into a point, is read by
    [float()] as a value that is not below zero; every other such row adds
    one to the validation errors and gives no record. Nothing raises. The
    text that [float()] reads is the cost cell with the three signs
    filtered out and every comma mapped to a point, trimmed. ["$20,00"] is
    read as 20.0, ["₽1500"] as 1500.0, ["€12,50"] and the same cost in
    Arabic-Indic digits as 12.5, and a row whose cost is ["abc"] is a
    validation error. *)
Theorem C6_sponsored_row_validation :
  (forall now readings row,
      sponsored_row now readings row =
      if skipped row then Skipped
      else if retained_conditions row
           then Accepted (record_of now readings row)
      else Rejected)
  /\ (forall now stats rows,
         _process_sponsored_reviews now stats rows =
         (records_of now 0
            (filter (fun row => negb (skipped row) && retained_conditions row)
               rows),
          {| ss_total := length rows;
             ss_imported :=
               ss_imported stats
               + length (filter (fun row => negb (skipped row)
                                            && retained_conditions row) rows);
             ss_linking_errors := ss_linking_errors stats;
             ss_validation_errors :=
               ss_validation_errors stats
               + length (filter (fun row => negb (skipped row)
                                   && negb (retained_conditions row)) rows)
          |}))
  /\ (forall cost_str, cost_clean cost_str = cost_text cost_str)
  /\ (forall row,
         cost_of row = PyFloat.py_float (cost_text (strip (part 4 row))))
  /\ PyFloat.py_float (cost_clean (str "$20,00")) = Some (PyFloat.of_Z 20)
  /\ PyFloat.py_float (cost_clean (str "₽1500")) = Some (PyFloat.of_Z 1500)
  /\ PyFloat.py_float (cost_clean (str "€12,50"))
     = Some (S754_finite false 7036874417766400 (-49))
  /\ PyFloat.py_float (cost_clean (str "abc")) = None
  /\ (forall now readings,
         sponsored_row now readings
           [ str "Январь, 2025"; str "https://github.com/octo/repo";
             str "https://t.me/c/1/2"; str "@mentor"; str "abc" ]
         = Rejected)
  /\ (forall now readings,
         match sponsored_row now readings
                 [ []; str "https://github.com/octo/repo";
                   str "https://t.me/c/1/2"; str "@mentor"; str "€12,50" ]
         with
         | Accepted r =>
             sr_cost r = S754_finite false 7036874417766400 (-49)
             /\ sr_created_at r = now readings
         | _ => False
         end)
  /\ (forall now readings,
         match sponsored_row now readings
                 [ []; str "https://github.com/octo/repo";
                   str "https://t.me/c/1/2"; str "@mentor"; str "$١٢,٥" ]
         with
         | Accepted r =>
             sr_cost r = S754_finite false 7036874417766400 (-49)
         | _ => False
         end).
Proof.
  split; [exact sponsored_row_char|].
  split.
  { intros now stats rows. unfold _process_sponsored_reviews.
    rewrite sponsored_loop_char. reflexivity. }
  split; [exact cost_clean_is_cost_text|].
  split.
  { intros row. unfold cost_of. now rewrite cost_clean_is_cost_text. }
  repeat split; try (vm_compute; reflexivity).
Qed.

(** C6, as the specification words it, fails: a row that holds a period
    and nothing else has no mentor, and yet it is passed over without a
    validation error. *)
Lemma C6_uncounted_row_counterexample :
  ~ (forall now stats row,
        claimed_conditions row = false ->
        ss_validation_errors
          (snd (sponsored_row_step now ([], stats) row))
        = ss_validation_errors stats + 1).
Proof.
  intros H.
  specialize (H (fun _ => []) {| ss_total := 0; ss_imported := 0;
                      ss_linking_errors := 0; ss_validation_errors := 0 |}
                [ str "Январь, 2025"; []; []; []; [] ]).
  vm_compute in H. specialize (H eq_refl). discriminate.
Qed.

(** A cost cell that holds [nan] is read as a float that is not below zero
    (it compares with nothing), so the row is kept although its cost is not
    zero or more. *)
Lemma nan_cost_is_kept :
  let row := [ []; str "https://github.com/octo/repo"; []; str "@mentor";
               str "nan" ] in
  claimed_conditions row = false
  /\ sponsored_row (fun _ => []) 0 row
     = Accepted (record_of (fun _ => []) 0 row)
  /\ sr_cost (record_of (fun _ => []) 0 row) = S754_nan.
Proof. vm_compute. repeat split. Qed.

(** C8: every record that the pipeline keeps carries the currency
    ["USD"], whatever sign its cost cell held. *)
Theorem C8_currency_is_USD
  (now : nat -> pystr) (stats : SponsoredStats)
  (rows : list (list pystr)) :
  Forall (fun r => sr_currency r = str "USD")
         (fst (_process_sponsored_reviews now stats rows)).
Proof.
  unfold _process_sponsored_reviews. rewrite sponsored_loop_char. simpl.
  apply records_of_currency.
Qed.

(** C8 on a cost in roubles and on a cost in euros. *)
Lemma currency_of_rouble_and_euro_rows :
  map sr_currency
    (fst (_process_sponsored_reviews (fun _ => [])
            {| ss_total := 0; ss_imported := 0; ss_linking_errors := 0;
               ss_validation_errors := 0 |}
            [ [ []; str "https://github.com/octo/repo"; []; str "@mentor";
                str "₽1500" ];
              [ []; str "https://github.com/octo/repo"; []; str "@mentor";
                str "€12,50" ] ]))
  = [ str "USD"; str "USD" ].
Proof. vm_compute. reflexivity. Qed.

(* ===================================================================== *)
(** ** Properties of the transaction *)
(* ===================================================================== *)

Section Atomicity.

Variable faulty : nat -> bool.
Variable on_delete_cascade : bool.
Variable enable_financial_import : bool.
Variable utcnow : pystr.

Lemma quiet_refl (st : State) : quiet st st.
Proof.
  repeat split; [|lia]. exists []. now rewrite app_nil_r.
Qed.

Lemma quiet_trans (a b c : State) : quiet a b -> quiet b c -> quiet a c.
Proof.
  intros (C1 & (o1 & O1 & F1) & R1) (C2 & (o2 & O2 & F2) & R2).
  repeat split; [congruence| |lia].
  exists (o1 ++ o2). split.
  - now rewrite O2, O1, app_assoc.
  - apply Forall_app. split; [exact F1|]. now rewrite <- C1.
Qed.

Lemma quiet_tick (st : State) : quiet st (tick st).
Proof.
  repeat split; simpl; [|lia]. exists [committed st]. split; auto.
Qed.

Lemma quiet_note_raise (st : State) : quiet st (note_raise st).
Proof.
  repeat split; simpl; [|lia]. exists []. now rewrite app_nil_r.
Qed.

Lemma quiet_set_working (w : DB) (st : State) : quiet st (set_working w st).
Proof.
  repeat split; simpl; [|lia]. exists []. now rewrite app_nil_r.
Qed.

Lemma quiet_set_locals g t p s (st : State) : quiet st (set_locals g t p s st).
Proof.
  repeat split; simpl; [|lia]. exists []. now rewrite app_nil_r.
Qed.

Lemma safe_ret {A : Type} (a : A) : safe (ret a).
Proof.
  intros st r st' [= <- <-]. split; [apply quiet_refl | discriminate].
Qed.

Lemma safe_raise {A : Type} (e : Fault) : safe (@raise A e).
Proof.
  intros st r st' [= <- <-]. split; [apply quiet_note_raise|].
  intros _ _. simpl. lia.
Qed.

Lemma safe_gets {A : Type} (f : State -> A) : safe (gets f).
Proof.
  intros st r st' [= <- <-]. split; [apply quiet_refl | discriminate].
Qed.

Lemma safe_modify (f : State -> State) :
  (forall st, quiet st (f st)) -> safe (modify f).
Proof.
  intros H st r st' [= <- <-]. split; [apply H | discriminate].
Qed.

Lemma safe_bind {A B : Type} (m : M A) (k : A -> M B) :
  safe m -> (forall a, safe (k a)) -> safe (bind m k).
Proof.
  intros Hm Hk st r st'. unfold bind.
  destruct (m st) as [[e|a] st1] eqn:E; intros H.
  - injection H as <- <-. destruct (Hm _ _ _ E) as [Q F].
    split; [exact Q | intros e' _; exact (F e eq_refl)].
  - destruct (Hm _ _ _ E) as [Q1 _]. destruct (Hk a _ _ _ H) as [Q2 F2].
    split; [exact (quiet_trans Q1 Q2)|].
    intros e He. specialize (F2 e He). destruct Q1 as (_ & _ & R1). lia.
Qed.

Lemma safe_try_catch {A : Type} (m : M A) (h : Fault -> M A) :
  safe m -> (forall e, safe (h e)) -> safe (try_catch m h).
Proof.
  intros Hm Hh st r st'. unfold try_catch.
  destruct (m st) as [[e|a] st1] eqn:E; intros H.
  - destruct (Hm _ _ _ E) as [Q1 _]. destruct (Hh e _ _ _ H) as [Q2 F2].
    split; [exact (quiet_trans Q1 Q2)|].
    intros e' He. specialize (F2 e' He). destruct Q1 as (_ & _ & R1). lia.
  - injection H as <- <-. exact (Hm _ _ _ E).
Qed.

Lemma safe_for_each {A : Type} (l : list A) (body : A -> M unit) :
  (forall x, safe (body x)) -> safe (for_each l body).
Proof.
  intros H. induction l as [|x l IH]; simpl.
  - apply safe_ret.
  - apply safe_bind; [apply H | intros _; exact IH].
Qed.

Lemma safe_execute {A : Type} (stmt : Stmt A) : safe (execute faulty stmt).
Proof.
  intros st r st'. unfold execute.
  destruct (faulty (sent st)).
  - intros [= <- <-]. split.
    + exact (quiet_trans (quiet_tick st) (quiet_note_raise _)).
    + intros _ _. simpl. lia.
  - destruct (stmt (working (tick st))) as [e|[a w]].
    + intros [= <- <-]. split.
      * exact (quiet_trans (quiet_tick st) (quiet_note_raise _)).
      * intros _ _. simpl. lia.
    + intros [= <- <-]. split.
      * exact (quiet_trans (quiet_tick st) (quiet_set_working _ _)).
      * discriminate.
Qed.

Lemma safe_rollback : safe (rollback faulty).
Proof.
  intros st r st'. unfold rollback.
  destruct (faulty (sent st)); intros [= <- <-]; split.
  - exact (quiet_trans (quiet_tick st) (quiet_note_raise _)).
  - intros _ _. simpl. lia.
  - exact (quiet_trans (quiet_tick st) (quiet_set_working _ _)).
  - discriminate.
Qed.

Lemma safe_scalar_one_or_none {R : Type} (rows : list R) :
  safe (scalar_one_or_none rows).
Proof.
  destruct rows as [|a [|b rows]]; simpl;
    [apply safe_ret | apply safe_ret | apply safe_raise].
Qed.

Lemma safe_bump (c : Counter) : safe (bump c).
Proof. apply safe_modify. intros st. apply quiet_set_locals. Qed.

Lemma safe_set_github k v : safe (set_github k v).
Proof. apply safe_modify. intros st. apply quiet_set_locals. Qed.

Lemma safe_set_telegram k v : safe (set_telegram k v).
Proof. apply safe_modify. intros st. apply quiet_set_locals. Qed.

Lemma safe_set_project_name k v : safe (set_project_name k v).
Proof. apply safe_modify. intros st. apply quiet_set_locals. Qed.

Create HintDb safe.
#[local] Hint Resolve safe_ret safe_raise safe_gets safe_execute safe_rollback
  safe_scalar_one_or_none safe_bump safe_set_github safe_set_telegram
  safe_set_project_name : safe.

(** One step through the syntax of a computation. *)
Ltac safe_step :=
  match goal with
  | |- safe (bind _ _) => apply safe_bind; [|intros]
  | |- safe (try_catch _ _) => apply safe_try_catch; [|intros]
  | |- safe (for_each _ _) => apply safe_for_each; intros
  | |- safe (modify _) =>
      apply safe_modify; intros; apply quiet_set_locals
  | |- safe (match ?x with _ => _ end) => destruct x
  | |- safe _ => solve [auto with safe]
  end.
Ltac safe_all := repeat safe_step.

Lemma safe_get_or_create_role (role_name : pystr) :
  safe (_get_or_create_role faulty role_name).
Proof. unfold _get_or_create_role. safe_all. Qed.

Lemma safe_find_existing_user (user_data : UserData) :
  safe (_find_existing_user faulty user_data).
Proof. unfold _find_existing_user. safe_all. Qed.

#[local] Hint Resolve safe_get_or_create_role safe_find_existing_user : safe.

Lemma safe_import_users (users_data : list UserData) (role_name : pystr) :
  safe (_import_users faulty users_data role_name).
Proof. unfold _import_users, import_user. safe_all. Qed.

Lemma safe_import_mentor_profiles (mentors_data : list UserData) :
  safe (_import_mentor_profiles faulty mentors_data).
Proof. unfold _import_mentor_profiles, import_mentor_profile. safe_all. Qed.

Lemma safe_import_projects (projects_data : list ProjectRecord) :
  safe (_import_projects faulty projects_data).
Proof. unfold _import_projects, import_project. safe_all. Qed.

Lemma safe_import_reviews (reviews_data : list ReviewData) :
  safe (_import_reviews faulty reviews_data).
Proof. unfold _import_reviews, import_review. safe_all. Qed.

Lemma safe_find_project_by_github_url (github_url : pystr)
  (project_name : option pystr) :
  safe (_find_project_by_github_url faulty github_url project_name).
Proof. unfold _find_project_by_github_url. safe_all. Qed.

Lemma safe_find_review_by_url (url : option pystr) (mentor_id project_id : Z) :
  safe (_find_review_by_url faulty url mentor_id project_id).
Proof. unfold _find_review_by_url. safe_all. Qed.

#[local] Hint Resolve safe_find_project_by_github_url safe_find_review_by_url
  : safe.

Lemma safe_rate (a b : nat) : safe (rate a b).
Proof. unfold rate. safe_all. Qed.

#[local] Hint Resolve safe_rate : safe.

Lemma safe_import_sponsored_reviews (data : list SponsoredReviewRecord) :
  safe (_import_sponsored_reviews faulty utcnow data).
Proof.
  unfold _import_sponsored_reviews, sponsored_rows, sponsored_report,
    import_sponsored_review. safe_all.
Qed.

Lemma safe_clear_table {R : Type} (T : Table R) : safe (clear_table faulty T).
Proof. unfold clear_table. safe_all. Qed.

#[local] Hint Resolve safe_import_users safe_import_mentor_profiles
  safe_import_projects safe_import_reviews safe_import_sponsored_reviews
  safe_clear_table : safe.

Lemma safe_clear_database :
  safe (_clear_database faulty on_delete_cascade).
Proof. unfold _clear_database. safe_all. Qed.

Lemma safe_import_phases (processed_data : ProcessedData) :
  safe (import_phases faulty enable_financial_import utcnow processed_data).
Proof. unfold import_phases. safe_all. Qed.


(** *** Clearing the tables *)

(** Clearing a table never fails, and when no fault was raised on the way
    the table is empty afterwards. *)
Lemma clear_table_result {R : Type} (T : Table R) (st st' : State) r :
  clear_table faulty T st = (r, st') ->
  r = inr tt
  /\ (raised st' = raised st -> working st' = empty_table T (working st)).
Proof.
  unfold clear_table, try_catch, bind, execute, table_exists, delete,
    empty_table, ret, raise.
  destruct (faulty (sent st)); simpl.
  { intros [= <- <-]. split; [reflexivity | simpl; lia]. }
  destruct (rows_of T (working st)) as [rows|] eqn:E; simpl.
  - destruct (faulty (S (sent st))); simpl.
    + intros [= <- <-]. split; [reflexivity | simpl; lia].
    + rewrite E. intros [= <- <-]. split; reflexivity.
  - intros [= <- <-]. split; reflexivity.
Qed.

Lemma clear_users_result (st st' : State) r :
  try_catch
    (exists_ <- execute faulty (table_exists User_) ;;
     if exists_ then execute faulty (delete_users on_delete_cascade)
     else ret tt)
    (fun _ => ret tt) st = (r, st') ->
  r = inr tt
  /\ (raised st' = raised st -> working st' = empty_users on_delete_cascade (working st)).
Proof.
  unfold empty_users.
  unfold try_catch, bind, execute, table_exists, delete_users, delete,
    ret, raise.
  destruct (faulty (sent st)); simpl.
  { intros [= <- <-]. split; [reflexivity | simpl; lia]. }
  destruct (users (working st)) as [rows|] eqn:E; simpl.
  - destruct (faulty (S (sent st))); simpl.
    + intros [= <- <-]. split; [reflexivity | simpl; lia].
    + rewrite E. destruct on_delete_cascade; intros [= <- <-];
        split; reflexivity.
  - intros [= <- <-]. split; reflexivity.
Qed.

Lemma empty_tables_clear_owned (d : DB) :
  empty_users on_delete_cascade
    (empty_table Project_
       (empty_table MentorProfile_
          (empty_table Review_ (empty_table SponsoredReview_ d))))
  = clear_owned on_delete_cascade d.
Proof.
  unfold empty_users, delete_users, clear_owned.
  destruct d as [[u|] [ur|] ro [mp|] [p|] [rv|] [sr|]];
    destruct on_delete_cascade; reflexivity.
Qed.

(** [_clear_database] never fails; when no fault was raised on the way,
    every owned table is empty afterwards. *)
Lemma clear_database_result (st st' : State) r :
  _clear_database faulty on_delete_cascade st = (r, st') ->
  r = inr tt
  /\ (raised st' = raised st ->
      working st' = clear_owned on_delete_cascade (working st)).
Proof.
  unfold _clear_database. unfold bind at 1.
  destruct (clear_table faulty SponsoredReview_ st) as [r1 s1] eqn:E1.
  pose proof (safe_clear_table SponsoredReview_ _ E1) as [(_ & _ & M1) _].
  apply clear_table_result in E1. destruct E1 as [-> W1].
  unfold bind at 1.
  destruct (clear_table faulty Review_ s1) as [r2 s2] eqn:E2.
  pose proof (safe_clear_table Review_ _ E2) as [(_ & _ & M2) _].
  apply clear_table_result in E2. destruct E2 as [-> W2].
  unfold bind at 1.
  destruct (clear_table faulty MentorProfile_ s2) as [r3 s3] eqn:E3.
  pose proof (safe_clear_table MentorProfile_ _ E3) as [(_ & _ & M3) _].
  apply clear_table_result in E3. destruct E3 as [-> W3].
  unfold bind at 1.
  destruct (clear_table faulty Project_ s3) as [r4 s4] eqn:E4.
  pose proof (safe_clear_table Project_ _ E4) as [(_ & _ & M4) _].
  apply clear_table_result in E4. destruct E4 as [-> W4].
  intros E5.
  assert (raised s4 <= raised st') as M5.
  { assert (safe (try_catch
       (exists_ <- execute faulty (table_exists User_) ;;
        if exists_ then execute faulty (delete_users on_delete_cascade)
        else ret tt) (fun _ => ret tt))) as S5
      by (unfold clear_table; safe_all).
    now destruct (S5 _ _ _ E5) as [(_ & _ & M5) _]. }
  apply clear_users_result in E5. destruct E5 as [-> W5].
  split; [reflexivity|]. intros Hr.
  rewrite W5, W4, W3, W2, W1 by lia.
  apply empty_tables_clear_owned.
Qed.

(** When the store answers its statements, clearing a table raises
    nothing and leaves the counters alone. The statements are told by
    their place after a given one. *)
Lemma clear_table_clean {R : Type} (T : Table R) (base k : nat)
  (st st' : State) r :
  sent st = base + k ->
  faulty (base + k) = false ->
  (exists_ (rows_of T (working st)) = true ->
   faulty (base + S k) = false) ->
  clear_table faulty T st = (r, st') ->
  raised st' = raised st
  /\ import_stats st' = import_stats st
  /\ working st' = empty_table T (working st)
  /\ sent st' = base + (k + if exists_ (rows_of T (working st))
                           then 2 else 1).
Proof.
  intros N F0 F1.
  unfold clear_table, try_catch, bind, execute, table_exists, delete,
    empty_table, ret, raise.
  simpl. rewrite !N, F0. simpl.
  destruct (rows_of T (working st)) as [rows|] eqn:E; simpl; rewrite ?N.
  - replace (S (base + k)) with (base + S k) by lia.
    rewrite (F1 eq_refl), E. intros [= <- <-]. simpl.
    repeat split; lia.
  - intros [= <- <-]. simpl. repeat split; lia.
Qed.

Lemma clear_users_clean (base k : nat) (st st' : State) r :
  sent st = base + k ->
  faulty (base + k) = false ->
  (exists_ (users (working st)) = true -> faulty (base + S k) = false) ->
  try_catch
    (exists_ <- execute faulty (table_exists User_) ;;
     if exists_ then execute faulty (delete_users on_delete_cascade)
     else ret tt)
    (fun _ => ret tt) st = (r, st') ->
  raised st' = raised st /\ import_stats st' = import_stats st.
Proof.
  intros N F0 F1.
  unfold try_catch, bind, execute, table_exists, delete_users, delete,
    ret, raise.
  simpl. rewrite !N, F0. simpl.
  destruct (users (working st)) as [rows|] eqn:E; simpl; rewrite ?N.
  - replace (S (base + k)) with (base + S k) by lia.
    rewrite (F1 eq_refl), E. destruct on_delete_cascade; intros [= <- <-];
      split; reflexivity.
  - intros [= <- <-]. split; reflexivity.
Qed.

(** When the store answers the statements that [_clear_database] sends,
    the five owned tables are emptied, and nothing else moves. *)
Lemma clear_database_clean (st st' : State) r :
  (forall n, n < clearing_statements (working st) ->
             faulty (sent st + n) = false) ->
  _clear_database faulty on_delete_cascade st = (r, st') ->
  r = inr tt
  /\ working st' = clear_owned on_delete_cascade (working st)
  /\ import_stats st' = import_stats st
  /\ raised st' = raised st.
Proof.
  intros F E. pose proof E as E0.
  apply clear_database_result in E0. destruct E0 as [-> W].
  cut (raised st' = raised st /\ import_stats st' = import_stats st).
  { intros [R S]. repeat split; auto. }
  revert E. unfold _clear_database.
  destruct (working st) as [u ur ro mp p rv sr] eqn:D.
  unfold clearing_statements in F. cbn [sponsored_reviews reviews
    mentor_profiles projects users] in F.
  unfold bind at 1.
  destruct (clear_table faulty SponsoredReview_ st) as [r1 s1] eqn:E1.
  pose proof E1 as X1. apply clear_table_result in X1.
  destruct X1 as [-> _].
  apply (@clear_table_clean _ _ (sent st) 0) in E1;
    [|lia
     |apply F; destruct sr, rv, mp, p, u; simpl; lia
     |rewrite D; intros X; apply F;
      destruct sr, rv, mp, p, u; simpl in *; lia || discriminate X].
  destruct E1 as (R1 & S1 & W1 & N1). rewrite D in W1, N1.
  unfold bind at 1.
  destruct (clear_table faulty Review_ s1) as [r2 s2] eqn:E2.
  pose proof E2 as X2. apply clear_table_result in X2.
  destruct X2 as [-> _].
  apply (@clear_table_clean _ _ (sent st) (sent s1 - sent st)) in E2;
    [|lia
     |rewrite N1; apply F; destruct sr, rv, mp, p, u; simpl; lia
     |rewrite W1, N1; intros X; apply F;
      destruct sr, rv, mp, p, u; simpl in *; lia || discriminate X].
  destruct E2 as (R2 & S2 & W2 & N2). rewrite W1 in W2, N2.
  unfold bind at 1.
  destruct (clear_table faulty MentorProfile_ s2) as [r3 s3] eqn:E3.
  pose proof E3 as X3. apply clear_table_result in X3.
  destruct X3 as [-> _].
  apply (@clear_table_clean _ _ (sent st) (sent s2 - sent st)) in E3;
    [|lia
     |rewrite N2, N1; apply F; destruct sr, rv, mp, p, u; simpl; lia
     |rewrite W2, N2, N1; intros X; apply F;
      destruct sr, rv, mp, p, u; simpl in *; lia || discriminate X].
  destruct E3 as (R3 & S3 & W3 & N3). rewrite W2 in W3, N3.
  unfold bind at 1.
  destruct (clear_table faulty Project_ s3) as [r4 s4] eqn:E4.
  pose proof E4 as X4. apply clear_table_result in X4.
  destruct X4 as [-> _].
  apply (@clear_table_clean _ _ (sent st) (sent s3 - sent st)) in E4;
    [|lia
     |rewrite N3, N2, N1; apply F; destruct sr, rv, mp, p, u; simpl; lia
     |rewrite W3, N3, N2, N1; intros X; apply F;
      destruct sr, rv, mp, p, u; simpl in *; lia || discriminate X].
  destruct E4 as (R4 & S4 & W4 & N4). rewrite W3 in W4, N4.
  intros E5.
  apply (@clear_users_clean (sent st) (sent s4 - sent st)) in E5;
    [|lia
     |rewrite N4, N3, N2, N1; apply F;
      destruct sr, rv, mp, p, u; simpl; lia
     |rewrite W4, N4, N3, N2, N1; intros X; apply F;
      destruct sr, rv, mp, p, u; simpl in *; lia || discriminate X].
  destruct E5 as (R5 & S5). split; congruence.
Qed.

(** *** The transaction *)

(** What the [try] block of [_import_to_database] leaves: either a fault,
    with nothing committed, or the committed view of the transaction. *)
Lemma try_block_cases (processed_data : ProcessedData) (st0 s : State) r :
  (_clear_database faulty on_delete_cascade ;;
   import_phases faulty enable_financial_import utcnow processed_data ;;
   commit faulty ;;
   gets import_stats) st0 = (r, s) ->
  (exists e, r = inl e /\ quiet st0 s /\ raised st0 < raised s)
  \/ (exists s1 s2,
         _clear_database faulty on_delete_cascade st0 = (inr tt, s1)
         /\ import_phases faulty enable_financial_import utcnow
              processed_data s1 = (inr tt, s2)
         /\ quiet st0 s1 /\ quiet s1 s2
         /\ r = inr (import_stats s2)
         /\ committed s = working s2
         /\ observed s = observed s2 ++ [working s2]
         /\ raised s = raised s2).
Proof.
  unfold bind at 1.
  destruct (_clear_database faulty on_delete_cascade st0) as [r1 s1] eqn:E1.
  destruct (safe_clear_database _ E1) as [Q1 _].
  destruct (clear_database_result _ E1) as [-> _].
  unfold bind at 1.
  destruct (import_phases faulty enable_financial_import utcnow
              processed_data s1) as [[e|[]] s2] eqn:E2.
  - intros [= <- <-]. left.
    destruct (safe_import_phases processed_data _ E2) as [Q2 F2].
    exists e. split; [reflexivity|]. split; [exact (quiet_trans Q1 Q2)|].
    specialize (F2 e eq_refl). destruct Q1 as (_ & _ & R1). lia.
  - destruct (safe_import_phases processed_data _ E2) as [Q2 _].
    unfold bind, commit, raise, gets.
    destruct (faulty (sent s2)).
    + intros [= <- <-]. left. exists StoreFault.
      split; [reflexivity|]. split.
      * exact (quiet_trans (quiet_trans Q1 Q2)
                 (quiet_trans (quiet_tick s2) (quiet_note_raise _))).
      * destruct Q1 as (_ & _ & R1), Q2 as (_ & _ & R2). simpl. lia.
    + intros [= <- <-]. right. exists s1, s2. simpl.
      repeat split; auto; apply Q1 || apply Q2.
Qed.

End Atomicity.


(* ===================================================================== *)
(** ** Properties of the linking stage *)
(* ===================================================================== *)

(** C1 at the search name ["my-proj-2"], the URL
    [https://github.com/octo/my-proj-2] and a stored project named
    ["my-proj"]: the candidate passes the test on the four containments
    (its name lies inside both search strings), but only a search string
    that lies inside the candidate's name is scored, so the score stays 0.0
    and the project is not found, where the specification counts both
    directions and scores 2.0. *)
Theorem C1_superset_containment_is_not_scored :
  let search_name := str "my-proj-2" in
  let repo_name := str "my-proj-2" in
  let stored := str "my-proj" in
  similarity_patterns search_name repo_name stored = true
  /\ name_similarity search_name repo_name stored = Some PyFloat.zero
  /\ claimed_similarity search_name repo_name stored = Some (PyFloat.of_Z 2)
  /\ PyFloat.ltb PyFloat.lit_0_3 (PyFloat.of_Z 2) = true
  /\ fuzzy_name_match search_name repo_name [renamed_project] = inr None
  /\ fst (_find_project_by_github_url no_fault
            (str "https://github.com/octo/my-proj-2")
            (Some (str "my-proj-2")) (fresh renamed_store))
     = inr None.
Proof. vm_compute. repeat split. Qed.

(** The pair of the specification: the search name ["my-proj"] lies inside
    the stored name ["my-proj"], the score is 1.0 and the project is
    found. *)
Lemma fuzzy_match_of_the_specification :
  name_similarity (str "my-proj") (str "my-proj-2") (str "my-proj")
  = Some (PyFloat.of_Z 1)
  /\ fst (_find_project_by_github_url no_fault
            (str "https://github.com/octo/my-proj-2")
            (Some (str "my-proj")) (fresh renamed_store))
     = inr (Some 1%Z).
Proof. vm_compute. split; reflexivity. Qed.

(** A candidate whose name holds neither search string is never accepted
    by strategy 4. *)
Lemma fuzzy_name_match_needs_containment
  (search_name repo_name : pystr) (all_projects : list Project) :
  Forall (fun p =>
            contains search_name (strip (lower (p_name p))) = false
            /\ contains repo_name (strip (lower (p_name p))) = false)
         all_projects ->
  fuzzy_name_match search_name repo_name all_projects = inr None.
Proof.
  induction 1 as [|p l [H1 H2] _ IH]; [reflexivity|].
  cbn [fuzzy_name_match]. unfold name_similarity. rewrite H1, H2.
  destruct (similarity_patterns _ _ _); exact IH.
Qed.

(** Strategy 4 accepts a candidate only on a score above 0.3. *)
Lemma fuzzy_name_match_threshold
  (search_name repo_name : pystr) (all_projects : list Project) (id : Z) :
  fuzzy_name_match search_name repo_name all_projects = inr (Some id) ->
  exists p similarity,
    In p all_projects /\ p_id p = id
    /\ name_similarity search_name repo_name (strip (lower (p_name p)))
       = Some similarity
    /\ PyFloat.ltb PyFloat.lit_0_3 similarity = true.
Proof.
  induction all_projects as [|p l IH]; [discriminate|].
  cbn [fuzzy_name_match].
  destruct (similarity_patterns _ _ _).
  - destruct (name_similarity _ _ _) as [sim|] eqn:E; [|discriminate].
    destruct (PyFloat.ltb PyFloat.lit_0_3 sim) eqn:L.
    + intros [= <-]. exists p, sim. repeat split; auto. now left.
    + intros H. destruct (IH H) as (q & s & Hin & Hq).
      exists q, s. split; [now right | exact Hq].
  - intros H. destruct (IH H) as (q & s & Hin & Hq).
    exists q, s. split; [now right | exact Hq].
Qed.

(** The sum of two shares is compared as binary64 values: a tenth and two
    tenths of a name of ten characters add up to a value above 0.3. *)
Lemma similarity_is_a_binary64_sum :
  option_map (PyFloat.ltb PyFloat.lit_0_3)
    (name_similarity (str "a") (str "bc") (str "a-bc-12345"))
  = Some true.
Proof. vm_compute. reflexivity. Qed.

(** C10, as amended: for a message URL that is not empty, when the store
    answers and holds exactly one review with that URL, the review's id is
    returned, whatever mentor and project are passed: the lookup does not
    look at them. *)
Theorem C10_review_found_by_url_alone
  (faulty : nat -> bool) (st : State) (url : pystr) (rows : list Review)
  (r : Review) (mentor_id project_id : Z) :
  truthy url = true ->
  faulty (sent st) = false ->
  reviews (working st) = Some rows ->
  filter (fun x => opt_eqb (r_review_url x) url) rows = [r] ->
  fst (_find_review_by_url faulty (Some url) mentor_id project_id st)
  = inr (Some (r_id r)).
Proof.
  intros Hurl Hf Hrows Hone.
  unfold _find_review_by_url. rewrite Hurl.
  change (negb true) with false. cbv iota.
  unfold bind, execute, select. cbv beta. rewrite Hf.
  change (working (tick st)) with (working st).
  change (rows_of Review_ (working st)) with (reviews (working st)).
  rewrite Hrows, Hone. reflexivity.
Qed.

(** C10 on a review of project 1 by mentor 2, looked up for mentor 99 and
    project 77. *)
Lemma C10_witness :
  r_mentor_id (the_review (str "https://t.me/c/1/10")) <> 99%Z
  /\ r_project_id (the_review (str "https://t.me/c/1/10")) <> 77%Z
  /\ fst (_find_review_by_url no_fault (Some (str "https://t.me/c/1/10"))
            99 77 (fresh (one_review_store (str "https://t.me/c/1/10"))))
     = inr (Some 5%Z).
Proof.
  split; [discriminate|]. split; [discriminate|].
  apply (@C10_review_found_by_url_alone no_fault
           (fresh (one_review_store (str "https://t.me/c/1/10")))
           (str "https://t.me/c/1/10")
           [the_review (str "https://t.me/c/1/10")]
           (the_review (str "https://t.me/c/1/10")) 99 77);
    reflexivity.
Defined.

(** C10, as stated, fails on the empty message URL: the one review whose
    stored URL is empty is not returned. *)
Lemma C10_empty_url_counterexample :
  ~ (forall (faulty : nat -> bool) (st : State) (url : pystr)
            (rows : list Review) (r : Review) (mentor_id project_id : Z),
        faulty (sent st) = false ->
        reviews (working st) = Some rows ->
        filter (fun x => opt_eqb (r_review_url x) url) rows = [r] ->
        fst (_find_review_by_url faulty (Some url) mentor_id project_id st)
        = inr (Some (r_id r))).
Proof.
  intros H.
  specialize (H no_fault (fresh (one_review_store [])) [] [the_review []]
                (the_review []) 2%Z 1%Z eq_refl eq_refl eq_refl).
  discriminate H.
Qed.

(** C3 on two reviews of one project by one mentor and a sponsored review
    of that project by that mentor whose message is neither of them: the
    mentor and the project resolve, the query ordered by decreasing id
    returns both reviews, [scalar_one_or_none] raises on them, the loop
    catches the fault, and the sponsored review is not stored, where the
    specification stores it with the newer review, of id 2. *)
Theorem C3_two_candidate_reviews_drop_the_record :
  let st' := snd (_import_to_database no_fault false true [] two_reviews
                    (fresh empty_store)) in
  let before :=
    snd (import_phases no_fault false []
           {| students := students two_reviews;
              mentors := mentors two_reviews;
              projects_ := projects_ two_reviews;
              reviews_ := reviews_ two_reviews;
              sponsored_reviews_ := None |}
           (begin_run (fresh empty_store))) in
  option_map (map (fun r => (r_id r, r_mentor_id r, r_project_id r)))
    (reviews (committed st'))
  = Some [ (1, 2, 1); (2, 2, 1) ]%Z
  /\ fst (import_sponsored_review no_fault []
            (sponsored_of_proj1 (Some (str "https://t.me/c/1/30"))) before)
     = inl MultipleResultsFound
  /\ sponsored_reviews (committed st') = Some []
  /\ stat (import_stats st') sponsored_created = 0
  /\ stat (import_stats st') sponsored_linking_errors = 0
  /\ raised st' = 1.
Proof. vm_compute. repeat split. Qed.

(** With one review of the project by the mentor the association works: by
    the URL when the message is that review, and by mentor and project
    when it is not. A sponsored review without any review is stored with no
    review. *)
Lemma sponsored_review_association_examples :
  let stored data :=
    option_map (map (fun s => (s_review_id s, s_project_id s, s_mentor_id s)))
      (sponsored_reviews
         (committed (snd (_import_to_database no_fault false true [] data
                            (fresh empty_store))))) in
  stored one_review = Some [ (Some 1, 1, 2) ]%Z
  /\ stored {| students := [alice]; mentors := [bob]; projects_ := [proj1];
               reviews_ := [review_of_proj1 "https://t.me/c/1/10"];
               sponsored_reviews_ :=
                 Some [sponsored_of_proj1 (Some (str "https://t.me/c/9/9"))] |}
     = Some [ (Some 1, 1, 2) ]%Z
  /\ stored {| students := [alice]; mentors := [bob]; projects_ := [proj1];
               reviews_ := [];
               sponsored_reviews_ := Some [sponsored_of_proj1 None] |}
     = Some [ (None, 1, 2) ]%Z.
Proof. vm_compute. repeat split. Qed.

(* ===================================================================== *)
(** ** Further properties of the normalizers *)
(* ===================================================================== *)

(** Boolean tests on code points, handed to [lia]. *)
Ltac bool_lia :=
  repeat match goal with
         | H : @eq bool _ _ |- _ => revert H
         end;
  repeat (progress
            rewrite ?andb_true_iff, ?andb_false_iff, ?orb_true_iff,
              ?orb_false_iff, ?negb_true_iff, ?negb_false_iff, ?N.leb_le,
              ?N.leb_gt, ?N.eqb_eq, ?N.eqb_neq);
  intros; lia.

(** The test of the first conditional of the goal does not hold. *)
Ltac next_if_false :=
  match goal with
  | |- context [if ?b then _ else _] =>
      destruct b eqn:?; [exfalso; bool_lia|]
  end.

Section NormalizerFacts.

Lemma lstrip_by_id (p : N -> bool) (s : pystr) :
  forallb (fun c => negb (p c)) s = true -> lstrip_by p s = s.
Proof.
  destruct s as [|c t]; [reflexivity|]. simpl.
  intros H. apply andb_prop in H. destruct H as [H _].
  now destruct (p c).
Qed.

Lemma rstrip_by_id (p : N -> bool) (s : pystr) :
  forallb (fun c => negb (p c)) s = true -> rstrip_by p s = s.
Proof.
  intros H. unfold rstrip_by. rewrite lstrip_by_id.
  - apply rev_involutive.
  - rewrite forallb_forall in *. intros x Hx. apply H. now apply in_rev.
Qed.

Lemma strip_id (s : pystr) :
  forallb (fun c => negb (is_space c)) s = true -> strip s = s.
Proof.
  intros H. unfold strip. rewrite (lstrip_by_id _ _ H). now apply rstrip_by_id.
Qed.

Lemma forallb_impl {A : Type} (p q : A -> bool) (l : list A) :
  (forall x, p x = true -> q x = true) ->
  forallb p l = true -> forallb q l = true.
Proof.
  intros H. rewrite !forallb_forall. auto.
Qed.

Lemma handle_char_not_space (c : N) :
  handle_char c = true -> negb (is_space c) = true.
Proof.
  unfold handle_char. intros H. apply negb_true_iff.
  destruct (is_space c) eqn:E; [|reflexivity].
  unfold is_space in E. exfalso. bool_lia.
Qed.

Lemma handle_char_not_at (c : N) :
  handle_char c = true -> negb (mem c (str "@")) = true.
Proof.
  unfold handle_char. intros H. apply negb_true_iff.
  change (mem c (str "@")) with ((c =? 64)%N || false).
  rewrite orb_false_r. apply N.eqb_neq. bool_lia.
Qed.

Lemma lower_cp_fixed (y : N) : no_case y -> lower_cp y = y.
Proof.
  unfold no_case. intros H. unfold lower_cp.
  do 6 next_if_false. reflexivity.
Qed.

Lemma lower_cp_no_case (c : N) : no_case (lower_cp c).
Proof.
  unfold no_case, lower_cp.
  repeat match goal with
         | |- context [if ?b then _ else _] => destruct b eqn:?
         end; bool_lia.
Qed.

Lemma lower_cp_idempotent (c : N) : lower_cp (lower_cp c) = lower_cp c.
Proof. apply lower_cp_fixed, lower_cp_no_case. Qed.

Lemma lower_idempotent (s : pystr) : lower (lower s) = lower s.
Proof.
  unfold lower. rewrite map_map. apply map_ext. apply lower_cp_idempotent.
Qed.

(** [lower_cp] gives no capital ASCII letter. *)
Lemma lower_cp_handle (c : N) :
  handle_char (lower_cp c) = true -> lower_handle_char (lower_cp c) = true.
Proof.
  pose proof (lower_cp_no_case c) as (Hn & _).
  unfold handle_char, lower_handle_char. generalize dependent (lower_cp c).
  intros y Hn H.
  destruct ((97 <=? y)%N && (y <=? 122)%N) eqn:E1; [reflexivity|].
  destruct ((48 <=? y)%N && (y <=? 57)%N) eqn:E2; [reflexivity|].
  destruct (y =? 95)%N eqn:E3; [reflexivity|].
  exfalso. simpl in H. bool_lia.
Qed.

(** A non-empty string of handle characters matches the pattern. *)
Lemma re_match_handle_of_chars (r : pystr) :
  truthy r = true -> forallb handle_char r = true ->
  re_match_handle r = true.
Proof.
  intros T F. unfold re_match_handle. apply existsb_exists.
  exists r. split; [|now rewrite T, F].
  destruct (rev r) as [|c b]; [now left|].
  repeat match goal with
         | |- In r (match ?q with _ => _ end) => destruct q
         end; simpl; auto.
Qed.

(** What a handle that comes out of the normalizer is made of. *)
Lemma normalized_handle (raw r : pystr) :
  normalize_telegram_username raw = Some r ->
  r = lower (lstrip_chars (str "@") (strip raw))
  /\ truthy r = true /\ forallb handle_char r = true.
Proof.
  unfold normalize_telegram_username.
  destruct (negb (truthy raw)); [discriminate|].
  set (n := lower (lstrip_chars (str "@") (strip raw))).
  destruct (re_match_handle n) eqn:E; [|discriminate].
  intros [= <-]. split; [reflexivity|].
  rewrite re_match_handle_plain in E.
  - now apply andb_prop in E.
  - intros b Eb. unfold n, lower, lstrip_chars in Eb.
    destruct (lstrip_by_suffix (fun c => mem c (str "@")) (strip raw))
      as [pre Hpre].
    destruct (lstrip_by (fun c => mem c (str "@")) (strip raw))
      as [|x l] eqn:El using rev_ind.
    + destruct b; discriminate.
    + rewrite map_app in Eb. simpl in Eb.
      apply app_inj_tail in Eb. destruct Eb as [_ Eb].
      apply lower_cp_newline in Eb. subst x.
      rewrite app_assoc in Hpre. apply strip_last in Hpre. discriminate.
Qed.

Lemma normalized_is_handle (raw r : pystr) :
  normalize_telegram_username raw = Some r -> is_handle r = true.
Proof.
  intros H. apply normalized_handle in H. destruct H as (E & T & F).
  unfold is_handle. rewrite T. simpl.
  rewrite forallb_forall in *. intros c Hc.
  specialize (F c Hc). rewrite E in Hc. unfold lower in Hc.
  apply in_map_iff in Hc. destruct Hc as (y & <- & _).
  now apply lower_cp_handle.
Qed.

End NormalizerFacts.

(** X1: the normalizer of Telegram handles is idempotent: what it returns
    is returned unchanged when it is normalized again. *)
Theorem normalize_telegram_username_idempotent (raw r : pystr) :
  normalize_telegram_username raw = Some r ->
  normalize_telegram_username r = Some r.
Proof.
  intros H. apply normalized_handle in H. destruct H as (E & T & F).
  assert (strip r = r) as Es
    by (apply strip_id; eapply forallb_impl; [|exact F];
        apply handle_char_not_space).
  assert (lstrip_chars (str "@") r = r) as El
    by (apply lstrip_by_id; eapply forallb_impl; [|exact F];
        apply handle_char_not_at).
  assert (lower r = r) as Ew by (rewrite E; apply lower_idempotent).
  unfold normalize_telegram_username. rewrite T, Es, El, Ew.
  simpl negb. cbv iota.
  assert (re_match_handle r = true) as Em
    by (apply re_match_handle_of_chars; assumption).
  now rewrite Em.
Qed.

(** X1 on a handle with blanks, an [@] and capitals. *)
Lemma normalize_telegram_username_idempotent_witness :
  normalize_telegram_username (str "  @Pronkin_Artem ") = Some (str "pronkin_artem")
  /\ normalize_telegram_username (str "pronkin_artem") = Some (str "pronkin_artem").
Proof.
  split; [reflexivity|].
  apply (@normalize_telegram_username_idempotent
           (str "  @Pronkin_Artem ") (str "pronkin_artem")).
  reflexivity.
Defined.

(** X2: a handle that comes out of the normalizer is never empty and holds
    nothing but small ASCII letters, digits and underscores: no capital, no
    [@], no blank. *)
Theorem normalize_telegram_username_alphabet (raw r : pystr) :
  normalize_telegram_username raw = Some r ->
  r <> [] /\ Forall (fun c => lower_handle_char c = true) r.
Proof.
  intros H. apply normalized_is_handle in H. unfold is_handle in H.
  apply andb_prop in H. destruct H as [T F]. split.
  - intros ->. discriminate.
  - apply Forall_forall. rewrite forallb_forall in F. exact F.
Qed.

Lemma normalize_telegram_username_alphabet_witness :
  str "bob_1" <> []
  /\ Forall (fun c => lower_handle_char c = true) (str "bob_1").
Proof.
  apply (@normalize_telegram_username_alphabet (str "@@Bob_1") (str "bob_1")).
  reflexivity.
Defined.

Section UrlFacts.

Lemma strip_empty_of_nil : strip [] = [].
Proof. reflexivity. Qed.

(** A one-character pattern occurs in a string exactly when the character
    does. *)
Lemma contains_char (c : N) (s : pystr) :
  contains [c] s = true <-> In c s.
Proof.
  induction s as [|a t IH]; simpl.
  - split; [discriminate | intros []].
  - rewrite andb_true_r, orb_true_iff, IH, N.eqb_eq. split.
    + intros [-> | H]; [now left | now right].
    + intros [-> | H]; [now left | now right].
Qed.

(** The pieces cut at one character hold the characters of the string,
    that character apart. *)
Lemma split_go_char (c : N) (P : N -> Prop) (s : pystr) :
  forall cur,
    (forall x, In x cur -> x <> c /\ P x) ->
    (forall x, In x s -> P x) ->
    forall piece,
      In piece (split_go [c] 0 cur s) ->
      forall x, In x piece -> x <> c /\ P x.
Proof.
  induction s as [|a t IH]; intros cur Hcur Hs piece Hp x Hx; simpl in Hp.
  - destruct Hp as [<- | []]. apply Hcur. now apply in_rev.
  - rewrite andb_true_r in Hp. destruct (c =? a)%N eqn:E.
    + destruct Hp as [<- | Hp].
      * apply Hcur. now apply in_rev.
      * apply (IH [] ltac:(intros ? []) ltac:(intros; apply Hs; now right)
                 piece Hp x Hx).
    + apply N.eqb_neq in E.
      apply (IH (a :: cur)) with (piece := piece); try assumption.
      * intros y [<- | Hy]; [|now apply Hcur].
        split; [congruence | apply Hs; now left].
      * intros; apply Hs; now right.
Qed.

Lemma split_char (c : N) (P : N -> Prop) (s piece : pystr) :
  (forall x, In x s -> P x) ->
  In piece (split [c] s) ->
  forall x, In x piece -> x <> c /\ P x.
Proof.
  intros Hs Hp. apply (@split_go_char c P s []); auto. intros ? [].
Qed.

Lemma split_go_not_nil (sep : pystr) (s : pystr) :
  forall skip cur, split_go sep skip cur s <> [].
Proof.
  induction s as [|a t IH]; intros skip cur; simpl; [discriminate|].
  destruct skip; [|apply IH].
  destruct (startswith sep (a :: t)); [discriminate | apply IH].
Qed.

Lemma first_part_in (parts : list pystr) :
  parts <> [] -> In (first_part parts) parts.
Proof. destruct parts; [congruence | now left]. Qed.

Lemma last_part_in (parts : list pystr) :
  parts <> [] -> In (last_part parts) parts.
Proof.
  unfold last_part. induction parts as [|p l IH]; [congruence|].
  intros _. destruct l as [|q l]; [now left|].
  right. apply IH. discriminate.
Qed.

Lemma part_in (i : nat) (parts : list pystr) :
  i < length parts -> In (part i parts) parts.
Proof. intros H. unfold part. now apply nth_In. Qed.

Lemma rstrip_by_incl (p : N -> bool) (s : pystr) (x : N) :
  In x (rstrip_by p s) -> In x s.
Proof.
  unfold rstrip_by. intros H. apply in_rev in H.
  destruct (lstrip_by_suffix p (rev s)) as [pre E].
  apply in_rev. rewrite E. apply in_or_app. now right.
Qed.

End UrlFacts.

Lemma normalize_github_url_prefix (url r : pystr) :
  normalize_github_url url = Some r ->
  startswith (str "https://github.com/") r = true.
Proof.
  unfold normalize_github_url.
  destruct (negb (truthy url)); [discriminate|]. cbv zeta.
  assert (forall g, gist_owner_url g = Some r ->
                    startswith (str "https://github.com/") r = true) as Hg.
  { intros g. unfold gist_owner_url.
    destruct (truthy _); [|discriminate].
    intros [= <-]. reflexivity. }
  match goal with
  | |- (if contains (str "https://github.com/https://") _ then _ else ?f)
       = _ -> _ => set (formats := f)
  end.
  assert (formats = Some r ->
          startswith (str "https://github.com/") r = true) as Hf.
  { unfold formats.
    destruct (startswith (str "https://github.com/") (strip url)) eqn:E1.
    { now intros [= <-]. }
    destruct (startswith (str "http://github.com/") (strip url)) eqn:E2.
    { apply startswith_app in E2. destruct E2 as [t ->].
      now intros [= <-]. }
    destruct (startswith (str "github.com/") (strip url)) eqn:E3.
    { apply startswith_app in E3. destruct E3 as [t ->].
      now intros [= <-]. }
    destruct (startswith (str "https://gist.github.com/") (strip url)).
    { destruct (1 <? _)%nat; [apply Hg | discriminate]. }
    destruct (contains (str "/") (strip url)
              && negb (startswith (str "http") (strip url)));
      intros [= <-]; reflexivity. }
  clearbody formats.
  destruct (contains (str "https://github.com/https://") (strip url));
    [|exact Hf].
  destruct (1 <? length _)%nat; [|exact Hf].
  destruct (contains (str "gist.github.com") _).
  - destruct (1 <? length _)%nat; [apply Hg | exact Hf].
  - destruct (startswith (str "github.com/") _) eqn:E; [|exact Hf].
    apply startswith_app in E. destruct E as [t E]. rewrite E.
    now intros [= <-].
Qed.

(** X3: whatever [normalize_github_url] returns lies under
    [https://github.com/]: it returns such a URL or nothing. *)
Theorem normalize_github_url_is_under_github (url r : pystr) :
  normalize_github_url url = Some r ->
  startswith (str "https://github.com/") r = true.
Proof. intros H. exact (normalize_github_url_prefix url H). Qed.

Lemma normalize_github_url_is_under_github_witness :
  startswith (str "https://github.com/") (str "https://github.com/bob") = true.
Proof.
  apply (@normalize_github_url_is_under_github
           (str " https://github.com/https://gist.github.com/bob/12ab ")
           (str "https://github.com/bob")).
  reflexivity.
Defined.

(** X4: called on a string of blanks, [normalize_github_url] does not
    return nothing: it returns the bare prefix [https://github.com/]. The
    row pipeline trims a cell before it normalizes it, so there a blank or
    missing cell gives no URL. *)
Theorem normalize_github_url_of_blanks (url : pystr) :
  truthy url = true ->
  strip url = [] ->
  normalize_github_url url = Some (str "https://github.com/")
  /\ forall row index,
       nth_error row index = Some url \/ nth_error row index = None ->
       on_cell normalize_github_url (raw_value row index) = None.
Proof.
  intros T E. split.
  - unfold normalize_github_url. rewrite T, E. reflexivity.
  - intros row index [H | H]; unfold raw_value; rewrite H; simpl;
      [|reflexivity].
    unfold clean_string. rewrite T, E. reflexivity.
Qed.

Lemma normalize_github_url_of_blanks_witness :
  normalize_github_url (str "   ") = Some (str "https://github.com/")
  /\ on_cell normalize_github_url (raw_value [ str "   " ] 0) = None.
Proof.
  destruct (@normalize_github_url_of_blanks (str "   ") eq_refl eq_refl)
    as [H1 H2].
  split; [exact H1|]. apply H2. now left.
Defined.

(** X5: what [normalize_github_url_canonical] returns is exactly
    [https://github.com/owner/repo], with an owner and a repository that are
    not empty and hold no [/], no [#] and no [?]. *)
Theorem normalize_github_url_canonical_shape (url r : pystr) :
  normalize_github_url_canonical url = Some r ->
  exists owner repo,
    r = str "https://github.com/" ++ owner ++ str "/" ++ repo
    /\ owner <> [] /\ repo <> []
    /\ forall x, In x (owner ++ repo) ->
                 x <> 47%N /\ x <> 35%N /\ x <> 63%N.
Proof.
  unfold normalize_github_url_canonical.
  destruct (negb (truthy url)); [discriminate|]. cbv zeta.
  match goal with
  | |- context [rstrip_chars (str "/") (rstrip_chars (str ".git") ?p)] =>
      set (path2 := rstrip_chars (str "/") (rstrip_chars (str ".git") p))
  end.
  set (path3 := if contains (str "#") path2
                then first_part (split (str "#") path2) else path2).
  set (path4 := if contains (str "?") path3
                then first_part (split (str "?") path3) else path3).
  assert (forall x, In x path3 -> x <> 35%N) as H3.
  { unfold path3. destruct (contains (str "#") path2) eqn:E.
    - intros x Hx.
      apply (@split_char 35 (fun _ => True) path2 _ (fun _ _ => I)
               (first_part_in (@split_go_not_nil _ _ _ _)) x Hx).
    - intros x Hx ->. apply (proj2 (contains_char 35 path2)) in Hx.
      change [35%N] with (str "#") in Hx. congruence. }
  assert (forall x, In x path4 -> x <> 35%N /\ x <> 63%N) as H4.
  { unfold path4. destruct (contains (str "?") path3) eqn:E.
    - intros x Hx.
      destruct (@split_char 63 (fun y => y <> 35%N) path3 _ H3
                  (first_part_in (@split_go_not_nil _ _ _ _)) x Hx).
      now split.
    - intros x Hx. split; [now apply H3|].
      intros ->. apply (proj2 (contains_char 63 path3)) in Hx.
      change [63%N] with (str "?") in Hx. congruence. }
  destruct (negb (truthy path4) || negb (contains (str "/") path4));
    [discriminate|].
  set (parts := split (str "/") path4).
  destruct (length parts <? 2)%nat eqn:El; [discriminate|].
  apply Nat.ltb_ge in El.
  destruct (truthy (part 0 parts)) eqn:T0; [|discriminate].
  destruct (truthy (part 1 parts)) eqn:T1; [|discriminate].
  intros [= <-]. exists (part 0 parts), (part 1 parts).
  split; [reflexivity|].
  split; [intros E; rewrite E in T0; discriminate|].
  split; [intros E; rewrite E in T1; discriminate|].
  intros x Hx.
  assert (exists piece, In piece parts /\ In x piece) as (piece & Hp & Hxp).
  { apply in_app_or in Hx. destruct Hx as [Hx | Hx].
    - exists (part 0 parts). split; [apply part_in; lia | exact Hx].
    - exists (part 1 parts). split; [apply part_in; lia | exact Hx]. }
  destruct (@split_char 47 (fun y => y <> 35%N /\ y <> 63%N) path4 piece H4
              Hp x Hxp) as [A [B C]].
  auto.
Qed.

Lemma normalize_github_url_canonical_shape_witness :
  exists owner repo,
    str "https://github.com/octo/repo"
    = str "https://github.com/" ++ owner ++ str "/" ++ repo
    /\ owner <> [] /\ repo <> []
    /\ forall x, In x (owner ++ repo) ->
                 x <> 47%N /\ x <> 35%N /\ x <> 63%N.
Proof.
  apply (@normalize_github_url_canonical_shape
           (str "http://www.github.com/octo/repo/issues?q=1#top")
           (str "https://github.com/octo/repo")).
  reflexivity.
Defined.

Section PeriodFacts.

Lemma dict_get_in {V : Type} (d : list (pystr * V)) (k : pystr) (v : V) :
  Validation.dict_get d k = Some v -> In v (map snd d).
Proof.
  induction d as [|[k' v'] d IH]; simpl; [discriminate|].
  destruct (PyStr.eqb k' k).
  - intros [= ->]. now left.
  - intros H. right. now apply IH.
Qed.

Lemma month_map_range (name : pystr) (m : Z) :
  Validation.dict_get month_map name = Some m -> (1 <= m <= 12)%Z.
Proof.
  intros H. apply dict_get_in in H.
  assert (Forall (fun x => (1 <= x <= 12)%Z) (map snd month_map)) as F
    by (vm_compute; repeat constructor; discriminate).
  rewrite Forall_forall in F. now apply F.
Qed.

Lemma filter_idempotent {A : Type} (f : A -> bool) (l : list A) :
  filter f (filter f l) = filter f l.
Proof.
  induction l as [|a l IH]; [reflexivity|]. simpl.
  destruct (f a) eqn:E; simpl; [rewrite E, IH|]; auto.
Qed.

(** A date that [parse_period] returns. *)
Lemma parse_period_date (period_str : pystr) (d : date) :
  parse_period period_str = inr (Some d) ->
  day d = 1%Z /\ (1 <= month d <= 12)%Z /\ (1 <= year d <= 9999)%Z.
Proof.
  unfold parse_period.
  destruct (negb (truthy period_str)); [discriminate|]. cbv zeta.
  destruct (2 <=? length _)%nat; [|discriminate].
  destruct (py_int _) as [y|]; [|discriminate].
  destruct (Validation.dict_get month_map _) as [m|] eqn:E; [|discriminate].
  apply month_map_range in E. unfold mk_date.
  destruct ((y <? - 2 ^ 31)%Z || (2 ^ 31 - 1 <? y)%Z); [discriminate|].
  destruct ((1 <=? y)%Z && (y <=? 9999)%Z) eqn:Ey; [|discriminate].
  intros [= <-]. simpl. apply andb_prop in Ey. destruct Ey as [Y1 Y2].
  apply Z.leb_le in Y1, Y2. lia.
Qed.

End PeriodFacts.

(** X6: a period that is parsed is the first day of a month of the
    calendar, in a year from 1 to 9999. *)
Theorem parse_period_is_first_of_month (period_str : pystr) (d : date) :
  parse_period period_str = inr (Some d) ->
  day d = 1%Z /\ (1 <= month d <= 12)%Z /\ (1 <= year d <= 9999)%Z.
Proof. apply parse_period_date. Qed.

Lemma parse_period_is_first_of_month_witness :
  day (Date 2021 11 1) = 1%Z
  /\ (1 <= month (Date 2021 11 1) <= 12)%Z
  /\ (1 <= year (Date 2021 11 1) <= 9999)%Z.
Proof.
  apply (@parse_period_is_first_of_month (str "Ноябрь, 2021")).
  reflexivity.
Defined.

(** X7: commas do not count: a period string and the same string without
    its commas are parsed alike. *)
Theorem parse_period_ignores_commas (period_str : pystr) :
  parse_period (replace (str ",") [] period_str) = parse_period period_str.
Proof.
  unfold parse_period.
  change (str ",") with [44%N]. rewrite !replace_char_by_nothing.
  rewrite filter_idempotent.
  destruct period_str as [|c t]; [reflexivity|].
  destruct (filter _ (c :: t)) as [|c' t'] eqn:E; reflexivity.
Qed.

(** X8: the URL that [extract_github_url_from_repository] returns is
    [https://github.com/] followed by one path segment, without a [/]. *)
Theorem extract_github_url_is_an_owner_url (repository_url r : pystr) :
  extract_github_url_from_repository repository_url = Some r ->
  exists owner,
    r = str "https://github.com/" ++ owner /\ ~ In 47%N owner.
Proof.
  unfold extract_github_url_from_repository.
  destruct (negb (truthy repository_url)); [discriminate|].
  destruct (contains (str "github.com") repository_url); [|discriminate].
  cbv zeta. destruct (contains (str "/") _); [|discriminate].
  intros [= <-]. eexists. split; [reflexivity|].
  intros Hin.
  destruct (@split_char 47 (fun _ => True) _ _ (fun _ _ => I)
              (first_part_in (@split_go_not_nil _ _ _ _)) 47%N Hin)
    as [H _].
  now apply H.
Qed.

Lemma extract_github_url_is_an_owner_url_witness :
  exists owner,
    str "https://github.com/alice"
    = str "https://github.com/" ++ owner /\ ~ In 47%N owner.
Proof.
  apply (@extract_github_url_is_an_owner_url
           (str "http://www.github.com/alice/proj1/tree/main")
           (str "https://github.com/alice")).
  reflexivity.
Defined.

(* ===================================================================== *)
(** ** Further properties of the row pipeline *)
(* ===================================================================== *)

Section LoopFacts.

(** A loop that, at each turn, leaves its list alone or adds one element
    that satisfies [P]. *)
Lemma appending_loop {A R : Type} (step : list R -> A -> list R)
  (P : R -> Prop) :
  (forall acc a,
      step acc a = acc \/ exists r, step acc a = acc ++ [r] /\ P r) ->
  forall rows acc,
    Forall P acc ->
    Forall P (fold_left step rows acc)
    /\ length (fold_left step rows acc) <= length acc + length rows.
Proof.
  intros Hstep. induction rows as [|a rows IH]; intros acc Hacc; simpl.
  - split; [exact Hacc | lia].
  - destruct (Hstep acc a) as [-> | (r & -> & Hr)].
    + destruct (IH acc Hacc). split; [assumption | lia].
    + destruct (IH (acc ++ [r])) as [F L].
      * apply Forall_app. split; [exact Hacc | now constructor].
      * split; [exact F|]. rewrite length_app in L. simpl in L. lia.
Qed.

Lemma on_cell_some {A : Type} (f : pystr -> option A) (x : option pystr)
  (v : A) :
  on_cell f x = Some v -> exists raw, f raw = Some v.
Proof. destruct x as [raw|]; [now exists raw | discriminate]. Qed.

Lemma lstrip_by_incl (p : N -> bool) (s : pystr) (x : N) :
  In x (lstrip_by p s) -> In x s.
Proof.
  destruct (lstrip_by_suffix p s) as [pre E]. intros H.
  rewrite E. apply in_or_app. now right.
Qed.

(** Making a text ASCII brings in no minus sign. *)
Lemma to_ascii_decimal_minus (s : pystr) :
  In 45%N (to_ascii_decimal s) -> In 45%N s.
Proof.
  induction s as [|c t IH]; cbn [to_ascii_decimal In]; [auto|].
  destruct (c <? 127)%N; cbn [In].
  - intros [-> | H]; [now left | right; now apply IH].
  - destruct (is_space c); cbn [In].
    + intros [H | H]; [discriminate | right; now apply IH].
    + destruct (to_decimal c) as [d|]; cbn [In].
      * intros [H | H]; [lia | right; now apply IH].
      * intros [H | []]. discriminate.
Qed.

(** The sign that opens a number. *)
Lemma sign_split (c : N) (b : pystr) :
  match c :: b with
  | 45%N :: b0 => (true, b0)
  | 43%N :: b0 => (false, b0)
  | _ => (false, c :: b)
  end
  = if (c =? 45)%N then (true, b)
    else if (c =? 43)%N then (false, b) else (false, c :: b).
Proof.
  destruct c as [|p]; [reflexivity|].
  do 7 (try destruct p as [p|p|]); reflexivity.
Qed.

(** [int] gives a negative number only for a text with a minus sign. *)
Lemma py_int_negative (s : pystr) (z : Z) :
  py_int s = Some z -> (z < 0)%Z -> In 45%N s.
Proof.
  unfold py_int. intros H Hz.
  destruct (rstrip_by ascii_space (lstrip_by ascii_space (to_ascii_decimal s)))
    as [|c b] eqn:E; [discriminate|].
  rewrite sign_split in H.
  destruct (c =? 45)%N eqn:C.
  - apply N.eqb_eq in C. subst c.
    apply to_ascii_decimal_minus. apply (@lstrip_by_incl ascii_space).
    apply (@rstrip_by_incl ascii_space). rewrite E. now left.
  - exfalso.
    assert (forall body,
               match body with
               | c0 :: _ =>
                   if is_digit c0
                   then match int_body false 0 0 body with
                        | Some (n, count) =>
                            if (max_str_digits <? count)%nat then None
                            else Some (Z.of_N n)
                        | None => None
                        end
                   else None
               | [] => None
               end = Some z -> False) as K.
    { intros [|c0 body]; [discriminate|].
      destruct (is_digit c0); [|discriminate].
      destruct (int_body false 0 0 _) as [[n count]|]; [|discriminate].
      destruct (max_str_digits <? count)%nat; [discriminate|].
      intros [= <-]. lia. }
    destruct (c =? 43)%N; [exact (K b H) | exact (K (c :: b) H)].
Qed.

(** The identifier read from a cell of digits is not negative. *)
Lemma int_or_none_nonneg (x : option pystr) (z : Z) :
  int_or_none x = Some z -> (0 <= z)%Z.
Proof.
  unfold int_or_none. destruct x as [v|]; [|discriminate].
  destruct (truthy v && isdigit v) eqn:E; [|discriminate].
  apply andb_prop in E. destruct E as [_ E]. unfold isdigit in E.
  apply andb_prop in E. destruct E as [T D].
  intros H. destruct (Z.lt_ge_cases z 0) as [Hz|Hz]; [|exact Hz].
  exfalso. apply (py_int_negative _ H) in Hz.
  rewrite forallb_forall in D. apply D in Hz. discriminate.
Qed.

End LoopFacts.

(** X9: every student that [_process_students] keeps has a GitHub URL or a
    Telegram handle; the URL, when there, lies under [https://github.com/],
    the handle, when there, is a normalized handle, and the numeric id,
    when there, is not negative. The statistics count the rows seen and the
    students kept, which are never more than the rows. *)
Theorem process_students_keeps_identified_students
  (stats : UserStats) (students_data : list (list pystr)) :
  let '(students, stats') := _process_students stats students_data in
  Forall (fun u =>
            (present (ud_github_url u) || present (ud_telegram_username u)
             = true)
            /\ if_some under_github (ud_github_url u) = true
            /\ if_some is_handle (ud_telegram_username u) = true
            /\ if_some (Z.leb 0) (ud_telegram_user_id u) = true)
         students
  /\ us_total stats' = length students_data
  /\ us_passed_filter stats' = length students
  /\ length students <= length students_data.
Proof.
  unfold _process_students.
  destruct (@appending_loop _ _ student_row_step
              (fun u =>
                 (present (ud_github_url u)
                  || present (ud_telegram_username u) = true)
                 /\ if_some under_github (ud_github_url u) = true
                 /\ if_some is_handle (ud_telegram_username u) = true
                 /\ if_some (Z.leb 0) (ud_telegram_user_id u) = true))
    with (rows := students_data) (acc := @nil UserData) as [F L].
  - intros acc row. unfold student_row_step.
    destruct (negb (validate_row_length row 1)); [now left|].
    unfold _filter_student, student_fields. cbn [sf_github_url sf_telegram_username sf_telegram_user_id].
    destruct (negb (present _) && negb (present _)) eqn:E; [now left|].
    right. eexists. split; [reflexivity|]. cbn.
    repeat split.
    + apply andb_false_iff in E.
      destruct E as [E | E]; apply negb_false_iff in E; rewrite E;
        [reflexivity | apply orb_true_r].
    + destruct (on_cell normalize_github_url _) as [g|] eqn:Eg;
        [|reflexivity].
      apply on_cell_some in Eg. destruct Eg as [raw Eg].
      exact (normalize_github_url_prefix raw Eg).
    + destruct (on_cell normalize_telegram_username _) as [t|] eqn:Et;
        [|reflexivity].
      apply on_cell_some in Et. destruct Et as [raw Et].
      exact (normalized_is_handle raw Et).
    + destruct (int_or_none _) as [z|] eqn:Ez; [|reflexivity].
      apply int_or_none_nonneg in Ez. now apply Z.leb_le.
  - constructor.
  - simpl in L. repeat split; auto.
Qed.

(** X10: every mentor that [_process_mentors] keeps has a normalized
    Telegram handle, no numeric Telegram id, and a profile; the GitHub URL,
    when there, lies under [https://github.com/]. Mentors kept are never
    more than the rows. *)
Theorem process_mentors_keeps_mentors_with_handle
  (stats : UserStats) (mentors_data : list (list pystr)) :
  let '(mentors, stats') := _process_mentors stats mentors_data in
  Forall (fun u =>
            is_some is_handle (ud_telegram_username u) = true
            /\ ud_telegram_user_id u = None
            /\ ud_profile u <> None
            /\ if_some under_github (ud_github_url u) = true)
         mentors
  /\ us_total stats' = length mentors_data
  /\ us_passed_filter stats' = length mentors
  /\ length mentors <= length mentors_data.
Proof.
  unfold _process_mentors.
  destruct (@appending_loop _ _ mentor_row_step
              (fun u =>
                 is_some is_handle (ud_telegram_username u) = true
                 /\ ud_telegram_user_id u = None
                 /\ ud_profile u <> None
                 /\ if_some under_github (ud_github_url u) = true))
    with (rows := mentors_data) (acc := @nil UserData) as [F L].
  - intros acc row. unfold mentor_row_step.
    destruct (negb (validate_row_length row 4)); [now left|].
    unfold _filter_mentor, mentor_fields.
    cbn [mf_github_url mf_telegram_username].
    destruct (on_cell normalize_telegram_username (raw_value row 3))
      as [t|] eqn:Et; [|now left].
    destruct (negb (present (Some t))) eqn:E; [now left|].
    right. eexists. split; [reflexivity|]. cbn.
    repeat split.
    + apply on_cell_some in Et. destruct Et as [raw Et].
      exact (normalized_is_handle raw Et).
    + discriminate.
    + destruct (on_cell normalize_github_url _) as [g|] eqn:Eg;
        [|reflexivity].
      apply on_cell_some in Eg. destruct Eg as [raw Eg].
      exact (normalize_github_url_prefix raw Eg).
  - constructor.
  - simpl in L. repeat split; auto.
Qed.

Lemma strip_or_none_truthy (x : option pystr) (v : pystr) :
  strip_or_none x = Some v -> exists raw, v = strip raw.
Proof.
  unfold strip_or_none. destruct x as [raw|]; [|discriminate].
  destruct (truthy raw); [|discriminate]. intros [= <-]. now exists raw.
Qed.

(** X11: every review that [_process_reviews] keeps has a project name
    that is not empty and a normalized mentor handle: the filter looks for
    an author URL in a dictionary that never holds one, so a repository URL
    does not stand in for the project name. A period, when there, is the
    first day of a month. *)
Theorem process_reviews_keeps_named_reviews
  (stats : ProjectStats) (reviews_data : list (list pystr)) :
  let '(reviews, stats') := _process_reviews stats reviews_data in
  Forall (fun r =>
            is_some truthy (rv_project_name r) = true
            /\ is_some is_handle (rv_mentor_telegram r) = true
            /\ if_some (fun d => (day d =? 1)%Z) (rv_period_date r) = true)
         reviews
  /\ ps_total stats' = length reviews_data
  /\ ps_imported stats' = length reviews
  /\ length reviews <= length reviews_data.
Proof.
  unfold _process_reviews.
  destruct (@appending_loop _ _ review_row_step
              (fun r =>
                 is_some truthy (rv_project_name r) = true
                 /\ is_some is_handle (rv_mentor_telegram r) = true
                 /\ if_some (fun d => (day d =? 1)%Z) (rv_period_date r)
                    = true))
    with (rows := reviews_data) (acc := @nil ReviewData) as [F L].
  - intros acc row. unfold review_row_step.
    destruct (negb (validate_row_length row 8)); [now left|].
    unfold _filter_review, review_fields, rf_author_github_url.
    cbn [rf_project_name rf_mentor_telegram].
    destruct (on_cell normalize_telegram_username (raw_value row 7))
      as [t|] eqn:Et; [|now left].
    destruct (negb (present (Some t))) eqn:E; [now left|].
    destruct (strip_or_none (raw_value row 1)) as [n|] eqn:En; [|now left].
    destruct (negb (present (Some n)) && negb (present None)) eqn:E2;
      [now left|].
    right. eexists. split; [reflexivity|]. cbn.
    repeat split.
    + simpl in E2. rewrite andb_true_r in E2. now apply negb_false_iff in E2.
    + apply on_cell_some in Et. destruct Et as [raw Et].
      exact (normalized_is_handle raw Et).
    + destruct (on_cell _ (raw_value row 0)) as [d|] eqn:Ed; [|reflexivity].
      apply on_cell_some in Ed. destruct Ed as [raw Ed].
      unfold caught in Ed.
      destruct (parse_period raw) as [e|[d'|]] eqn:Ep; try discriminate.
      injection Ed as ->. apply parse_period_date in Ep.
      destruct Ep as [Ep _]. simpl. now rewrite Ep.
  - constructor.
  - simpl in L. repeat split; auto.
Qed.

Section ProjectFacts.

Lemma project_of_row_named (period : option date) (row : list pystr)
  (r : ProjectRecord) :
  project_of_row period row = Some r -> named_authored r.
Proof.
  unfold project_of_row. intros E.
  destruct (strip_or_none _) as [n|]; [|discriminate].
  destruct (on_cell normalize_github_url _) as [a|] eqn:Ea; [|discriminate].
  destruct (truthy n && truthy a) eqn:T; [|discriminate].
  injection E as <-. unfold named_authored. simpl.
  apply andb_prop in T. destruct T as [Tn _]. split; [exact Tn|].
  apply on_cell_some in Ea. destruct Ea as [raw Ea].
  exact (normalize_github_url_prefix raw Ea).
Qed.

Lemma project_row_step_kept (st st' : ProjectLoop) (row : list pystr) :
  Forall named_authored (processed_projects st) ->
  project_row_step st row = inr st' ->
  Forall named_authored (processed_projects st')
  /\ length (processed_projects st') <= S (length (processed_projects st)).
Proof.
  intros Hst. unfold project_row_step.
  destruct (is_period_header row).
  { destruct (header_period row); [discriminate|].
    intros [= <-]. simpl. split; auto. }
  destruct (negb (validate_row_length row 8));
    [intros [= <-]; split; auto|].
  destruct (project_of_row (current_period st) row) as [r|] eqn:E;
    [|intros [= <-]; split; auto].
  intros [= <-]. simpl. rewrite length_app. simpl. split; [|lia].
  apply Forall_app. split; [exact Hst|]. constructor; [|constructor].
  apply project_of_row_named in E. exact E.
Qed.

Lemma project_rows_kept (rows : list (list pystr)) :
  forall st st',
    Forall named_authored (processed_projects st) ->
    project_rows st rows = inr st' ->
    Forall named_authored (processed_projects st')
    /\ length (processed_projects st')
       <= length (processed_projects st) + length rows.
Proof.
  induction rows as [|row rows IH]; intros st st' Hst; simpl.
  - intros [= <-]. split; [exact Hst | lia].
  - destruct (project_row_step st row) as [e|st1] eqn:E; [discriminate|].
    intros H. pose proof E as K.
    apply project_row_step_kept in K; [|exact Hst]. destruct K as [F1 L1].
    destruct (IH _ _ F1 H) as [F2 L2]. split; [exact F2 | lia].
Qed.

(** [parse_period], and so a header, raises [OverflowError] only. *)
Lemma header_period_raises (row : list pystr) (e : exn) :
  header_period row = inl e -> e = Validation.OverflowError.
Proof.
  unfold header_period. destruct row as [|c t]; [discriminate|].
  destruct (truthy c); [|discriminate]. unfold parse_period.
  destruct (negb (truthy c)); [discriminate|]. cbv zeta.
  destruct (2 <=? length _)%nat; [|discriminate].
  destruct (py_int _) as [y|]; [|discriminate].
  destruct (Validation.dict_get month_map _) as [m|]; [|discriminate].
  destruct (mk_date y m) as [[]|d]; try discriminate. now intros [= <-].
Qed.

Lemma project_row_step_raises (st : ProjectLoop) (row : list pystr) :
  (exists e, project_row_step st row = inl e)
  <-> is_period_header row = true
      /\ header_period row = inl Validation.OverflowError.
Proof.
  unfold project_row_step. split.
  - intros [e H]. destruct (is_period_header row).
    + destruct (header_period row) as [e'|p] eqn:E; [|discriminate].
      apply header_period_raises in E. now subst e'.
    + destruct (negb (validate_row_length row 8)); [discriminate|].
      destruct (project_of_row _ row); discriminate.
  - intros [-> ->]. now eexists.
Qed.

(** The loop raises exactly when the year of some header does not fit a C
    [int]. *)
Lemma project_rows_raises (rows : list (list pystr)) :
  forall st,
    (exists e, project_rows st rows = inl e)
    <-> Exists (fun row => is_period_header row = true
                           /\ header_period row
                              = inl Validation.OverflowError) rows.
Proof.
  induction rows as [|row rows IH]; intros st; simpl.
  - split; [intros [e H]; discriminate | intros H; inversion H].
  - pose proof (project_row_step_raises st row) as S.
    destruct (project_row_step st row) as [e|st1].
    + split; [intros _; apply Exists_cons_hd, S; now eexists|].
      intros _. now eexists.
    + rewrite IH. split; [apply Exists_cons_tl|].
      intros H. inversion H as [? ? H1|? ? H1]; subst; [|exact H1].
      apply S in H1. destruct H1 as [e H1]. discriminate.
Qed.

End ProjectFacts.

(** X12: every project that [_process_projects] keeps has a name that is
    not empty and an author URL under [https://github.com/]; the
    statistics count the rows seen and the projects kept, which are never
    more than the rows. The call returns unless the year of a period
    header does not fit a C [int]; then it raises [OverflowError] with
    the rows counted and the number of projects kept as it was. *)
Theorem process_projects_keeps_named_authored_projects
  (stats : ProjectStats) (projects_data : list (list pystr)) :
  let '(r, stats') := _process_projects stats projects_data in
  ps_total stats' = length projects_data
  /\ match r with
     | inr projects =>
         Forall (fun p =>
                   truthy (pr_name p) = true
                   /\ under_github (pr_author_github_url p) = true)
                projects
         /\ ps_imported stats' = length projects
         /\ length projects <= length projects_data
     | inl e =>
         e = Validation.OverflowError
         /\ ps_imported stats' = ps_imported stats
     end
  /\ ((exists e, r = inl e)
      <-> Exists (fun row => is_period_header row = true
                             /\ header_period row
                                = inl Validation.OverflowError)
                 projects_data).
Proof.
  unfold _process_projects.
  pose proof (project_rows_raises projects_data
                {| current_period := None; processed_projects := [] |})
    as R.
  destruct (project_rows _ projects_data) as [e|st] eqn:E.
  - split; [reflexivity|]. split.
    + split; [|reflexivity].
      assert (exists e', @inl exn ProjectLoop e = inl e') as X
        by now eexists.
      apply R in X. clear R. revert E.
      generalize {| current_period := None; processed_projects := [] |}.
      induction projects_data as [|row rows IH]; intros st0;
        [inversion X|]. simpl.
      destruct (project_row_step st0 row) as [e1|st1] eqn:E1.
      * intros [= <-]. unfold project_row_step in E1.
        destruct (is_period_header row).
        -- destruct (header_period row) as [e'|p] eqn:Eh; [|discriminate].
           injection E1 as <-. apply header_period_raises in Eh.
           exact Eh.
        -- destruct (negb (validate_row_length row 8)); [discriminate|].
           destruct (project_of_row _ row); discriminate.
      * inversion X as [? ? H1|? ? H1]; subst.
        -- assert (exists e', project_row_step st0 row = inl e') as Y
             by now apply project_row_step_raises.
           destruct Y as [e' Y]. congruence.
        -- now apply IH.
    + split; [intros _; apply R; now eexists | intros _; now eexists].
  - pose proof E as K. apply project_rows_kept in K; [|constructor].
    destruct K as [F L].
    split; [reflexivity|]. split.
    + simpl in L. repeat split; auto.
    + split; [intros [e' H]; discriminate|].
      intros H. apply R in H. destruct H as [e' H]. discriminate.
Qed.

Section SponsoredFacts.

Lemma three_way_count (rows : list (list pystr)) :
  length (filter accepted rows) + length (filter rejected rows)
  + length (filter skipped rows) = length rows.
Proof.
  induction rows as [|row rows IH]; [reflexivity|].
  simpl.
  destruct (accepted row) eqn:A, (rejected row) eqn:R, (skipped row) eqn:K;
    simpl; try lia; exfalso; unfold accepted, rejected in A, R;
    rewrite K in A, R; destruct (retained_conditions row); discriminate.
Qed.

Lemma replace_go_incl (old : pystr) (s : pystr) (x : N) :
  forall skip, In x (replace_go old [] skip s) -> In x s.
Proof.
  induction s as [|a t IH]; intros skip; simpl; [auto|].
  destruct skip; [|intros H; right; now apply IH in H].
  destruct (startswith old (a :: t)).
  - simpl. intros H. right. now apply IH in H.
  - intros [-> | H]; [now left | right; now apply IH in H].
Qed.

End SponsoredFacts.

(** X13: [_process_sponsored_reviews] accounts for every row: each row is
    passed over, or adds one to the validation errors, or adds one to the
    imported records, and the total is the number of rows. *)
Theorem process_sponsored_reviews_accounts_for_every_row
  (now : nat -> pystr) (stats : SponsoredStats)
  (sponsored_reviews_data : list (list pystr)) :
  let '(records, stats') :=
    _process_sponsored_reviews now stats sponsored_reviews_data in
  ss_total stats' = length sponsored_reviews_data
  /\ ss_imported stats' = ss_imported stats + length records
  /\ ss_imported stats' + ss_validation_errors stats'
     + length (filter skipped sponsored_reviews_data)
     = ss_imported stats + ss_validation_errors stats
       + length sponsored_reviews_data
  /\ ss_linking_errors stats' = ss_linking_errors stats.
Proof.
  unfold _process_sponsored_reviews. rewrite sponsored_loop_char.
  cbn [ss_total ss_imported ss_validation_errors ss_linking_errors app].
  rewrite records_of_length.
  pose proof (three_way_count sponsored_reviews_data).
  repeat split; lia.
Qed.

(** X14: the project name of every sponsored review kept is the last
    segment of its URL without [.git], and it never holds a [/]. *)
Theorem sponsored_project_name_has_no_slash
  (now : nat -> pystr) (stats : SponsoredStats)
  (sponsored_reviews_data : list (list pystr)) :
  Forall (fun r =>
            sr_project_name r
            = replace (str ".git") []
                (last_part (split (str "/") (sr_project_github_url r)))
            /\ ~ In 47%N (sr_project_name r))
         (fst (_process_sponsored_reviews now stats sponsored_reviews_data)).
Proof.
  unfold _process_sponsored_reviews. rewrite sponsored_loop_char. simpl.
  apply records_of_forall. intros readings row Hrow.
  apply filter_In in Hrow. destruct Hrow as [_ Hacc].
  unfold accepted in Hacc. apply andb_prop in Hacc.
  destruct Hacc as [_ Hc]. unfold retained_conditions in Hc.
  repeat (apply andb_prop in Hc; destruct Hc as [Hc ?]).
  cbn [sr_project_name sr_project_github_url record_of].
  unfold project_name_of_url.
  match goal with
  | H : truthy (strip (part 1 row)) = true |- _ => rewrite H
  end.
  split; [reflexivity|].
  intros Hin. apply replace_go_incl in Hin.
  destruct (@split_char 47 (fun _ => True) _ _ (fun _ _ => I)
              (last_part_in (@split_go_not_nil _ _ _ _)) 47%N Hin)
    as [Hn _].
  now apply Hn.
Qed.

Lemma records_of_sans_created_at (now1 now2 : nat -> pystr)
  (rows : list (list pystr)) :
  forall n1 n2,
    map sans_created_at (records_of now1 n1 rows)
    = map sans_created_at (records_of now2 n2 rows).
Proof.
  induction rows as [|row rows IH]; intros n1 n2; simpl; [reflexivity|].
  f_equal. apply IH.
Qed.

(** X15: a [DataProcessor] whose [process_all_data] has returned and that
    processes the same rows a second time returns again, with the same
    students, mentors, projects and reviews and the same sponsored
    reviews but for the time at which each was made, which is read from
    the clock record by record. The statistics of students, mentors,
    projects and reviews are the same, but the sponsored reviews kept and
    their validation errors are added to the counters once more: these two
    counters are never reset. *)
Theorem process_all_data_accumulates_sponsored_counters
  (now1 now2 : nat -> pystr) (self first : Processor) (raw_data : RawData)
  (rows : list (list pystr)) (t1 : pystr) :
  raw_sponsored_reviews raw_data = Some rows ->
  process_all_data true now1 self raw_data = (inr t1, first) ->
  exists t2 second,
    process_all_data true now2 first raw_data = (inr t2, second)
    /\ t1 = now1 (length (filter accepted rows))
    /\ t2 = now2 (length (filter accepted rows))
    /\ students (processed_data second) = students (processed_data first)
    /\ mentors (processed_data second) = mentors (processed_data first)
    /\ projects_ (processed_data second) = projects_ (processed_data first)
    /\ reviews_ (processed_data second) = reviews_ (processed_data first)
    /\ sponsored_reviews_ (processed_data first)
       = Some (records_of now1 0 (filter accepted rows))
    /\ sponsored_reviews_ (processed_data second)
       = Some (records_of now2 0 (filter accepted rows))
    /\ option_map (map sans_created_at)
         (sponsored_reviews_ (processed_data second))
       = option_map (map sans_created_at)
           (sponsored_reviews_ (processed_data first))
    /\ st_students (statistics second) = st_students (statistics first)
    /\ st_mentors (statistics second) = st_mentors (statistics first)
    /\ st_projects (statistics second) = st_projects (statistics first)
    /\ st_reviews (statistics second) = st_reviews (statistics first)
    /\ ss_imported (st_sponsored_reviews (statistics second))
       = ss_imported (st_sponsored_reviews (statistics first))
         + length (filter accepted rows)
    /\ ss_validation_errors (st_sponsored_reviews (statistics second))
       = ss_validation_errors (st_sponsored_reviews (statistics first))
         + length (filter rejected rows).
Proof.
  intros Hrows. unfold process_all_data, sponsored_part.
  rewrite Hrows.
  unfold _process_students, _process_mentors, _process_projects,
    _process_reviews, _process_sponsored_reviews.
  rewrite !sponsored_loop_char.
  destruct (project_rows _ (raw_projects raw_data)) as [e|st] eqn:E;
    [discriminate|].
  cbn. intros [= <- <-]. cbn.
  eexists _, _. split; [reflexivity|]. cbn.
  repeat split; rewrite ?records_of_length; try reflexivity.
  f_equal. apply records_of_sans_created_at.
Qed.

(** X15 on two sponsored rows, one kept and one with a cost that is not a
    number, and two clocks that never show the same time. *)
Lemma process_all_data_accumulates_sponsored_counters_witness :
  let raw :=
    {| raw_students := []; raw_mentors := []; raw_projects := [];
       raw_reviews := [];
       raw_sponsored_reviews :=
         Some [ [ []; str "https://github.com/octo/repo"; [];
                  str "@mentor"; str "$20,00" ];
                [ []; str "https://github.com/octo/repo"; [];
                  str "@mentor"; str "abc" ] ] |} in
  let now1 (n : nat) := str "2025-01-01T00:00:00" in
  let now2 (n : nat) := str "2025-01-02T00:00:00" in
  let first := snd (process_all_data true now1 new_processor raw) in
  exists t2 second,
    process_all_data true now2 first raw = (inr t2, second)
    /\ ss_imported (st_sponsored_reviews (statistics first)) = 1
    /\ ss_imported (st_sponsored_reviews (statistics second)) = 2
    /\ ss_validation_errors (st_sponsored_reviews (statistics second)) = 2
    /\ option_map (map sr_created_at)
         (sponsored_reviews_ (processed_data first))
       = Some [ str "2025-01-01T00:00:00" ]
    /\ option_map (map sr_created_at)
         (sponsored_reviews_ (processed_data second))
       = Some [ str "2025-01-02T00:00:00" ]
    /\ option_map (map sans_created_at)
         (sponsored_reviews_ (processed_data second))
       = option_map (map sans_created_at)
           (sponsored_reviews_ (processed_data first)).
Proof.
  intros raw now1 now2 first.
  destruct (@process_all_data_accumulates_sponsored_counters now1 now2
              new_processor first raw _ (str "2025-01-01T00:00:00")
              eq_refl eq_refl)
    as (t2 & second & H & _ & _ & _ & _ & _ & _ & _ & H9 & H10 & _ & _
        & _ & _ & H15 & H16).
  exists t2, second. split; [exact H|]. split; [reflexivity|].
  split; [exact H15|]. split; [exact H16|]. split; [reflexivity|].
  split; [rewrite H9; reflexivity | exact H10].
Defined.

(* ===================================================================== *)
(** ** Further properties of the linking stage *)
(* ===================================================================== *)

Section ClearFacts.

Variable faulty : nat -> bool.
Variable on_delete_cascade : bool.

(** Clearing one of the owned tables leaves the roles and the set of
    tables as they are, fault or not. *)
Lemma clear_table_frame {R : Type} (T : Table R) (st st' : State) r :
  (forall d, roles (with_rows T (Some []) d) = roles d) ->
  (forall d rows, rows_of T d = Some rows ->
                  tables_of (with_rows T (Some []) d) = tables_of d) ->
  clear_table faulty T st = (r, st') ->
  roles (working st') = roles (working st)
  /\ tables_of (working st') = tables_of (working st).
Proof.
  intros Hr Ht.
  unfold clear_table, try_catch, bind, execute, table_exists, delete,
    ret, raise.
  destruct (faulty (sent st)); simpl.
  { intros [= <- <-]. split; reflexivity. }
  destruct (rows_of T (working st)) as [rows|] eqn:E; simpl.
  - destruct (faulty (S (sent st))); simpl.
    + intros [= <- <-]. split; reflexivity.
    + rewrite E. intros [= <- <-]. simpl. split; [apply Hr|].
      now apply Ht with (rows := rows).
  - intros [= <- <-]. split; reflexivity.
Qed.

Lemma clear_users_frame (st st' : State) r :
  try_catch
    (exists_ <- execute faulty (table_exists User_) ;;
     if exists_ then execute faulty (delete_users on_delete_cascade)
     else ret tt)
    (fun _ => ret tt) st = (r, st') ->
  roles (working st') = roles (working st)
  /\ tables_of (working st') = tables_of (working st).
Proof.
  unfold try_catch, bind, execute, table_exists, delete_users, delete,
    ret, raise.
  destruct (faulty (sent st)); simpl.
  { intros [= <- <-]. split; reflexivity. }
  destruct (users (working st)) as [rows|] eqn:E; simpl.
  - destruct (faulty (S (sent st))); simpl.
    + intros [= <- <-]. split; reflexivity.
    + rewrite E. destruct on_delete_cascade; intros [= <- <-]; simpl;
        (split; [reflexivity|]); unfold tables_of; simpl; rewrite E;
        destruct (users_roles (working st)); reflexivity.
  - intros [= <- <-]. split; reflexivity.
Qed.

End ClearFacts.

(** X16: [_clear_database] never raises, whatever faults the store
    answers with, and it never touches the roles nor creates or drops a
    table. *)
Theorem clear_database_never_fails_and_keeps_roles
  (faulty : nat -> bool) (on_delete_cascade : bool) (st : State) :
  let '(r, st') := _clear_database faulty on_delete_cascade st in
  r = inr tt
  /\ roles (working st') = roles (working st)
  /\ tables_of (working st') = tables_of (working st)
  /\ committed st' = committed st.
Proof.
  destruct (_clear_database faulty on_delete_cascade st) as [r st'] eqn:E.
  pose proof (@safe_clear_database faulty on_delete_cascade _ _ _ E)
    as [(C & _) _].
  pose proof E as E0. apply clear_database_result in E0.
  destruct E0 as [-> _].
  split; [reflexivity|]. cut (roles (working st') = roles (working st)
                              /\ tables_of (working st') = tables_of (working st)).
  { intros [? ?]. auto. }
  revert E. unfold _clear_database. unfold bind at 1.
  destruct (clear_table faulty SponsoredReview_ st) as [r1 s1] eqn:E1.
  pose proof E1 as R1. apply clear_table_result in R1.
  destruct R1 as [-> _].
  apply clear_table_frame in E1;
    [|reflexivity
     |intros d rows H; unfold tables_of; simpl in *; now rewrite H].
  unfold bind at 1.
  destruct (clear_table faulty Review_ s1) as [r2 s2] eqn:E2.
  pose proof E2 as R2. apply clear_table_result in R2.
  destruct R2 as [-> _].
  apply clear_table_frame in E2;
    [|reflexivity
     |intros d rows H; unfold tables_of; simpl in *; now rewrite H].
  unfold bind at 1.
  destruct (clear_table faulty MentorProfile_ s2) as [r3 s3] eqn:E3.
  pose proof E3 as R3. apply clear_table_result in R3.
  destruct R3 as [-> _].
  apply clear_table_frame in E3;
    [|reflexivity
     |intros d rows H; unfold tables_of; simpl in *; now rewrite H].
  unfold bind at 1.
  destruct (clear_table faulty Project_ s3) as [r4 s4] eqn:E4.
  pose proof E4 as R4. apply clear_table_result in R4.
  destruct R4 as [-> _].
  apply clear_table_frame in E4;
    [|reflexivity
     |intros d rows H; unfold tables_of; simpl in *; now rewrite H].
  intros E5. apply clear_users_frame in E5.
  destruct E1, E2, E3, E4, E5. split; congruence.
Qed.

Section ReadFacts.

Variable faulty : nat -> bool.

Lemma same_data_refl (st : State) : same_data st st.
Proof. repeat split. Qed.

Lemma same_data_trans (a b c : State) :
  same_data a b -> same_data b c -> same_data a c.
Proof.
  unfold same_data. intros (A1 & A2 & A3 & A4 & A5 & A6)
                           (B1 & B2 & B3 & B4 & B5 & B6).
  repeat split; congruence.
Qed.

Lemma reads_ret {A : Type} (a : A) : reads (ret a).
Proof. intros st r st' [= <- <-]. apply same_data_refl. Qed.

Lemma reads_raise {A : Type} (e : Fault) : reads (@raise A e).
Proof. intros st r st' [= <- <-]. repeat split. Qed.

Lemma reads_bind {A B : Type} (m : M A) (k : A -> M B) :
  reads m -> (forall a, reads (k a)) -> reads (bind m k).
Proof.
  intros Hm Hk st r st'. unfold bind.
  destruct (m st) as [[e|a] s1] eqn:E.
  - intros [= <- <-]. exact (Hm _ _ _ E).
  - intros H. exact (same_data_trans (Hm _ _ _ E) (Hk a _ _ _ H)).
Qed.

Lemma reads_select {R : Type} (T : Table R) (p : R -> bool) :
  reads (execute faulty (select T p)).
Proof.
  intros st r st'. unfold execute, select, raise.
  destruct (faulty (sent st)); [intros [= <- <-]; repeat split|].
  simpl. destruct (rows_of T (working st));
    intros [= <- <-]; repeat split.
Qed.

Lemma reads_scalar_one_or_none {R : Type} (rows : list R) :
  reads (scalar_one_or_none rows).
Proof.
  destruct rows as [|a [|b rows]]; simpl;
    [apply reads_ret | apply reads_ret | apply reads_raise].
Qed.

Lemma reads_find_project_by_github_url (github_url : pystr)
  (project_name : option pystr) :
  reads (_find_project_by_github_url faulty github_url project_name).
Proof.
  unfold _find_project_by_github_url.
  repeat match goal with
         | |- reads (bind _ _) => apply reads_bind; [|intros]
         | |- reads (ret _) => apply reads_ret
         | |- reads (raise _) => apply reads_raise
         | |- reads (execute _ (select _ _)) => apply reads_select
         | |- reads (scalar_one_or_none _) => apply reads_scalar_one_or_none
         | |- reads (match ?x with _ => _ end) => destruct x
         end.
Qed.

Lemma reads_find_review_by_url (url : option pystr)
  (mentor_id project_id : Z) :
  reads (_find_review_by_url faulty url mentor_id project_id).
Proof.
  unfold _find_review_by_url.
  repeat match goal with
         | |- reads (bind _ _) => apply reads_bind; [|intros]
         | |- reads (ret _) => apply reads_ret
         | |- reads (raise _) => apply reads_raise
         | |- reads (execute _ (select _ _)) => apply reads_select
         | |- reads (scalar_one_or_none _) => apply reads_scalar_one_or_none
         | |- reads (match ?x with _ => _ end) => destruct x
         end.
Qed.

(** What a query that succeeds has returned. *)
Lemma execute_select_inv {R : Type} (T : Table R) (p : R -> bool)
  (st st' : State) (found : list R) :
  execute faulty (select T p) st = (inr found, st') ->
  exists rows, rows_of T (working st) = Some rows
               /\ found = filter p rows
               /\ working st' = working st.
Proof.
  unfold execute, select, raise.
  destruct (faulty (sent st)); [discriminate|]. simpl.
  destruct (rows_of T (working st)) as [rows|]; [|discriminate].
  intros [= <- <-]. exists rows. repeat split.
Qed.

Lemma scalar_one_or_none_inv {R : Type} (rows : list R) (x : R)
  (st st' : State) :
  scalar_one_or_none rows st = (inr (Some x), st') -> rows = [x].
Proof.
  destruct rows as [|a [|b rows]]; simpl; unfold ret, raise;
    try discriminate.
  now intros [= -> _].
Qed.

End ReadFacts.

(** X17: the two lookups of the linking stage only read: whatever they
    return, and whatever faults occur, the view of the transaction, the
    committed store, the three dictionaries and the counters are left as
    they were. *)
Theorem lookups_only_read
  (faulty : nat -> bool) (github_url : pystr) (project_name : option pystr)
  (telegram_message_url : option pystr) (mentor_id project_id : Z)
  (st : State) :
  same_data st
    (snd (_find_project_by_github_url faulty github_url project_name st))
  /\ same_data st
       (snd (_find_review_by_url faulty telegram_message_url mentor_id
               project_id st)).
Proof.
  split.
  - destruct (_find_project_by_github_url faulty github_url project_name st)
      as [r st'] eqn:E.
    exact (@reads_find_project_by_github_url faulty _ _ _ _ _ E).
  - destruct (_find_review_by_url faulty telegram_message_url mentor_id
                project_id st) as [r st'] eqn:E.
    exact (@reads_find_review_by_url faulty _ _ _ _ _ _ E).
Qed.

Section FoundFacts.

Variable faulty : nat -> bool.

Lemma owner_repo_match_in (canonical_url : pystr)
  (all_projects : list Project) (p : Project) :
  owner_repo_match canonical_url all_projects = Some p -> In p all_projects.
Proof.
  unfold owner_repo_match.
  destruct (contains _ _); [|discriminate].
  destruct (2 <=? _)%nat; [|discriminate].
  intros H. now apply find_some in H.
Qed.

(** A project that the lookup returns is a row of the table of projects,
    and its repository URL is not null. *)
Lemma find_project_is_stored (github_url : pystr)
  (project_name : option pystr) (st st' : State) (id : Z) :
  _find_project_by_github_url faulty github_url project_name st
  = (inr (Some id), st') ->
  exists rows p,
    projects (working st) = Some rows /\ In p rows /\ p_id p = id
    /\ p_repository_url p <> None.
Proof.
  unfold _find_project_by_github_url.
  destruct (negb (truthy github_url)); [discriminate|].
  destruct (normalize_github_url_canonical github_url) as [canonical_url|];
    [|discriminate].
  destruct (negb (truthy canonical_url)); [discriminate|].
  unfold bind at 1.
  destruct (execute faulty (select Project_ _) st) as [[e|found] s1] eqn:E1;
    [discriminate|].
  apply execute_select_inv in E1. destruct E1 as (rows & Hrows & -> & W1).
  change (rows_of Project_ (working st)) with (projects (working st)) in Hrows.
  unfold bind at 1.
  destruct (scalar_one_or_none _ s1) as [[e|first] s2] eqn:E2;
    [discriminate|].
  pose proof (@reads_scalar_one_or_none _ _ _ _ _ E2) as (W2 & _).
  destruct first as [p|].
  { apply scalar_one_or_none_inv in E2.
    intros [= <- _]. exists rows, p. split; [exact Hrows|].
    assert (In p (filter (fun p0 => opt_eqb (p_repository_url p0)
                                      canonical_url) rows)) as Hin
      by (rewrite E2; now left).
    apply filter_In in Hin. destruct Hin as [Hin Hurl].
    repeat split; auto. intros Hnone. rewrite Hnone in Hurl. discriminate. }
  unfold bind at 1.
  destruct (execute faulty (select Project_ _) s2) as [[e|all] s3] eqn:E3;
    [discriminate|].
  apply execute_select_inv in E3. destruct E3 as (rows' & Hrows' & -> & W3).
  change (rows_of Project_ (working s2)) with (projects (working s2))
    in Hrows'.
  rewrite W2, W1, Hrows in Hrows'. injection Hrows' as <-.
  set (all_projects := filter _ rows).
  assert (forall p, In p all_projects ->
                    In p rows /\ p_repository_url p <> None) as Hall.
  { intros p Hp. apply filter_In in Hp. destruct Hp as [Hp Hu].
    split; [exact Hp|]. intros Hn. rewrite Hn in Hu. discriminate. }
  destruct (find (canonical_match canonical_url) all_projects) as [p|] eqn:F2.
  { intros [= <- _]. apply find_some in F2. destruct F2 as [Hp _].
    destruct (Hall p Hp). exists rows, p. auto. }
  destruct (owner_repo_match canonical_url all_projects) as [p|] eqn:F3.
  { intros [= <- _]. apply owner_repo_match_in in F3.
    destruct (Hall p F3). exists rows, p. auto. }
  destruct (present project_name); [|discriminate].
  destruct (fuzzy_name_match _ _ all_projects) as [e|found] eqn:F4;
    [discriminate|].
  intros [= -> _].
  apply fuzzy_name_match_threshold in F4.
  destruct F4 as (p & sim & Hp & Hid & _).
  destruct (Hall p Hp). exists rows, p. auto.
Qed.

End FoundFacts.

(** X18: when the project lookup returns an id, it is the id of a row of
    the table of projects whose repository URL is not null: a project
    stored without a URL is never found, by none of the four strategies. *)
Theorem found_project_is_stored
  (faulty : nat -> bool) (github_url : pystr) (project_name : option pystr)
  (st : State) (id : Z) :
  fst (_find_project_by_github_url faulty github_url project_name st)
  = inr (Some id) ->
  exists rows p,
    projects (working st) = Some rows /\ In p rows /\ p_id p = id
    /\ p_repository_url p <> None.
Proof.
  destruct (_find_project_by_github_url faulty github_url project_name st)
    as [r st'] eqn:E.
  simpl. intros ->. now apply find_project_is_stored in E.
Qed.

Lemma found_project_is_stored_witness :
  exists rows p,
    projects (working (fresh renamed_store)) = Some rows /\ In p rows
    /\ p_id p = 1%Z /\ p_repository_url p <> None.
Proof.
  apply (@found_project_is_stored no_fault
           (str "https://github.com/octo/my-proj-2") (Some (str "my-proj"))
           (fresh renamed_store) 1%Z).
  reflexivity.
Defined.

(* ===================================================================== *)
(** ** The counters of the import *)
(* ===================================================================== *)

Section CounterFacts.

Lemma Counter_eqb_eq (a b : Counter) : Counter_eqb a b = true <-> a = b.
Proof. destruct a, b; simpl; split; congruence. Qed.

Lemma complete_incr (c : Counter) (s : ImportStats) :
  complete s -> complete (incr c s).
Proof.
  unfold complete, incr. intros H. rewrite map_map.
  rewrite <- H. apply map_ext. intros [k v]. simpl.
  now destruct (Counter_eqb k c).
Qed.

Lemma stat_incr (c c' : Counter) (s : ImportStats) :
  complete s ->
  stat (incr c s) c' = stat s c' + (if Counter_eqb c c' then 1 else 0).
Proof.
  unfold complete, all_counters. intros H.
  do 12 (destruct s as [|[? ?] s]; [discriminate|]).
  destruct s; [|discriminate].
  simpl in H. injection H as -> -> -> -> -> -> -> -> -> -> -> ->.
  destruct c, c'; cbn; lia.
Qed.

Lemma total_incr_other (cs : list Counter) (c : Counter) (s : ImportStats) :
  complete s -> ~ In c cs -> total cs (incr c s) = total cs s.
Proof.
  intros Hs. induction cs as [|c0 cs IH]; intros Hn; [reflexivity|].
  simpl. rewrite stat_incr by assumption.
  destruct (Counter_eqb c c0) eqn:E.
  - apply Counter_eqb_eq in E. subst. exfalso. apply Hn. now left.
  - rewrite IH; [lia|]. intros H. apply Hn. now right.
Qed.

Lemma total_incr (cs : list Counter) (c : Counter) (s : ImportStats) :
  complete s -> NoDup cs -> In c cs ->
  total cs (incr c s) = S (total cs s).
Proof.
  intros Hs. induction cs as [|c0 cs IH]; intros Hnd Hin; [destruct Hin|].
  inversion Hnd as [|? ? Hn Hnd']; subst.
  simpl. rewrite stat_incr by assumption.
  destruct (Counter_eqb c c0) eqn:E.
  - apply Counter_eqb_eq in E. subst.
    rewrite total_incr_other by assumption. lia.
  - destruct Hin as [-> | Hin].
    + assert (Counter_eqb c c = true) by now apply Counter_eqb_eq.
      congruence.
    + rewrite IH by assumption. lia.
Qed.

Lemma one_more_total (cs : list Counter) (s s' : ImportStats) :
  complete s -> NoDup cs -> one_more cs s s' ->
  complete s' /\ total cs s' = S (total cs s).
Proof.
  intros Hs Hnd (c & Hin & ->). split.
  - now apply complete_incr.
  - now apply total_incr.
Qed.

Lemma one_more_weaken (cs cs' : list Counter) (s s' : ImportStats) :
  incl cs cs' -> one_more cs s s' -> one_more cs' s s'.
Proof. intros Hi (c & Hin & E). exists c. split; [now apply Hi | exact E]. Qed.

Lemma keeps_ret {A : Type} (a : A) : keeps_stats (ret a).
Proof. now intros st r st' [= <- <-]. Qed.

Lemma keeps_raise {A : Type} (e : Fault) : keeps_stats (@raise A e).
Proof. now intros st r st' [= <- <-]. Qed.

Lemma keeps_gets {A : Type} (f : State -> A) : keeps_stats (gets f).
Proof. now intros st r st' [= <- <-]. Qed.

Lemma keeps_bind {A B : Type} (m : M A) (k : A -> M B) :
  keeps_stats m -> (forall a, keeps_stats (k a)) -> keeps_stats (bind m k).
Proof.
  intros Hm Hk st r st'. unfold bind.
  destruct (m st) as [[e|a] s1] eqn:E.
  - intros [= <- <-]. exact (Hm _ _ _ E).
  - intros H. rewrite (Hk a _ _ _ H). exact (Hm _ _ _ E).
Qed.

Lemma keeps_execute (faulty : nat -> bool) {A : Type} (stmt : Stmt A) :
  keeps_stats (execute faulty stmt).
Proof.
  intros st r st'. unfold execute, raise.
  destruct (faulty (sent st)); [now intros [= <- <-]|].
  destruct (stmt (working (tick st))) as [e|[a w]]; now intros [= <- <-].
Qed.

Lemma keeps_scalar_one_or_none {R : Type} (rows : list R) :
  keeps_stats (scalar_one_or_none rows).
Proof.
  destruct rows as [|a [|b rows]]; simpl;
    [apply keeps_ret | apply keeps_ret | apply keeps_raise].
Qed.

Lemma keeps_set_github k v : keeps_stats (set_github k v).
Proof. now intros st r st' [= <- <-]. Qed.

Lemma keeps_set_telegram k v : keeps_stats (set_telegram k v).
Proof. now intros st r st' [= <- <-]. Qed.

Lemma keeps_set_project_name k v : keeps_stats (set_project_name k v).
Proof. now intros st r st' [= <- <-]. Qed.

Lemma reads_keeps {A : Type} (m : M A) : reads m -> keeps_stats m.
Proof. intros H st r st' E. now destruct (H _ _ _ E) as (_ & _ & _ & _ & _ & S). Qed.

Lemma counted_bump (cs : list Counter) (c : Counter) :
  In c cs -> counted cs (bump c).
Proof.
  intros Hin st r st' [= <- <-]. exists c. split; [exact Hin | reflexivity].
Qed.

Lemma counted_bind {A B : Type} (cs : list Counter) (m : M A) (k : A -> M B) :
  keeps_stats m -> (forall a, counted cs (k a)) -> counted cs (bind m k).
Proof.
  intros Hm Hk st r st'. unfold bind.
  destruct (m st) as [[e|a] s1] eqn:E.
  - intros [= <- <-]. exact (Hm _ _ _ E).
  - intros H. specialize (Hk a _ _ _ H). rewrite (Hm _ _ _ E) in Hk.
    exact Hk.
Qed.

(** A row that is tried, with a handler that counts the fault. *)
Lemma counted_try (cs : list Counter) (e : Counter) (body : M unit)
  (st st' : State) r :
  counted cs body ->
  try_catch body (fun _ => bump e) st = (r, st') ->
  r = inr tt /\ one_more (e :: cs) (import_stats st) (import_stats st').
Proof.
  intros Hb. unfold try_catch.
  destruct (body st) as [[f|[]] s1] eqn:E; specialize (Hb _ _ _ E);
    simpl in Hb.
  - intros [= <- <-]. split; [reflexivity|].
    exists e. split; [now left|]. simpl. now rewrite Hb.
  - intros [= <- <-]. split; [reflexivity|].
    eapply one_more_weaken; [|exact Hb]. intros x Hx. now right.
Qed.

(** A loop whose every turn succeeds and counts its row. *)
Lemma counting_loop {A : Type} (cs : list Counter) (f : A -> M unit) :
  NoDup cs ->
  (forall x st r st',
      f x st = (r, st') ->
      r = inr tt /\ one_more cs (import_stats st) (import_stats st')) ->
  forall l st r st',
    complete (import_stats st) ->
    for_each l f st = (r, st') ->
    r = inr tt
    /\ complete (import_stats st')
    /\ total cs (import_stats st') = total cs (import_stats st) + length l.
Proof.
  intros Hnd Hf. induction l as [|x l IH]; intros st r st' Hc; simpl.
  - intros [= <- <-]. repeat split; auto.
  - unfold bind. destruct (f x st) as [r1 s1] eqn:E.
    destruct (Hf _ _ _ _ E) as [-> H1].
    destruct (one_more_total Hc Hnd H1) as [Hc1 T1].
    intros H. destruct (IH _ _ _ Hc1 H) as (-> & Hc' & T).
    repeat split; auto. lia.
Qed.

End CounterFacts.

Ltac keeps_all :=
  repeat match goal with
         | |- keeps_stats (bind _ _) => apply keeps_bind; [|intros]
         | |- keeps_stats (ret _) => apply keeps_ret
         | |- keeps_stats (raise _) => apply keeps_raise
         | |- keeps_stats (gets _) => apply keeps_gets
         | |- keeps_stats (execute _ _) => apply keeps_execute
         | |- keeps_stats (scalar_one_or_none _) =>
             apply keeps_scalar_one_or_none
         | |- keeps_stats (set_github _ _) => apply keeps_set_github
         | |- keeps_stats (set_telegram _ _) => apply keeps_set_telegram
         | |- keeps_stats (set_project_name _ _) =>
             apply keeps_set_project_name
         | |- keeps_stats (_find_project_by_github_url _ _ _) =>
             apply reads_keeps, reads_find_project_by_github_url
         | |- keeps_stats (_find_review_by_url _ _ _ _) =>
             apply reads_keeps, reads_find_review_by_url
         | |- keeps_stats (match ?x with _ => _ end) => destruct x
         end.

Ltac counted_all :=
  repeat match goal with
         | |- counted _ (bump _) => apply counted_bump; simpl; tauto
         | |- counted _ (bind _ _) =>
             apply counted_bind; [keeps_all; fail | intros]
         | |- counted _ (match ?x with _ => _ end) => destruct x
         end.

Section PhaseCounters.

Variable faulty : nat -> bool.

Lemma counted_import_project (project_data : ProjectRecord) :
  counted [projects_created; projects_linking_errors]
    (import_project faulty project_data).
Proof. unfold import_project. counted_all. Qed.

Lemma counted_import_review (review_data : ReviewData) :
  counted [reviews_created; reviews_linking_errors]
    (import_review faulty review_data).
Proof. unfold import_review. counted_all. Qed.

Lemma keeps_find_existing_user (user_data : UserData) :
  keeps_stats (_find_existing_user faulty user_data).
Proof. unfold _find_existing_user. keeps_all. Qed.

Lemma keeps_get_or_create_role (role_name : pystr) :
  keeps_stats (_get_or_create_role faulty role_name).
Proof. unfold _get_or_create_role. keeps_all. Qed.

Lemma counted_import_user (role_name : pystr) (role : Role)
  (user_data : UserData) :
  counted [if is_student role_name then students_created
           else mentors_created]
    (import_user faulty role_name role user_data).
Proof.
  unfold import_user.
  apply counted_bind; [apply keeps_find_existing_user | intros].
  apply counted_bind; [keeps_all | intros].
  counted_all.
Qed.

Lemma counted_import_sponsored_review (utcnow : pystr)
  (review_data : SponsoredReviewRecord) :
  counted [sponsored_created; sponsored_linking_errors]
    (import_sponsored_review faulty utcnow review_data).
Proof. unfold import_sponsored_review. counted_all. Qed.

End PhaseCounters.

(** X19: [_import_projects] and [_import_reviews] never raise, and they
    count every row exactly once, whatever faults the store answers with:
    a row is created, or is a linking error, or is an error. *)
Theorem projects_and_reviews_are_counted_once
  (faulty : nat -> bool) (projects_data : list ProjectRecord)
  (reviews_data : list ReviewData) (st : State) :
  complete (import_stats st) ->
  (let '(r, st') := _import_projects faulty projects_data st in
   r = inr tt
   /\ stat (import_stats st') projects_created
      + stat (import_stats st') projects_linking_errors
      + stat (import_stats st') projects_errors
      = stat (import_stats st) projects_created
        + stat (import_stats st) projects_linking_errors
        + stat (import_stats st) projects_errors
        + length projects_data)
  /\ (let '(r, st') := _import_reviews faulty reviews_data st in
      r = inr tt
      /\ stat (import_stats st') reviews_created
         + stat (import_stats st') reviews_linking_errors
         + stat (import_stats st') reviews_errors
         = stat (import_stats st) reviews_created
           + stat (import_stats st) reviews_linking_errors
           + stat (import_stats st) reviews_errors
           + length reviews_data).
Proof.
  intros Hc. split.
  - destruct (_import_projects faulty projects_data st) as [r st'] eqn:E.
    unfold _import_projects in E.
    apply (@counting_loop _
             [projects_errors; projects_created; projects_linking_errors])
      in E; auto.
    + destruct E as (-> & _ & T). split; [reflexivity|].
      unfold total in T. simpl in T. lia.
    + repeat constructor; simpl; intuition discriminate.
    + intros x s r0 s' H.
      eapply counted_try; [apply counted_import_project | exact H].
  - destruct (_import_reviews faulty reviews_data st) as [r st'] eqn:E.
    unfold _import_reviews in E.
    apply (@counting_loop _
             [reviews_errors; reviews_created; reviews_linking_errors])
      in E; auto.
    + destruct E as (-> & _ & T). split; [reflexivity|].
      unfold total in T. simpl in T. lia.
    + repeat constructor; simpl; intuition discriminate.
    + intros x s r0 s' H.
      eapply counted_try; [apply counted_import_review | exact H].
Qed.

Lemma projects_and_reviews_are_counted_once_witness :
  complete (import_stats (fresh empty_store))
  /\ fst (_import_projects no_fault [proj1; proj1] (fresh empty_store))
     = inr tt.
Proof.
  split; [reflexivity|].
  pose proof (@projects_and_reviews_are_counted_once no_fault [proj1; proj1]
                [] (fresh empty_store) eq_refl) as [H _].
  destruct (_import_projects no_fault [proj1; proj1] (fresh empty_store))
    as [r st'].
  destruct H as [H _]. exact H.
Defined.

(** X20: when [_import_users] returns, it has counted every user exactly
    once, as created or as an error, in the counters of its role: those of
    the students for the role [STUDENT], those of the mentors for any
    other. When it raises, no counter has moved. *)
Theorem import_users_counts_every_user
  (faulty : nat -> bool) (users_data : list UserData) (role_name : pystr)
  (st : State) :
  complete (import_stats st) ->
  let created :=
    if is_student role_name then students_created else mentors_created in
  let errors :=
    if is_student role_name then students_errors else mentors_errors in
  let '(r, st') := _import_users faulty users_data role_name st in
  match r with
  | inr _ =>
      stat (import_stats st') created + stat (import_stats st') errors
      = stat (import_stats st) created + stat (import_stats st) errors
        + length users_data
  | inl _ => import_stats st' = import_stats st
  end.
Proof.
  intros Hc created errors.
  destruct (_import_users faulty users_data role_name st) as [r st'] eqn:E.
  unfold _import_users, bind in E.
  destruct (_get_or_create_role faulty role_name st) as [[e|role] s1] eqn:R;
    pose proof (@keeps_get_or_create_role faulty role_name _ _ _ R) as K.
  - injection E as <- <-. exact K.
  - rewrite <- K in Hc.
    apply (@counting_loop _ [errors; created]) in E; auto.
    + destruct E as (-> & _ & T). unfold total in T. simpl in T.
      rewrite K in T. lia.
    + subst created errors.
      destruct (is_student role_name);
        repeat constructor; simpl; intuition discriminate.
    + intros x s r0 s' H.
      eapply counted_try; [apply counted_import_user | exact H].
Qed.

Lemma import_users_counts_every_user_witness :
  complete (import_stats (fresh empty_store))
  /\ let '(r, st') :=
       _import_users no_fault [alice; bob] (str "STUDENT")
         (fresh empty_store) in
     match r with
     | inr _ =>
         stat (import_stats st')
           (if is_student (str "STUDENT") then students_created
            else mentors_created)
         + stat (import_stats st')
             (if is_student (str "STUDENT") then students_errors
              else mentors_errors)
         = stat (import_stats (fresh empty_store))
             (if is_student (str "STUDENT") then students_created
              else mentors_created)
           + stat (import_stats (fresh empty_store))
               (if is_student (str "STUDENT") then students_errors
                else mentors_errors)
           + 2
     | inl _ => import_stats st' = import_stats (fresh empty_store)
     end.
Proof.
  split; [reflexivity|].
  apply (@import_users_counts_every_user no_fault [alice; bob]
           (str "STUDENT") (fresh empty_store)).
  reflexivity.
Defined.

Ltac safe_rows :=
  repeat match goal with
         | |- safe (bind _ _) => apply safe_bind; [|intros]
         | |- safe (ret _) => apply safe_ret
         | |- safe (gets _) => apply safe_gets
         | |- safe (execute _ _) => apply safe_execute
         | |- safe (scalar_one_or_none _) => apply safe_scalar_one_or_none
         | |- safe (bump _) => apply safe_bump
         | |- safe (_find_project_by_github_url _ _ _) =>
             apply safe_find_project_by_github_url
         | |- safe (_find_review_by_url _ _ _ _) =>
             apply safe_find_review_by_url
         | |- safe (match ?x with _ => _ end) => destruct x
         end.

Section SponsoredCounters.

Variable faulty : nat -> bool.
Variable utcnow : pystr.

Lemma safe_import_sponsored_review (review_data : SponsoredReviewRecord) :
  safe (import_sponsored_review faulty utcnow review_data).
Proof. unfold import_sponsored_review. safe_rows. Qed.

(** One sponsored row: it is counted, or it has met a fault. *)
Lemma sponsored_row_counted (review_data : SponsoredReviewRecord)
  (st st' : State) r :
  try_catch (import_sponsored_review faulty utcnow review_data)
    (fun _ => ret tt) st = (r, st') ->
  r = inr tt
  /\ raised st <= raised st'
  /\ (one_more [sponsored_created; sponsored_linking_errors]
        (import_stats st) (import_stats st')
      \/ (import_stats st' = import_stats st /\ raised st < raised st')).
Proof.
  unfold try_catch.
  destruct (import_sponsored_review faulty utcnow review_data st)
    as [[f|[]] s1] eqn:E;
    pose proof (counted_import_sponsored_review faulty utcnow review_data
                  _ E) as C;
    destruct (safe_import_sponsored_review review_data _ E)
      as [(_ & _ & Q) F];
    simpl in C; intros [= <- <-].
  - specialize (F f eq_refl). repeat split; [lia|]. right. split; [exact C|lia].
  - repeat split; [lia|]. now left.
Qed.

Lemma sponsored_loop_counted (data : list SponsoredReviewRecord) :
  forall st r st',
    complete (import_stats st) ->
    sponsored_rows faulty utcnow data st = (r, st') ->
    let cs := [sponsored_created; sponsored_linking_errors] in
    r = inr tt
    /\ complete (import_stats st')
    /\ raised st <= raised st'
    /\ total cs (import_stats st') <= total cs (import_stats st) + length data
    /\ (raised st' = raised st ->
        total cs (import_stats st')
        = total cs (import_stats st) + length data).
Proof.
  unfold sponsored_rows.
  induction data as [|x l IH]; intros st r st' Hc; simpl.
  - intros [= <- <-]. repeat split; auto; lia.
  - unfold bind.
    destruct (try_catch (import_sponsored_review faulty utcnow x)
                (fun _ => ret tt) st) as [r1 s1] eqn:E.
    destruct (sponsored_row_counted _ _ E) as (-> & Q1 & H1).
    assert (Hnd : NoDup [sponsored_created; sponsored_linking_errors])
      by (repeat constructor; simpl; intuition discriminate).
    assert (Hc1 : complete (import_stats s1)).
    { destruct H1 as [H1 | [H1 _]].
      - now destruct (one_more_total Hc Hnd H1).
      - now rewrite H1. }
    intros H. destruct (IH _ _ _ Hc1 H) as (-> & Hc' & Q & T & Teq).
    split; [reflexivity|]. split; [exact Hc'|]. split; [lia|].
    destruct H1 as [H1 | [H1 F1]].
    + destruct (one_more_total Hc Hnd H1) as [_ T1].
      unfold total in *. cbn [fold_right length] in *.
      split; [lia|]. intros R. rewrite Teq by lia. lia.
    + rewrite H1 in *. unfold total in *. cbn [fold_right length] in *.
      split; [lia|]. intros R. lia.
Qed.

(** A quotient of counters below [2^1000] fits a float. *)
Lemma small_quotient (a b : nat) :
  (N.of_nat a < 2 ^ 1000)%N -> PyFloat.truediv_overflows a (S b) = false.
Proof.
  intros H. unfold PyFloat.truediv_overflows. apply N.leb_gt.
  assert (2 ^ 1000 < 2 ^ 1024 - 2 ^ 970)%N as K by (vm_compute; reflexivity).
  revert H K. generalize (2 ^ 1000)%N (2 ^ 1024 - 2 ^ 970)%N.
  intros x y H K. nia.
Qed.

(** What the report does: nothing, or one of its two divisions raises. *)
Lemma sponsored_report_char (n : nat) (st : State) :
  sponsored_report n st =
  match n with
  | O =>
      if (0 <? stat (import_stats st) sponsored_linking_errors)%nat
      then (inl ZeroDivisionError, note_raise st)
      else (inr tt, st)
  | S _ =>
      if PyFloat.truediv_overflows
           (stat (import_stats st) sponsored_created) n
         || PyFloat.truediv_overflows
              (stat (import_stats st) sponsored_linking_errors) n
      then (inl OverflowError, note_raise st)
      else (inr tt, st)
  end.
Proof.
  unfold sponsored_report, bind, gets, rate, raise, ret.
  destruct n as [|n].
  - destruct (stat (import_stats st) sponsored_linking_errors); reflexivity.
  - change (0 <? S n)%nat with true. cbv iota.
    destruct (PyFloat.truediv_overflows
                (stat (import_stats st) sponsored_created) (S n));
      [reflexivity|]. cbn [orb].
    destruct (stat (import_stats st) sponsored_linking_errors) as [|k].
    + rewrite small_quotient by (vm_compute; reflexivity). reflexivity.
    + change (0 <? S k)%nat with true. cbv iota.
      now destruct (PyFloat.truediv_overflows (S k) (S n)).
Qed.

End SponsoredCounters.

(** X21: the loop of [_import_sponsored_reviews] never raises. A
    sponsored row is counted once, as created or as a linking error,
    unless it meets a fault: a row that fails is counted nowhere. The call
    raises from its closing report only: [ZeroDivisionError] exactly when
    there are no rows while linking errors are on the counter, and
    [OverflowError] exactly when there are rows and a counter is too large
    for its rate to fit a float, which counters below [2^1000] never
    are. *)
Theorem sponsored_rows_are_counted_unless_they_fail
  (faulty : nat -> bool) (utcnow : pystr)
  (data : list SponsoredReviewRecord) (st : State) :
  complete (import_stats st) ->
  let '(r, st') := _import_sponsored_reviews faulty utcnow data st in
  let created s := stat (import_stats s) sponsored_created in
  let errors s := stat (import_stats s) sponsored_linking_errors in
  created st' + errors st' <= created st + errors st + length data
  /\ (raised st' = raised st ->
      r = inr tt
      /\ created st' + errors st' = created st + errors st + length data)
  /\ (r = inl ZeroDivisionError <-> data = [] /\ 0 < errors st)
  /\ (r = inl OverflowError
      <-> data <> []
          /\ PyFloat.truediv_overflows (created st') (length data)
             || PyFloat.truediv_overflows (errors st') (length data)
             = true)
  /\ (r = inr tt \/ r = inl ZeroDivisionError \/ r = inl OverflowError)
  /\ ((N.of_nat (created st + errors st + length data) < 2 ^ 1000)%N ->
      r <> inl OverflowError).
Proof.
  intros Hc. unfold _import_sponsored_reviews, bind.
  destruct (sponsored_rows faulty utcnow data st) as [r1 s1] eqn:E.
  pose proof E as E0.
  apply sponsored_loop_counted in E; [|exact Hc].
  destruct E as (-> & _ & Q & T & Teq).
  unfold total in T, Teq. simpl in T, Teq.
  rewrite sponsored_report_char.
  destruct data as [|x l].
  - injection E0 as <-. simpl.
    destruct (0 <? stat (import_stats st) sponsored_linking_errors)%nat
      eqn:Z; simpl.
    + apply Nat.ltb_lt in Z.
      split; [lia|]. split; [lia|]. split; [tauto|].
      split; [split; [discriminate | intros [H _]; now exfalso; apply H]|].
      split; [tauto | discriminate].
    + apply Nat.ltb_ge in Z.
      split; [lia|]. split; [intros _; split; [reflexivity | lia]|].
      split; [split; [discriminate | intros [_ H]; lia]|].
      split; [split; [discriminate | intros [H _]; now exfalso; apply H]|].
      split; [tauto | discriminate].
  - cbn [length] in *.
    destruct (PyFloat.truediv_overflows _ (S (length l))
              || PyFloat.truediv_overflows _ (S (length l))) eqn:O.
    + cbv zeta. unfold note_raise. cbn [raised import_stats].
      split; [lia|]. split; [lia|].
      split; [split; [discriminate | intros [H _]; discriminate]|].
      split; [split; [intros _; split; [discriminate | exact O]
                     | reflexivity]|].
      split; [tauto|]. intros H _.
      apply orb_true_iff in O.
      destruct O as [O | O]; rewrite small_quotient in O;
        try discriminate; lia.
    + cbv zeta. split; [lia|].
      split; [intros R; split; [reflexivity | specialize (Teq R); lia]|].
      split; [split; [discriminate | intros [H _]; discriminate]|].
      split; [split; [discriminate | intros [_ H]; congruence]|].
      split; [tauto | discriminate].
Qed.

(** X21 on one sponsored row and an empty store: the row is a linking
    error, and the report does not raise. *)
Lemma sponsored_rows_are_counted_unless_they_fail_witness :
  complete (import_stats (fresh empty_store))
  /\ _import_sponsored_reviews no_fault (str "2025-01-01")
       [sponsored_of_proj1 None] (fresh empty_store)
     <> (inl OverflowError,
         snd (_import_sponsored_reviews no_fault (str "2025-01-01")
                [sponsored_of_proj1 None] (fresh empty_store)))
  /\ stat (import_stats
             (snd (_import_sponsored_reviews no_fault (str "2025-01-01")
                     [sponsored_of_proj1 None] (fresh empty_store))))
          sponsored_linking_errors = 1.
Proof.
  split; [reflexivity|].
  pose proof (@sponsored_rows_are_counted_unless_they_fail no_fault
                (str "2025-01-01") [sponsored_of_proj1 None]
                (fresh empty_store) eq_refl) as H.
  destruct (_import_sponsored_reviews no_fault (str "2025-01-01")
              [sponsored_of_proj1 None] (fresh empty_store)) as [r st']
    eqn:E.
  destruct H as (_ & _ & _ & _ & _ & H).
  split.
  - intros [= ->]. apply H; [|reflexivity]. vm_compute. reflexivity.
  - vm_compute in E. injection E as _ <-. reflexivity.
Defined.

(** With one linking error on the counter and no row, the report divides
    by zero; after a row, it does not. *)
Lemma empty_sponsored_batch_divides_by_zero :
  let st := snd (bump sponsored_linking_errors (fresh empty_store)) in
  fst (_import_sponsored_reviews no_fault [] [] st) = inl ZeroDivisionError
  /\ fst (_import_sponsored_reviews no_fault [] [sponsored_of_proj1 None] st)
     = inr tt.
Proof. vm_compute. split; reflexivity. Qed.

(* ===================================================================== *)
(** ** The references between the rows *)
(* ===================================================================== *)

Section WpRules.

Variable faulty : nat -> bool.

Lemma wp_ret {A : Type} (a : A) (Q : A -> State -> Prop) E st :
  Q a st -> wp (ret a) Q E st.
Proof. intros H. exact H. Qed.

Lemma wp_gets {A : Type} (f : State -> A) (Q : A -> State -> Prop) E st :
  Q (f st) st -> wp (gets f) Q E st.
Proof. intros H. exact H. Qed.

Lemma wp_modify (f : State -> State) (Q : unit -> State -> Prop) E st :
  Q tt (f st) -> wp (modify f) Q E st.
Proof. intros H. exact H. Qed.

Lemma wp_bind {A B : Type} (m : M A) (k : A -> M B)
  (Q : B -> State -> Prop) (E : State -> Prop) st :
  wp m (fun a => wp (k a) Q E) E st -> wp (bind m k) Q E st.
Proof. unfold wp, bind. destruct (m st) as [[e|a] s1]; auto. Qed.

Lemma wp_try_catch {A : Type} (m : M A) (h : Fault -> M A)
  (Q : A -> State -> Prop) (E : State -> Prop) st :
  wp m Q (fun s => forall e, wp (h e) Q E s) st -> wp (try_catch m h) Q E st.
Proof.
  unfold wp, try_catch. destruct (m st) as [[e|a] s1]; auto.
  intros H. apply H.
Qed.

Lemma wp_conseq {A : Type} (m : M A) (Q Q' : A -> State -> Prop)
  (E E' : State -> Prop) st :
  wp m Q E st ->
  (forall a s, Q a s -> Q' a s) -> (forall s, E s -> E' s) ->
  wp m Q' E' st.
Proof. unfold wp. destruct (m st) as [[e|a] s1]; auto. Qed.

Lemma wp_for_each {A : Type} (I E : State -> Prop) (f : A -> M unit)
  (l : list A) :
  (forall x st, I st -> wp (f x) (fun _ => I) E st) ->
  forall st, I st -> wp (for_each l f) (fun _ => I) E st.
Proof.
  intros Hf. induction l as [|x l IH]; intros st HI.
  - exact HI.
  - change (for_each (x :: l) f) with (bind (f x) (fun _ => for_each l f)).
    apply wp_bind. eapply wp_conseq; [apply Hf, HI | | auto].
    intros a s Hs. apply IH, Hs.
Qed.

Lemma wp_execute {A : Type} (stmt : Stmt A) (Q : A -> State -> Prop)
  (E : State -> Prop) st :
  (forall st', working st' = working st -> same_dicts st st' -> E st') ->
  (forall a w st', stmt (working st) = inr (a, w) ->
                   working st' = w -> same_dicts st st' -> Q a st') ->
  wp (execute faulty stmt) Q E st.
Proof.
  intros HE HQ. unfold wp, execute, raise.
  destruct (faulty (sent st)).
  - apply HE; repeat split.
  - simpl. destruct (stmt (working st)) as [e|[a w]] eqn:S.
    + apply HE; repeat split.
    + apply (HQ a w); auto; repeat split.
Qed.

Lemma wp_select {R : Type} (T : Table R) (p : R -> bool)
  (Q : list R -> State -> Prop) (E : State -> Prop) st :
  (forall st', working st' = working st -> same_dicts st st' -> E st') ->
  (forall rows st', rows_of T (working st) = Some rows ->
                    working st' = working st -> same_dicts st st' ->
                    Q (filter p rows) st') ->
  wp (execute faulty (select T p)) Q E st.
Proof.
  intros HE HQ. apply wp_execute; [exact HE|].
  intros a w st' S W D. unfold select in S.
  destruct (rows_of T (working st)) as [rows|] eqn:R0; [|discriminate].
  injection S as <- <-. now apply HQ.
Qed.

Lemma wp_insert {R : Type} (T : Table R) (id_of : R -> Z) (mk : Z -> R)
  (Q : R -> State -> Prop) (E : State -> Prop) st :
  (forall st', working st' = working st -> same_dicts st st' -> E st') ->
  (forall rows st',
      rows_of T (working st) = Some rows ->
      working st'
      = with_rows T (Some (rows ++ [mk (next_id id_of rows)])) (working st) ->
      same_dicts st st' ->
      Q (mk (next_id id_of rows)) st') ->
  wp (execute faulty (insert T id_of mk)) Q E st.
Proof.
  intros HE HQ. apply wp_execute; [exact HE|].
  intros a w st' S W D. unfold insert in S.
  destruct (rows_of T (working st)) as [rows|] eqn:R0; [|discriminate].
  injection S as <- <-. now apply HQ.
Qed.

Lemma wp_insert_row {R : Type} (T : Table R) (r : R)
  (Q : unit -> State -> Prop) (E : State -> Prop) st :
  (forall st', working st' = working st -> same_dicts st st' -> E st') ->
  (forall rows st',
      rows_of T (working st) = Some rows ->
      working st' = with_rows T (Some (rows ++ [r])) (working st) ->
      same_dicts st st' ->
      Q tt st') ->
  wp (execute faulty (insert_row T r)) Q E st.
Proof.
  intros HE HQ. apply wp_execute; [exact HE|].
  intros a w st' S W D. unfold insert_row in S.
  destruct (rows_of T (working st)) as [rows|] eqn:R0; [|discriminate].
  injection S as <- <-. now apply HQ with (rows := rows).
Qed.

Lemma wp_update {R : Type} (T : Table R) (p : R -> bool) (r : R)
  (Q : unit -> State -> Prop) (E : State -> Prop) st :
  (forall st', working st' = working st -> same_dicts st st' -> E st') ->
  (forall rows st',
      rows_of T (working st) = Some rows ->
      working st'
      = with_rows T (Some (map (fun x => if p x then r else x) rows))
          (working st) ->
      same_dicts st st' ->
      Q tt st') ->
  wp (execute faulty (update T p r)) Q E st.
Proof.
  intros HE HQ. apply wp_execute; [exact HE|].
  intros a w st' S W D. unfold update in S.
  destruct (rows_of T (working st)) as [rows|] eqn:R0; [|discriminate].
  injection S as <- <-. now apply HQ with (rows := rows).
Qed.

Lemma wp_scalar_one_or_none {R : Type} (rows : list R)
  (Q : option R -> State -> Prop) (E : State -> Prop) st :
  (forall st', working st' = working st -> same_dicts st st' -> E st') ->
  (rows = [] -> Q None st) ->
  (forall r, rows = [r] -> Q (Some r) st) ->
  wp (scalar_one_or_none rows) Q E st.
Proof.
  intros HE H0 H1. destruct rows as [|a [|b rows]].
  - now apply H0.
  - now apply H1.
  - apply HE; repeat split.
Qed.

Lemma wp_reads {A : Type} (m : M A) (Q : A -> State -> Prop)
  (E : State -> Prop) st :
  reads m ->
  (forall st', working st' = working st -> same_dicts st st' -> E st') ->
  (forall a st', m st = (inr a, st') ->
                 working st' = working st -> same_dicts st st' -> Q a st') ->
  wp m Q E st.
Proof.
  intros Hm HE HQ. unfold wp.
  destruct (m st) as [[e|a] s1] eqn:M0;
    destruct (Hm _ _ _ M0) as (W & _ & G & T & P & _).
  - apply HE; [exact W | repeat split; assumption].
  - apply HQ; [reflexivity | exact W | repeat split; assumption].
Qed.

End WpRules.

Section ReferenceFacts.

Lemma values_in_nil (l : list Z) : values_in [] l.
Proof. intros k v H. discriminate. Qed.

Lemma dict_get_dict_set (d : dict) (k k' : pystr) (v v' : Z) :
  Validation.dict_get (dict_set d k v) k' = Some v' ->
  v' = v \/ Validation.dict_get d k' = Some v'.
Proof.
  induction d as [|[k0 v0] d IH]; simpl.
  - destruct (PyStr.eqb k k'); [intros [= <-]; now left | discriminate].
  - destruct (PyStr.eqb k0 k) eqn:K; simpl.
    + destruct (PyStr.eqb k0 k'); [intros [= <-]; now left | now right].
    + destruct (PyStr.eqb k0 k'); [now right | exact IH].
Qed.

Lemma values_in_dict_set (d : dict) (k : pystr) (v : Z) (l : list Z) :
  values_in d l -> In v l -> values_in (dict_set d k v) l.
Proof.
  intros Hd Hv k' v' E. apply dict_get_dict_set in E.
  destruct E as [-> | E]; [exact Hv | exact (Hd _ _ E)].
Qed.

Lemma values_in_incl (d : dict) (l l' : list Z) :
  incl l l' -> values_in d l -> values_in d l'.
Proof. intros I H k v E. apply I. exact (H k v E). Qed.

Lemma same_dicts_refl (st : State) : same_dicts st st.
Proof. repeat split. Qed.

Lemma linked_users_ext (st st' : State) :
  working st' = working st -> same_dicts st st' ->
  linked_users st -> linked_users st'.
Proof.
  intros W (G & T & P) (H1 & H2 & H3). unfold linked_users.
  rewrite W, G, T. auto.
Qed.

Lemma linked_ext (st st' : State) :
  working st' = working st -> same_dicts st st' ->
  linked st -> linked st'.
Proof.
  intros W D [H1 H2]. split; [now apply (linked_users_ext W D)|].
  destruct D as (G & T & P). now rewrite W, P.
Qed.

Lemma ids_of_app {R : Type} (id_of : R -> Z) (rows : list R) (r : R) :
  incl (ids_of id_of (Some rows)) (ids_of id_of (Some (rows ++ [r]))).
Proof.
  unfold ids_of. simpl. rewrite map_app. apply incl_appl, incl_refl.
Qed.

Lemma ids_of_last {R : Type} (id_of : R -> Z) (rows : list R) (r : R) :
  In (id_of r) (ids_of id_of (Some (rows ++ [r]))).
Proof.
  unfold ids_of. simpl. rewrite map_app. apply in_or_app. right. now left.
Qed.

Lemma ids_of_update {R : Type} (id_of : R -> Z) (p : R -> bool) (r : R)
  (rows : list R) :
  (forall x, p x = true -> id_of r = id_of x) ->
  ids_of id_of (Some (map (fun x => if p x then r else x) rows))
  = ids_of id_of (Some rows).
Proof.
  intros H. unfold ids_of. simpl. rewrite map_map. apply map_ext_in.
  intros x _. destruct (p x) eqn:P; [now apply H | reflexivity].
Qed.

(** The references hold in [d'] when the keys of [d] are still there and
    every row of [d'] is a row of [d] or has its references in [d']. *)
Lemma references_hold_step (d d' : DB) :
  references_hold d ->
  incl (ids_of u_id (users d)) (ids_of u_id (users d')) ->
  incl (ids_of role_id (roles d)) (ids_of role_id (roles d')) ->
  incl (ids_of p_id (projects d)) (ids_of p_id (projects d')) ->
  incl (ids_of r_id (reviews d)) (ids_of r_id (reviews d')) ->
  (forall l, In l (table_rows (users_roles d')) ->
             In l (table_rows (users_roles d))
             \/ (In (fst l) (ids_of u_id (users d'))
                 /\ In (snd l) (ids_of role_id (roles d')))) ->
  (forall m, In m (table_rows (mentor_profiles d')) ->
             In m (table_rows (mentor_profiles d))
             \/ In (mp_user_id m) (ids_of u_id (users d'))) ->
  (forall p, In p (table_rows (projects d')) ->
             In p (table_rows (projects d))
             \/ In (p_student_id p) (ids_of u_id (users d'))) ->
  (forall r, In r (table_rows (reviews d')) ->
             In r (table_rows (reviews d))
             \/ (In (r_project_id r) (ids_of p_id (projects d'))
                 /\ In (r_mentor_id r) (ids_of u_id (users d')))) ->
  (forall s, In s (table_rows (sponsored_reviews d')) ->
             In s (table_rows (sponsored_reviews d))
             \/ (In (s_project_id s) (ids_of p_id (projects d'))
                 /\ In (s_mentor_id s) (ids_of u_id (users d'))
                 /\ (forall id, s_review_id s = Some id ->
                                In id (ids_of r_id (reviews d'))))) ->
  references_hold d'.
Proof.
  unfold references_hold. rewrite !Forall_forall.
  intros (H1 & H2 & H3 & H4 & H5) Iu Ir Ip Iv A1 A2 A3 A4 A5.
  split; [|split; [|split; [|split]]]; intros x Hx.
  - destruct (A1 x Hx) as [O|N]; [|exact N].
    destruct (H1 x O). split; auto.
  - destruct (A2 x Hx) as [O|N]; [|exact N]. apply Iu, H2, O.
  - destruct (A3 x Hx) as [O|N]; [|exact N]. apply Iu, H3, O.
  - destruct (A4 x Hx) as [O|N]; [|exact N].
    destruct (H4 x O). split; auto.
  - destruct (A5 x Hx) as [O|N]; [|exact N].
    destruct (H5 x O) as (P1 & P2 & P3). repeat split; auto.
Qed.

End ReferenceFacts.

Ltac old_rows := solve [apply incl_refl | intros ? ?; now left].

Ltac new_row R :=
  let x := fresh "x" in
  let Hx := fresh "Hx" in
  intros x Hx; apply in_app_or in Hx; destruct Hx as [Hx | [<- | []]];
  [left; rewrite R; exact Hx | right].

Section TableFacts.

Lemma refs_insert_user (d : DB) (rows : list User) (u : User) :
  references_hold d -> users d = Some rows ->
  references_hold (set_users (Some (rows ++ [u])) d).
Proof.
  intros H R. apply references_hold_step with (d := d); [exact H|..]; simpl.
  all: try old_rows.
  rewrite R. apply ids_of_app.
Qed.

Lemma refs_update_user (d : DB) (rows : list User) (p : User -> bool)
  (u : User) :
  references_hold d -> users d = Some rows ->
  (forall x, p x = true -> u_id u = u_id x) ->
  references_hold
    (set_users (Some (map (fun x => if p x then u else x) rows)) d).
Proof.
  intros H R Hp.
  apply references_hold_step with (d := d); [exact H|..]; simpl.
  all: try old_rows.
  rewrite ids_of_update, R by exact Hp. apply incl_refl.
Qed.

Lemma refs_insert_role (d : DB) (rows : list Role) (r : Role) :
  references_hold d -> roles d = Some rows ->
  references_hold (set_roles (Some (rows ++ [r])) d).
Proof.
  intros H R. apply references_hold_step with (d := d); [exact H|..]; simpl.
  all: try old_rows.
  rewrite R. apply ids_of_app.
Qed.

Lemma refs_insert_link (d : DB) (rows : list (Z * Z)) (a b : Z) :
  references_hold d -> users_roles d = Some rows ->
  In a (ids_of u_id (users d)) -> In b (ids_of role_id (roles d)) ->
  references_hold (set_users_roles (Some (rows ++ [(a, b)])) d).
Proof.
  intros H R Ha Hb.
  apply references_hold_step with (d := d); [exact H|..]; simpl.
  all: try old_rows.
  new_row R. simpl. now split.
Qed.

Lemma refs_insert_profile (d : DB) (rows : list MentorProfile)
  (m : MentorProfile) :
  references_hold d -> mentor_profiles d = Some rows ->
  In (mp_user_id m) (ids_of u_id (users d)) ->
  references_hold (set_mentor_profiles (Some (rows ++ [m])) d).
Proof.
  intros H R Hm.
  apply references_hold_step with (d := d); [exact H|..]; simpl.
  all: try old_rows.
  new_row R. exact Hm.
Qed.

Lemma refs_update_profile (d : DB) (rows : list MentorProfile)
  (p : MentorProfile -> bool) (m : MentorProfile) :
  references_hold d -> mentor_profiles d = Some rows ->
  In (mp_user_id m) (ids_of u_id (users d)) ->
  references_hold
    (set_mentor_profiles
       (Some (map (fun x => if p x then m else x) rows)) d).
Proof.
  intros H R Hm.
  apply references_hold_step with (d := d); [exact H|..]; simpl.
  all: try old_rows.
  intros x Hx. apply in_map_iff in Hx. destruct Hx as (y & <- & Hy).
  destruct (p y); [right; exact Hm | left; rewrite R; exact Hy].
Qed.

Lemma refs_insert_project (d : DB) (rows : list Project) (p : Project) :
  references_hold d -> projects d = Some rows ->
  In (p_student_id p) (ids_of u_id (users d)) ->
  references_hold (set_projects (Some (rows ++ [p])) d).
Proof.
  intros H R S. apply references_hold_step with (d := d); [exact H|..]; simpl.
  all: try old_rows.
  - rewrite R. apply ids_of_app.
  - new_row R. exact S.
Qed.

Lemma refs_insert_review (d : DB) (rows : list Review) (r : Review) :
  references_hold d -> reviews d = Some rows ->
  In (r_project_id r) (ids_of p_id (projects d)) ->
  In (r_mentor_id r) (ids_of u_id (users d)) ->
  references_hold (set_reviews (Some (rows ++ [r])) d).
Proof.
  intros H R Hp Hm.
  apply references_hold_step with (d := d); [exact H|..]; simpl.
  all: try old_rows.
  - rewrite R. apply ids_of_app.
  - new_row R. now split.
Qed.

Lemma refs_insert_sponsored (d : DB) (rows : list SponsoredReview)
  (s : SponsoredReview) :
  references_hold d -> sponsored_reviews d = Some rows ->
  In (s_project_id s) (ids_of p_id (projects d)) ->
  In (s_mentor_id s) (ids_of u_id (users d)) ->
  (forall id, s_review_id s = Some id -> In id (ids_of r_id (reviews d))) ->
  references_hold (set_sponsored_reviews (Some (rows ++ [s])) d).
Proof.
  intros H R Hp Hm Hr.
  apply references_hold_step with (d := d); [exact H|..]; simpl.
  all: try old_rows.
  new_row R. repeat split; assumption.
Qed.

End TableFacts.

Ltac wp_fails :=
  let W := fresh "W" in
  let D := fresh "D" in
  intros ? W D;
  first [ now apply (linked_ext W D)
        | now apply (linked_users_ext W D) ].

Section RowFacts.

Variable faulty : nat -> bool.

Lemma linked_bump (c : Counter) (st : State) :
  linked st -> wp (bump c) (fun _ => linked) linked st.
Proof.
  intros L. unfold bump. apply wp_modify.
  eapply linked_ext; [| |exact L]; [reflexivity | repeat split].
Qed.

Lemma linked_users_bump (c : Counter) (st : State) :
  linked_users st -> wp (bump c) (fun _ => linked_users) linked_users st.
Proof.
  intros L. unfold bump. apply wp_modify.
  eapply linked_users_ext; [| |exact L]; [reflexivity | repeat split].
Qed.

Lemma linked_import_project (project_data : ProjectRecord) (st : State) :
  linked st ->
  wp (import_project faulty project_data) (fun _ => linked) linked st.
Proof.
  intros L. unfold import_project. apply wp_bind, wp_gets. cbv beta zeta.
  destruct (if truthy _ then _ else None) as [student_id|] eqn:D0;
    [|now apply linked_bump].
  assert (In student_id (ids_of u_id (users (working st)))) as Hs.
  { destruct (truthy _); [|discriminate].
    destruct L as [(_ & G & _) _]. exact (G _ _ D0). }
  apply wp_bind, wp_insert; [wp_fails|].
  intros rows st' R W D. simpl in R, W.
  apply wp_bind. unfold set_project_name. apply wp_modify.
  unfold bump. apply wp_modify.
  destruct L as [(L1 & L2 & L3) L4]. destruct D as (G & T & P).
  unfold linked, linked_users. simpl. rewrite W, G, T, P. simpl.
  split; [split; [|split; assumption]|].
  - now apply refs_insert_project.
  - apply values_in_dict_set;
      [|match goal with
        | |- In _ (ids_of _ (Some (?l ++ [?r]))) =>
            exact (@ids_of_last _ p_id l r)
        end].
    eapply values_in_incl; [|exact L4]. rewrite R. apply ids_of_app.
Qed.

Lemma lookup_values_in (d : dict) (l : list Z) (k : option pystr) (v : Z) :
  values_in d l -> lookup d k = Some v -> In v l.
Proof. intros H. destruct k as [k|]; [apply H | discriminate]. Qed.

Lemma linked_import_review (review_data : ReviewData) (st : State) :
  linked st ->
  wp (import_review faulty review_data) (fun _ => linked) linked st.
Proof.
  intros L. unfold import_review.
  apply wp_bind, wp_gets. apply wp_bind, wp_gets. cbv beta zeta.
  destruct (lookup (telegram_to_user_id st) _) as [m|] eqn:Dm;
    [|now apply linked_bump].
  destruct (lookup (project_name_to_id st) _) as [p|] eqn:Dp;
    [|now apply linked_bump].
  destruct (m =? 0)%Z; [now apply linked_bump|].
  destruct (p =? 0)%Z; [now apply linked_bump|].
  pose proof L as [(L1 & L2 & L3) L4].
  eapply lookup_values_in in Dm; [|exact L3].
  eapply lookup_values_in in Dp; [|exact L4].
  apply wp_bind, wp_insert; [wp_fails|].
  intros rows st' R W D. simpl in R, W.
  unfold bump. apply wp_modify.
  destruct D as (G & T & P).
  unfold linked, linked_users. simpl. rewrite W, G, T, P. simpl.
  split; [split; [|split; assumption]|assumption].
  now apply refs_insert_review.
Qed.

End RowFacts.

Section UserFacts.

Variable faulty : nat -> bool.

Local Abbreviation user_in id st :=
  (In id (ids_of u_id (users (working st)))).
Local Abbreviation role_in r st :=
  (In (role_id r) (ids_of role_id (roles (working st)))).

Lemma same_dicts_trans (a b c : State) :
  same_dicts a b -> same_dicts b c -> same_dicts a c.
Proof.
  unfold same_dicts. intros (A1 & A2 & A3) (B1 & B2 & B3).
  repeat split; congruence.
Qed.

Lemma filter_one_in {R : Type} (p : R -> bool) (rows : list R) (r : R) :
  filter p rows = [r] -> In r rows.
Proof.
  intros F. assert (In r (filter p rows)) as H by (rewrite F; now left).
  now apply filter_In in H.
Qed.

Lemma one_row_stored {R : Type} (id_of : R -> Z) (p : R -> bool)
  (t : option (list R)) (rows : list R) (r : R) :
  t = Some rows -> filter p rows = [r] -> In (id_of r) (ids_of id_of t).
Proof.
  intros -> F. unfold ids_of. simpl. apply in_map.
  exact (filter_one_in _ _ F).
Qed.

(** A user that the lookup returns is a row of the table of users. *)
Lemma wp_find_existing_user (user_data : UserData)
  (Q : option User -> State -> Prop) (E : State -> Prop) st :
  (forall st', working st' = working st -> same_dicts st st' -> E st') ->
  (forall o st', working st' = working st -> same_dicts st st' ->
                 (forall u, o = Some u -> user_in (u_id u) st) ->
                 Q o st') ->
  wp (_find_existing_user faulty user_data) Q E st.
Proof.
  intros HE HQ. unfold _find_existing_user.
  destruct (present _).
  { cbv zeta. apply wp_bind, wp_select; [exact HE|]. intros rows st1 R W D.
    simpl in R. apply wp_scalar_one_or_none.
    - intros st2 W2 D2. apply HE; [congruence|].
      exact (same_dicts_trans D D2).
    - intros F. apply HQ; auto. discriminate.
    - intros r F. apply HQ; auto. intros u [= <-].
      exact (one_row_stored u_id _ R F). }
  destruct (present _).
  { cbv zeta. apply wp_bind, wp_select; [exact HE|]. intros rows st1 R W D.
    simpl in R. apply wp_scalar_one_or_none.
    - intros st2 W2 D2. apply HE; [congruence|].
      exact (same_dicts_trans D D2).
    - intros F. apply HQ; auto. discriminate.
    - intros r F. apply HQ; auto. intros u [= <-].
      exact (one_row_stored u_id _ R F). }
  apply wp_ret. apply HQ; [reflexivity | apply same_dicts_refl | discriminate].
Qed.

Lemma linked_users_get_or_create_role (role_name : pystr) (st : State) :
  linked_users st ->
  wp (_get_or_create_role faulty role_name)
    (fun r st' => linked_users st' /\ role_in r st') linked_users st.
Proof.
  intros L. unfold _get_or_create_role.
  apply wp_bind, wp_select; [wp_fails|]. intros rows st1 R W D.
  simpl in R. apply (linked_users_ext W D) in L. rewrite <- W in R.
  clear W D.
  apply wp_bind, wp_scalar_one_or_none; [wp_fails| |].
  - intros _. apply wp_insert; [wp_fails|].
    intros rows' st2 R' W D. simpl in R', W.
    destruct L as (L1 & L2 & L3). destruct D as (G & T & P).
    unfold linked_users. rewrite W, G, T. simpl.
    split; [split; [|split; assumption]|].
    + now apply refs_insert_role.
    + match goal with
      | |- In _ (ids_of _ (Some (?l ++ [?r]))) =>
          exact (@ids_of_last _ role_id l r)
      end.
  - intros r F. apply wp_ret. split; [exact L|].
    exact (one_row_stored role_id _ R F).
Qed.

(** The rest of [import_user] once the user is stored. *)
Lemma linked_users_link_user (role : Role) (user : User) (c : Counter)
  (st : State) :
  linked_users st -> role_in role st -> user_in (u_id user) st ->
  wp (result <- execute faulty
        (select user_roles
           (fun l => (fst l =? u_id user)%Z && (snd l =? role_id role)%Z)) ;;
      link <- scalar_one_or_none result ;;
      (if falsy_id (option_map fst link)
       then execute faulty (insert_row user_roles (u_id user, role_id role))
       else ret tt) ;;
      (match u_github_url user with
       | Some g => if truthy g then set_github g (u_id user) else ret tt
       | None => ret tt
       end) ;;
      (match u_telegram_username user with
       | Some t =>
           if truthy t then set_telegram (lower t) (u_id user) else ret tt
       | None => ret tt
       end) ;;
      bump c)
    (fun _ st' => linked_users st' /\ role_in role st')
    (fun st' => linked_users st' /\ role_in role st') st.
Proof.
  intros L Hr Hu.
  assert (forall s s', working s' = working s -> same_dicts s s' ->
                       linked_users s /\ role_in role s ->
                       linked_users s' /\ role_in role s') as Hfail.
  { intros s s' W D [A B]. split; [now apply (linked_users_ext W D)|].
    now rewrite W. }
  apply wp_bind, wp_select; [intros; eapply Hfail; eauto|].
  intros rows st1 R W D.
  apply (linked_users_ext W D) in L. rewrite <- W in Hr, Hu. clear R W D.
  apply wp_bind, wp_scalar_one_or_none;
    [intros; eapply Hfail; eauto | intros _ | intros link _].
  all: apply wp_bind.
  all: eapply wp_conseq with
         (Q := fun _ s => linked_users s /\ role_in role s
                          /\ user_in (u_id user) s)
         (E := fun s => linked_users s /\ role_in role s);
    [ | | auto].
  1, 3: destruct (falsy_id _); [|apply wp_ret; auto].
  1, 2: apply wp_insert_row; [intros; eapply Hfail; eauto|];
    intros rows' st2 R' W D; simpl in R', W;
    destruct L as (L1 & L2 & L3); destruct D as (G & T & P);
    unfold linked_users; rewrite W, G, T; simpl;
    (split; [split; [|split; assumption]|split; assumption]);
    now apply refs_insert_link.
  all: clear dependent st1; intros _ s (L & Hr & Hu).
  all: apply wp_bind;
    eapply wp_conseq with
      (Q := fun _ s => linked_users s /\ role_in role s
                       /\ user_in (u_id user) s)
      (E := fun s => linked_users s /\ role_in role s);
    [ | | auto].
  1, 3: destruct (u_github_url user) as [g|]; [|apply wp_ret; auto];
    (destruct (truthy g); [|apply wp_ret; auto]);
    unfold set_github; apply wp_modify;
    destruct L as (L1 & L2 & L3);
    unfold linked_users; simpl;
    (split; [split; [assumption|split; [|assumption]]|split; assumption]);
    now apply values_in_dict_set.
  all: clear dependent s; intros _ s (L & Hr & Hu).
  all: apply wp_bind;
    eapply wp_conseq with
      (Q := fun _ s => linked_users s /\ role_in role s)
      (E := fun s => linked_users s /\ role_in role s);
    [ | | auto].
  1, 3: destruct (u_telegram_username user) as [t|]; [|apply wp_ret; auto];
    (destruct (truthy t); [|apply wp_ret; auto]);
    unfold set_telegram; apply wp_modify;
    destruct L as (L1 & L2 & L3);
    unfold linked_users; simpl;
    (split; [split; [assumption|split; [assumption|]]|assumption]);
    now apply values_in_dict_set.
  all: clear dependent s; intros _ s (L & Hr).
  all: unfold bump; apply wp_modify; split; [|exact Hr].
  all: eapply linked_users_ext; [| |exact L]; [reflexivity | repeat split].
Qed.

End UserFacts.

Section PhaseFacts.

Variable faulty : nat -> bool.

Local Abbreviation user_in id st :=
  (In id (ids_of u_id (users (working st)))).
Local Abbreviation role_in r st :=
  (In (role_id r) (ids_of role_id (roles (working st)))).

Lemma linked_users_import_user (role_name : pystr) (role : Role)
  (user_data : UserData) (st : State) :
  linked_users st -> role_in role st ->
  wp (import_user faulty role_name role user_data)
    (fun _ st' => linked_users st' /\ role_in role st')
    (fun st' => linked_users st' /\ role_in role st') st.
Proof.
  intros L Hr. unfold import_user.
  apply wp_bind, wp_find_existing_user.
  { intros st' W D. split; [now apply (linked_users_ext W D)|].
    now rewrite W. }
  intros o st1 W D Ho.
  apply (linked_users_ext W D) in L. rewrite <- W in Hr, Ho. clear W D.
  apply wp_bind.
  eapply wp_conseq with
    (Q := fun user s => linked_users s /\ role_in role s
                        /\ user_in (u_id user) s)
    (E := fun s => linked_users s /\ role_in role s);
    [ | | auto].
  2: { intros user s (L' & Hr' & Hu'). now apply linked_users_link_user. }
  pose proof L as (L1 & L2 & L3).
  destruct o as [u|].
  - cbv zeta. apply wp_bind, wp_update.
    { intros st' W D. split; [|now rewrite W].
      exact (linked_users_ext W D L). }
    intros rows st2 R W D. simpl in R, W. apply wp_ret.
    destruct D as (G & T & P).
    unfold linked_users. rewrite W, G, T. simpl.
    rewrite ids_of_update, <- R
      by (intros x Hx; apply Z.eqb_eq in Hx; simpl; now symmetry).
    split; [split; [|split; assumption]|split; [assumption|]].
    + apply refs_update_user; [assumption | assumption |].
      intros x Hx. apply Z.eqb_eq in Hx. simpl. now symmetry.
    + now apply Ho.
  - apply wp_insert.
    { intros st' W D. split; [|now rewrite W].
      exact (linked_users_ext W D L). }
    intros rows st2 R W D. simpl in R, W.
    destruct D as (G & T & P).
    unfold linked_users. rewrite W, G, T. simpl.
    assert (incl (ids_of u_id (users (working st1)))
              (ids_of u_id
                 (Some (rows ++
                        [{| u_id := next_id u_id rows;
                            u_telegram_user_id :=
                              ud_telegram_user_id user_data;
                            u_telegram_username :=
                              ud_telegram_username user_data;
                            u_github_url := ud_github_url user_data |}]))))
      as Hi by (rewrite R; apply ids_of_app).
    split; [split; [|split]|split; [assumption|]].
    + now apply refs_insert_user.
    + exact (values_in_incl Hi L2).
    + exact (values_in_incl Hi L3).
    + match goal with
      | |- In _ (ids_of _ (Some (?l ++ [?r]))) =>
          exact (@ids_of_last _ u_id l r)
      end.
Qed.

Lemma linked_users_import_users (users_data : list UserData)
  (role_name : pystr) (st : State) :
  linked_users st ->
  wp (_import_users faulty users_data role_name)
    (fun _ => linked_users) linked_users st.
Proof.
  intros L. unfold _import_users. apply wp_bind.
  eapply wp_conseq;
    [apply linked_users_get_or_create_role, L | | auto].
  intros role s [L' Hr]. cbv beta.
  eapply wp_conseq with
    (Q := fun _ s => linked_users s /\ role_in role s)
    (E := linked_users);
    [ | intros a s' H; apply H | auto].
  apply wp_for_each; [|now split].
  intros x s0 [L0 Hr0]. apply wp_try_catch.
  eapply wp_conseq; [now apply linked_users_import_user | auto |].
  intros s1 [L1 Hr1] e. unfold bump. apply wp_modify. split; [|exact Hr1].
  eapply linked_users_ext; [| |exact L1]; [reflexivity | repeat split].
Qed.

Lemma linked_users_import_mentor_profile (mentor_data : UserData)
  (st : State) :
  linked_users st ->
  wp (import_mentor_profile faulty mentor_data)
    (fun _ => linked_users) linked_users st.
Proof.
  intros L. unfold import_mentor_profile. apply wp_bind, wp_gets. cbv beta.
  destruct (ud_telegram_username mentor_data) as [t|]; [|now apply wp_ret].
  destruct (if truthy t then _ else None) as [user_id|] eqn:D0;
    [|now apply wp_ret].
  assert (user_in user_id st) as Hu.
  { destruct (truthy t); [|discriminate].
    destruct L as (_ & _ & T). exact (T _ _ D0). }
  apply wp_bind, wp_select; [wp_fails|]. intros rows st1 R W D. cbv zeta.
  apply (linked_users_ext W D) in L. rewrite <- W in Hu. clear R W D.
  pose proof L as (L1 & L2 & L3).
  destruct (filter _ rows).
  - apply wp_insert_row.
    { intros st' W D. exact (linked_users_ext W D L). }
    intros rows' st2 R' W D. simpl in R', W. destruct D as (G & T & P).
    unfold linked_users. rewrite W, G, T. simpl.
    split; [|split; assumption]. now apply refs_insert_profile.
  - apply wp_update.
    { intros st' W D. exact (linked_users_ext W D L). }
    intros rows' st2 R' W D. simpl in R', W. destruct D as (G & T & P).
    unfold linked_users. rewrite W, G, T. simpl.
    split; [|split; assumption]. now apply refs_update_profile.
Qed.

Lemma linked_users_import_mentor_profiles (mentors_data : list UserData)
  (st : State) :
  linked_users st ->
  wp (_import_mentor_profiles faulty mentors_data)
    (fun _ => linked_users) linked_users st.
Proof.
  intros L. unfold _import_mentor_profiles.
  apply wp_for_each; [|exact L].
  intros x s0 L0. apply wp_try_catch.
  eapply wp_conseq;
    [now apply linked_users_import_mentor_profile | auto |].
  intros s1 L1 e. now apply linked_users_bump.
Qed.

Lemma linked_import_projects (projects_data : list ProjectRecord)
  (st : State) :
  linked st ->
  wp (_import_projects faulty projects_data) (fun _ => linked) linked st.
Proof.
  intros L. unfold _import_projects.
  apply wp_for_each; [|exact L].
  intros x s0 L0. apply wp_try_catch.
  eapply wp_conseq; [now apply linked_import_project | auto |].
  intros s1 L1 e. now apply linked_bump.
Qed.

Lemma linked_import_reviews (reviews_data : list ReviewData) (st : State) :
  linked st ->
  wp (_import_reviews faulty reviews_data) (fun _ => linked) linked st.
Proof.
  intros L. unfold _import_reviews.
  apply wp_for_each; [|exact L].
  intros x s0 L0. apply wp_try_catch.
  eapply wp_conseq; [now apply linked_import_review | auto |].
  intros s1 L1 e. now apply linked_bump.
Qed.

End PhaseFacts.

Section LinkingFacts.

Variable faulty : nat -> bool.
Variable utcnow : pystr.

Local Abbreviation user_in id st :=
  (In id (ids_of u_id (users (working st)))).
Local Abbreviation project_in id st :=
  (In id (ids_of p_id (projects (working st)))).
Local Abbreviation review_in id st :=
  (In id (ids_of r_id (reviews (working st)))).

Lemma insert_desc_in (r x : Review) (l : list Review) :
  In x (insert_desc r l) -> x = r \/ In x l.
Proof.
  induction l as [|y l IH]; simpl.
  - intros [<- | []]. now left.
  - destruct (r_id y <? r_id r)%Z; simpl.
    + intros [<- | H]; [now left | now right].
    + intros [<- | H]; [right; now left|].
      destruct (IH H) as [-> | H']; [now left | right; now right].
Qed.

Lemma order_by_id_desc_in (x : Review) (l : list Review) :
  In x (order_by_id_desc l) -> In x l.
Proof.
  unfold order_by_id_desc. induction l as [|y l IH]; simpl; [auto|].
  intros H. apply insert_desc_in in H.
  destruct H as [-> | H]; [now left | right; now apply IH].
Qed.

(** A review that the lookup returns is a row of the table of reviews. *)
Lemma wp_find_review_by_url (url : option pystr) (mentor_id project_id : Z)
  (Q : option Z -> State -> Prop) (E : State -> Prop) st :
  (forall st', working st' = working st -> same_dicts st st' -> E st') ->
  (forall o st', working st' = working st -> same_dicts st st' ->
                 (forall id, o = Some id -> review_in id st) ->
                 Q o st') ->
  wp (_find_review_by_url faulty url mentor_id project_id) Q E st.
Proof.
  intros HE HQ. unfold _find_review_by_url.
  assert (Q None st) as HN
    by (apply HQ; [reflexivity | apply same_dicts_refl | discriminate]).
  destruct url as [u|]; [|exact HN].
  destruct (negb (truthy u)); [exact HN|].
  apply wp_bind, wp_select; [exact HE|]. intros rows st1 R W D.
  simpl in R. apply wp_bind, wp_scalar_one_or_none.
  - intros st2 W2 D2. apply HE; [congruence|].
    exact (same_dicts_trans D D2).
  - intros F. apply wp_ret. apply HQ; auto. discriminate.
  - intros r F. apply wp_ret. apply HQ; auto. intros id [= <-].
    exact (one_row_stored r_id _ R F).
Qed.

Lemma linked_import_sponsored_review (review_data : SponsoredReviewRecord)
  (st : State) :
  linked st ->
  wp (import_sponsored_review faulty utcnow review_data)
    (fun _ => linked) linked st.
Proof.
  intros L. unfold import_sponsored_review. cbv zeta.
  apply wp_bind, wp_gets. cbv beta.
  destruct (if startswith _ _ then _ else None) as [mentor_id|] eqn:Dm;
    [|now apply linked_bump].
  assert (user_in mentor_id st) as Hm.
  { destruct (startswith _ _); [|discriminate].
    destruct L as [(_ & _ & T) _]. exact (T _ _ Dm). }
  clear Dm.
  destruct (mentor_id =? 0)%Z; [now apply linked_bump|].
  apply wp_bind, wp_reads;
    [apply reads_find_project_by_github_url | wp_fails |].
  intros o st1 F W D.
  destruct o as [project_id|]; [|apply linked_bump, (linked_ext W D L)].
  apply find_project_is_stored in F.
  destruct F as (prows & p & Hp & Hin & Hid & _).
  assert (project_in project_id st) as Hpr.
  { unfold ids_of. rewrite Hp. simpl. rewrite <- Hid. now apply in_map. }
  clear prows p Hp Hin Hid.
  apply (linked_ext W D) in L. rewrite <- W in Hm, Hpr. clear W D st.
  destruct (project_id =? 0)%Z; [now apply linked_bump|].
  apply wp_bind, wp_find_review_by_url; [wp_fails|].
  intros o st2 W D Ho.
  apply (linked_ext W D) in L. rewrite <- W in Hm, Hpr, Ho. clear W D st1.
  apply wp_bind.
  eapply wp_conseq with
    (Q := fun rid s => linked s /\ user_in mentor_id s
                       /\ project_in project_id s
                       /\ (forall id, rid = Some id -> review_in id s))
    (E := linked);
    [ | | auto].
  - destruct (negb (falsy_id o)); [apply wp_ret; auto|].
    apply wp_bind, wp_execute; [wp_fails|].
    intros found w st3 S W D. unfold select in S. simpl in S.
    destruct (reviews (working st2)) as [rrows|] eqn:R; [|discriminate].
    injection S as <- <-.
    apply (linked_ext W D) in L.
    rewrite <- R in Ho. rewrite <- W in Hm, Hpr, Ho, R.
    clear W D.
    apply wp_bind, wp_scalar_one_or_none; [wp_fails| |].
    + intros _. apply wp_ret. auto.
    + intros r F. apply wp_ret.
      split; [exact L|split; [exact Hm|split; [exact Hpr|]]].
      intros id [= <-]. unfold ids_of. rewrite R. simpl. apply in_map.
      assert (In r (order_by_id_desc
                      (filter (fun r0 => (r_mentor_id r0 =? mentor_id)%Z
                                         && (r_project_id r0 =? project_id)%Z)
                         rrows))) as H by (rewrite F; now left).
      apply order_by_id_desc_in, filter_In in H. apply H.
  - clear dependent st2. intros rid s (L & Hm & Hpr & Hr).
    apply wp_bind, wp_insert; [wp_fails|].
    intros rows st4 R W D. simpl in R, W.
    unfold bump. apply wp_modify.
    destruct L as [(L1 & L2 & L3) L4]. destruct D as (G & T & P).
    unfold linked, linked_users. simpl. rewrite W, G, T, P. simpl.
    split; [split; [|split; assumption]|assumption].
    now apply refs_insert_sponsored.
Qed.

Lemma linked_import_sponsored_reviews (data : list SponsoredReviewRecord)
  (st : State) :
  linked st ->
  wp (_import_sponsored_reviews faulty utcnow data) (fun _ => linked)
    linked st.
Proof.
  intros L. unfold _import_sponsored_reviews. apply wp_bind.
  eapply wp_conseq with (Q := fun _ => linked) (E := linked); [| |auto].
  - unfold sponsored_rows. apply wp_for_each; [|exact L].
    intros x s0 L0. apply wp_try_catch.
    eapply wp_conseq; [now apply linked_import_sponsored_review | auto |].
    intros s1 L1 e. now apply wp_ret.
  - intros [] s1 L1. unfold wp. rewrite sponsored_report_char.
    destruct (length data);
      match goal with |- context [if ?b then _ else _] => destruct b end;
      exact L1.
Qed.

Variable enable_financial_import : bool.

(** The phases keep the references, whatever they end with. *)
Lemma phases_keep_references (processed_data : ProcessedData) (st : State) :
  references_hold (working st) ->
  wp (import_phases faulty enable_financial_import utcnow processed_data)
    (fun _ s => references_hold (working s))
    (fun s => references_hold (working s)) st.
Proof.
  intros H. unfold import_phases.
  assert (forall s, linked_users s -> references_hold (working s)) as HU
    by (intros s L; apply L).
  assert (forall s, linked s -> references_hold (working s)) as HL
    by (intros s L; apply L).
  apply wp_bind, wp_modify.
  apply wp_bind.
  eapply wp_conseq; [apply linked_users_import_users | | exact HU].
  { split; [exact H|]. split; apply values_in_nil. }
  intros [] s1 L1. cbv beta in L1 |- *.
  apply wp_bind.
  eapply wp_conseq; [now apply linked_users_import_users | | exact HU].
  clear dependent s1. intros [] s1 L1. cbv beta in L1 |- *.
  apply wp_bind.
  eapply wp_conseq;
    [now apply linked_users_import_mentor_profiles | | exact HU].
  clear dependent s1. intros [] s1 L1. cbv beta in L1 |- *.
  apply wp_bind, wp_modify.
  apply wp_bind.
  eapply wp_conseq; [apply linked_import_projects | | exact HL].
  { split; [exact L1 | apply values_in_nil]. }
  clear dependent s1. intros [] s1 L1. cbv beta in L1 |- *.
  apply wp_bind.
  eapply wp_conseq; [now apply linked_import_reviews | | exact HL].
  clear dependent s1. intros [] s1 L1. cbv beta in L1 |- *.
  destruct (sponsored_reviews_ processed_data) as [sponsored|];
    [|apply wp_ret; auto].
  destruct enable_financial_import; [|apply wp_ret; auto].
  eapply wp_conseq;
    [now apply linked_import_sponsored_reviews | auto | exact HL].
Qed.

End LinkingFacts.

(** X22: the import phases never store a dangling reference. When every
    reference of the view of the transaction points to a stored row, this
    is still so after [_import_users], [_import_mentor_profiles],
    [_import_projects], [_import_reviews] and [_import_sponsored_reviews]
    have run, whatever faults the store answers with and whether the
    phases end with a fault or not. *)
Theorem import_phases_keep_references
  (faulty : nat -> bool) (enable_financial_import : bool) (utcnow : pystr)
  (processed_data : ProcessedData) (st : State) :
  references_hold (working st) ->
  references_hold
    (working
       (snd (import_phases faulty enable_financial_import utcnow
               processed_data st))).
Proof.
  intros H.
  pose proof (@phases_keep_references faulty utcnow enable_financial_import
                processed_data st H) as W.
  unfold wp in W.
  destruct (import_phases faulty enable_financial_import utcnow
              processed_data st) as [[e|a] s]; exact W.
Qed.

Lemma import_phases_keep_references_witness :
  references_hold (working (fresh old_store))
  /\ references_hold
       (working
          (snd (import_phases no_fault true [] one_review
                  (fresh old_store)))).
Proof.
  assert (references_hold (working (fresh old_store))) as H.
  { unfold references_hold. simpl.
    repeat split; repeat constructor; simpl; auto. }
  split; [exact H|].
  exact (@import_phases_keep_references no_fault true [] one_review
           (fresh old_store) H).
Defined.

Section ClearedReferences.

Variable on_delete_cascade : bool.

(** Emptying the owned tables keeps the references, when the role links
    go with the users or there is none. *)
Lemma references_hold_clear_owned (d : DB) :
  references_hold d ->
  on_delete_cascade = true \/ table_rows (users_roles d) = [] ->
  references_hold (clear_owned on_delete_cascade d).
Proof.
  intros (L & _) Hc. unfold references_hold, clear_owned, emptied. simpl.
  assert (forall {R : Type} (t : option (list R)),
             table_rows (option_map (fun _ => @nil R) t) = []) as Z
    by (intros R [l|]; reflexivity).
  rewrite !Z. split; [|repeat split; constructor].
  destruct (users d) as [us|] eqn:U.
  - destruct Hc as [-> | Hc]; [rewrite Z; constructor|].
    destruct on_delete_cascade; [rewrite Z | rewrite Hc]; constructor.
  - unfold ids_of in L. simpl in L.
    destruct (table_rows (users_roles d)) as [|l ls]; [constructor|].
    inversion L as [|? ? [[] _] _].
Qed.

End ClearedReferences.

(** X23: [_import_to_database] never commits a dangling reference of its
    own. When the references hold in the committed store, the store
    answers the statements of the clearing step,
    and the role links go with the users they belong to or there is no
    role link, the references hold in the store that is committed when
    the run ends, whatever faults occur afterwards and whether the run
    succeeds or not. *)
Theorem import_commits_no_dangling_reference
  (faulty : nat -> bool) (on_delete_cascade enable_financial_import : bool)
  (utcnow : pystr) (processed_data : ProcessedData) (st : State) :
  references_hold (committed st) ->
  (forall n, n < clearing_statements (committed st) ->
             faulty (sent st + n) = false) ->
  on_delete_cascade = true \/ table_rows (users_roles (committed st)) = [] ->
  references_hold
    (committed
       (snd (_import_to_database faulty on_delete_cascade
               enable_financial_import utcnow processed_data st))).
Proof.
  intros H0 Hf Hc.
  unfold _import_to_database, with_session, open_session, close_session.
  unfold bind at 1. unfold modify at 1.
  unfold bind at 1. unfold modify at 1.
  change (set_working _ (set_locals _ _ _ zero_stats st)) with (begin_run st).
  unfold try_catch.
  match goal with
  | |- context [bind (_clear_database _ _) ?k (begin_run st)] =>
      destruct (bind (_clear_database faulty on_delete_cascade) k
                  (begin_run st)) as [r s] eqn:E
  end.
  apply try_block_cases in E.
  destruct E as [(e & -> & Q & R)
                | (s1 & s2 & E1 & E2 & Q1 & Q2 & -> & C & O & R)].
  - unfold bind.
    destruct (rollback faulty s) as [[e'|[]] s4] eqn:E4;
      destruct (@safe_rollback faulty _ _ _ E4) as [(C4 & _) _];
      destruct Q as (Cq & _);
      unfold raise, modify; simpl; rewrite ?C4, Cq; exact H0.
  - unfold modify. simpl. rewrite C.
    apply clear_database_clean in E1; [|exact Hf].
    destruct E1 as (_ & W1 & _).
    change (working (begin_run st)) with (committed st) in W1.
    assert (references_hold (working s1)) as H1
      by (rewrite W1; now apply references_hold_clear_owned).
    pose proof (@phases_keep_references faulty utcnow enable_financial_import
                  processed_data s1 H1) as W.
    unfold wp in W. rewrite E2 in W. exact W.
Qed.

(** X23 on a store that does not remove the role links with the users,
    and that holds a user and a project but no role link. *)
Lemma import_commits_no_dangling_reference_witness :
  references_hold (committed (fresh unlinked_store))
  /\ references_hold
       (committed
          (snd (_import_to_database no_fault false true [] one_review
                  (fresh unlinked_store)))).
Proof.
  assert (references_hold (committed (fresh unlinked_store))) as H0.
  { unfold references_hold. simpl.
    repeat split; repeat constructor; simpl; auto. }
  split; [exact H0|].
  apply (@import_commits_no_dangling_reference no_fault false true []
           one_review (fresh unlinked_store) H0).
  - intros n _. reflexivity.
  - right. reflexivity.
Defined.

(** Without that condition the property fails: the store keeps the role link
    of a user that the run has removed, and the run commits it although
    its user is gone. *)
Lemma stale_role_link_is_committed :
  let run := _import_to_database no_fault false true []
               {| students := []; mentors := []; projects_ := [];
                  reviews_ := []; sponsored_reviews_ := None |}
               (fresh old_store) in
  references_hold (committed (fresh old_store))
  /\ users (committed (snd run)) = Some []
  /\ users_roles (committed (snd run)) = Some [ (1, 1)%Z ]
  /\ ~ references_hold (committed (snd run)).
Proof.
  intros run. split.
  { unfold references_hold. simpl.
    repeat split; repeat constructor; simpl; auto. }
  split; [vm_compute; reflexivity|]. split; [vm_compute; reflexivity|].
  intros (L & _).
  assert (table_rows (users_roles (committed (snd run))) = [ (1, 1)%Z ])
    as E1 by (vm_compute; reflexivity).
  assert (ids_of u_id (users (committed (snd run))) = []) as E2
    by (vm_compute; reflexivity).
  rewrite E1, E2 in L. inversion L as [|? ? [[] _] _].
Qed.

Section RoleFacts.

Lemma eqb_refl (a : pystr) : PyStr.eqb a a = true.
Proof. unfold PyStr.eqb. now destruct (list_eq_dec N.eq_dec a a). Qed.

(** The role is returned as it is when the table holds it once. *)
Lemma role_found (faulty : nat -> bool) (role_name : pystr) (st : State)
  (rows : list Role) (role : Role) :
  faulty (sent st) = false ->
  roles (working st) = Some rows ->
  filter (fun r => PyStr.eqb (Models.role_name r) role_name) rows = [role] ->
  _get_or_create_role faulty role_name st
  = (inr role, set_working (working st) (tick st)).
Proof.
  intros F R Fp. unfold _get_or_create_role, bind, execute, select.
  rewrite F. simpl. rewrite R, Fp. reflexivity.
Qed.

(** What the table of roles holds once the role is returned. *)
Lemma role_created (faulty : nat -> bool) (role_name : pystr)
  (st st' : State) (role : Role) :
  _get_or_create_role faulty role_name st = (inr role, st') ->
  exists rows,
    roles (working st') = Some rows
    /\ filter (fun r => PyStr.eqb (Models.role_name r) role_name) rows
       = [role].
Proof.
  unfold _get_or_create_role. unfold bind at 1.
  destruct (execute faulty (select Role_ _) st) as [[e|found] s1] eqn:E1;
    [discriminate|].
  apply execute_select_inv in E1. destruct E1 as (rows & R & -> & W1).
  simpl in R. rewrite <- W1 in R. clear W1.
  unfold bind at 1.
  destruct (filter _ rows) as [|a [|b l]] eqn:Fp; simpl;
    unfold ret, raise; [| |discriminate].
  - unfold execute, insert, raise.
    destruct (faulty (sent s1)); [discriminate|]. simpl. rewrite R.
    intros [= <- <-]. simpl.
    eexists. split; [reflexivity|].
    rewrite filter_app, Fp. simpl. now rewrite eqb_refl.
  - intros [= <- <-]. now exists rows.
Qed.

End RoleFacts.

(** X24: [_get_or_create_role] creates a role once. After a call that
    returns a role, the table of roles holds exactly one role of that
    name, the one returned; a second call, when the store answers its
    query, returns the same role and leaves the view of the transaction as
    it is. *)
Theorem get_or_create_role_creates_once
  (faulty faulty' : nat -> bool) (role_name : pystr) (st : State)
  (role : Role) :
  fst (_get_or_create_role faulty role_name st) = inr role ->
  let st' := snd (_get_or_create_role faulty role_name st) in
  faulty' (sent st') = false ->
  (exists rows,
      roles (working st') = Some rows
      /\ filter (fun r => PyStr.eqb (Models.role_name r) role_name) rows
         = [role])
  /\ fst (_get_or_create_role faulty' role_name st') = inr role
  /\ working (snd (_get_or_create_role faulty' role_name st')) = working st'.
Proof.
  destruct (_get_or_create_role faulty role_name st) as [r st'] eqn:E.
  simpl. intros -> F.
  apply role_created in E. destruct E as (rows & R & Fp).
  split; [now exists rows|].
  rewrite (@role_found faulty' role_name st' rows role F R Fp).
  split; reflexivity.
Qed.

Lemma get_or_create_role_creates_once_witness :
  fst (_get_or_create_role no_fault (str "STUDENT") (fresh empty_store))
  = inr {| role_id := 1; Models.role_name := str "STUDENT" |}
  /\ fst (_get_or_create_role no_fault (str "STUDENT")
            (snd (_get_or_create_role no_fault (str "STUDENT")
                    (fresh empty_store))))
     = inr {| role_id := 1; Models.role_name := str "STUDENT" |}.
Proof.
  assert (fst (_get_or_create_role no_fault (str "STUDENT")
                 (fresh empty_store))
          = inr {| role_id := 1; Models.role_name := str "STUDENT" |}) as H
    by reflexivity.
  split; [exact H|].
  destruct (@get_or_create_role_creates_once no_fault no_fault
              (str "STUDENT") (fresh empty_store) _ H eq_refl)
    as (_ & H2 & _).
  exact H2.
Defined.

Section ProfileFacts.

Variable faulty : nat -> bool.

Local Abbreviation profiled st :=
  (ids_of mp_user_id (mentor_profiles (working st))).

Lemma NoDup_snoc (l : list Z) (a : Z) :
  NoDup l -> ~ In a l -> NoDup (l ++ [a]).
Proof.
  induction l as [|x l IH]; simpl; intros H Hn.
  - constructor; [intros []|constructor].
  - inversion H as [|? ? Hx Hl]; subst. constructor.
    + intros Hin. apply in_app_or in Hin. destruct Hin as [Hin | [-> | []]].
      * now apply Hx.
      * apply Hn. now left.
    + apply IH; [exact Hl|]. intros Hin. apply Hn. now right.
Qed.

Lemma filter_nil_none {R : Type} (p : R -> bool) (rows : list R) (x : R) :
  filter p rows = [] -> In x rows -> p x = false.
Proof.
  intros F Hin. destruct (p x) eqn:P; [|reflexivity].
  assert (In x (filter p rows)) as H by (apply filter_In; now split).
  rewrite F in H. destruct H.
Qed.

(** One mentor: a profile is added only for a user that has none. *)
Lemma one_profile_import_mentor_profile (mentor_data : UserData)
  (st : State) :
  NoDup (profiled st) ->
  wp (import_mentor_profile faulty mentor_data)
    (fun _ s => NoDup (profiled s)) (fun s => NoDup (profiled s)) st.
Proof.
  intros H. unfold import_mentor_profile. apply wp_bind, wp_gets. cbv beta.
  destruct (ud_telegram_username mentor_data) as [t|]; [|now apply wp_ret].
  destruct (if truthy t then _ else None) as [user_id|];
    [|now apply wp_ret].
  apply wp_bind, wp_select; [intros st' W D; now rewrite W|].
  intros rows st1 R W D. simpl in R. cbv zeta.
  rewrite <- W in H, R. clear W D.
  destruct (filter _ rows) eqn:F.
  - apply wp_insert_row; [intros st' W D; now rewrite W|].
    intros rows' st2 R' W D. simpl in R', W. rewrite W. simpl.
    assert (rows' = rows) as -> by congruence.
    unfold ids_of in H |- *. rewrite R in H. simpl in H |- *.
    rewrite map_app. simpl. apply NoDup_snoc; [exact H|].
    intros Hin. apply in_map_iff in Hin. destruct Hin as (x & Hx & Hin).
    pose proof (filter_nil_none _ _ x F Hin) as P. simpl in P.
    apply Z.eqb_neq in P. now apply P.
  - apply wp_update; [intros st' W D; now rewrite W|].
    intros rows' st2 R' W D. simpl in R', W. rewrite W. simpl.
    assert (rows' = rows) as -> by congruence.
    rewrite ids_of_update, <- R; [exact H|].
    intros x Hx. apply Z.eqb_eq in Hx. simpl. now symmetry.
Qed.

Lemma one_profile_import_mentor_profiles (mentors_data : list UserData)
  (st : State) :
  NoDup (profiled st) ->
  wp (_import_mentor_profiles faulty mentors_data)
    (fun _ s => NoDup (profiled s)) (fun _ => False) st.
Proof.
  intros H. unfold _import_mentor_profiles.
  apply wp_for_each with (I := fun s => NoDup (profiled s)); [|exact H].
  intros x s0 H0. apply wp_try_catch.
  eapply wp_conseq;
    [now apply one_profile_import_mentor_profile | auto |].
  intros s1 H1 e. unfold bump. now apply wp_modify.
Qed.

End ProfileFacts.

(** X25: [_import_mentor_profiles] never raises and never gives a user a
    second profile: when no two profiles of the view of the transaction
    belong to the same user, this is still so afterwards, whatever faults
    the store answers with and however often a mentor occurs in the
    batch. *)
Theorem import_mentor_profiles_keeps_one_profile_per_user
  (faulty : nat -> bool) (mentors_data : list UserData) (st : State) :
  NoDup (ids_of mp_user_id (mentor_profiles (working st))) ->
  let '(r, st') := _import_mentor_profiles faulty mentors_data st in
  r = inr tt
  /\ NoDup (ids_of mp_user_id (mentor_profiles (working st'))).
Proof.
  intros H.
  pose proof (@one_profile_import_mentor_profiles faulty mentors_data st H)
    as W.
  unfold wp in W.
  destruct (_import_mentor_profiles faulty mentors_data st) as [[e|[]] s].
  - destruct W.
  - split; [reflexivity | exact W].
Qed.

Lemma import_mentor_profiles_keeps_one_profile_per_user_witness :
  let st := snd (_import_users no_fault [bob] (str "MENTOR")
                   (fresh empty_store)) in
  NoDup (ids_of mp_user_id (mentor_profiles (working st)))
  /\ let '(r, st') := _import_mentor_profiles no_fault [bob; bob] st in
     r = inr tt
     /\ NoDup (ids_of mp_user_id (mentor_profiles (working st'))).
Proof.
  intros st.
  assert (NoDup (ids_of mp_user_id (mentor_profiles (working st)))) as H
    by (vm_compute; constructor).
  split; [exact H|].
  exact (@import_mentor_profiles_keeps_one_profile_per_user no_fault
           [bob; bob] st H).
Defined.
(* ===================================================================== *)
(** ** What the import writes *)
(* ===================================================================== *)

Section ViewRules.

Variable faulty : nat -> bool.

(** The rules of [wp] for a property of the view and of the counters. *)
Lemma wpv_execute {A : Type} (stmt : Stmt A) (Q : A -> State -> Prop)
  (E : State -> Prop) st :
  (forall st', working st' = working st ->
               import_stats st' = import_stats st -> E st') ->
  (forall a w st', stmt (working st) = inr (a, w) ->
                   working st' = w ->
                   import_stats st' = import_stats st -> Q a st') ->
  wp (execute faulty stmt) Q E st.
Proof.
  intros HE HQ. unfold wp, execute, raise.
  destruct (faulty (sent st)).
  - apply HE; reflexivity.
  - simpl. destruct (stmt (working st)) as [e|[a w]] eqn:S.
    + apply HE; reflexivity.
    + apply (HQ a w); auto.
Qed.

Lemma wpv_select {R : Type} (T : Table R) (p : R -> bool)
  (Q : list R -> State -> Prop) (E : State -> Prop) st :
  (forall st', working st' = working st ->
               import_stats st' = import_stats st -> E st') ->
  (forall rows st', rows_of T (working st) = Some rows ->
                    working st' = working st ->
                    import_stats st' = import_stats st ->
                    Q (filter p rows) st') ->
  wp (execute faulty (select T p)) Q E st.
Proof.
  intros HE HQ. apply wpv_execute; [exact HE|].
  intros a w st' S W D. unfold select in S.
  destruct (rows_of T (working st)) as [rows|] eqn:R0; [|discriminate].
  injection S as <- <-. now apply HQ.
Qed.

Lemma wpv_insert {R : Type} (T : Table R) (id_of : R -> Z) (mk : Z -> R)
  (Q : R -> State -> Prop) (E : State -> Prop) st :
  (forall st', working st' = working st ->
               import_stats st' = import_stats st -> E st') ->
  (forall rows st',
      rows_of T (working st) = Some rows ->
      working st'
      = with_rows T (Some (rows ++ [mk (next_id id_of rows)])) (working st) ->
      import_stats st' = import_stats st ->
      Q (mk (next_id id_of rows)) st') ->
  wp (execute faulty (insert T id_of mk)) Q E st.
Proof.
  intros HE HQ. apply wpv_execute; [exact HE|].
  intros a w st' S W D. unfold insert in S.
  destruct (rows_of T (working st)) as [rows|] eqn:R0; [|discriminate].
  injection S as <- <-. now apply HQ.
Qed.

Lemma wpv_insert_row {R : Type} (T : Table R) (r : R)
  (Q : unit -> State -> Prop) (E : State -> Prop) st :
  (forall st', working st' = working st ->
               import_stats st' = import_stats st -> E st') ->
  (forall rows st',
      rows_of T (working st) = Some rows ->
      working st' = with_rows T (Some (rows ++ [r])) (working st) ->
      import_stats st' = import_stats st ->
      Q tt st') ->
  wp (execute faulty (insert_row T r)) Q E st.
Proof.
  intros HE HQ. apply wpv_execute; [exact HE|].
  intros a w st' S W D. unfold insert_row in S.
  destruct (rows_of T (working st)) as [rows|] eqn:R0; [|discriminate].
  injection S as <- <-. now apply HQ with (rows := rows).
Qed.

Lemma wpv_update {R : Type} (T : Table R) (p : R -> bool) (r : R)
  (Q : unit -> State -> Prop) (E : State -> Prop) st :
  (forall st', working st' = working st ->
               import_stats st' = import_stats st -> E st') ->
  (forall rows st',
      rows_of T (working st) = Some rows ->
      working st'
      = with_rows T (Some (map (fun x => if p x then r else x) rows))
          (working st) ->
      import_stats st' = import_stats st ->
      Q tt st') ->
  wp (execute faulty (update T p r)) Q E st.
Proof.
  intros HE HQ. apply wpv_execute; [exact HE|].
  intros a w st' S W D. unfold update in S.
  destruct (rows_of T (working st)) as [rows|] eqn:R0; [|discriminate].
  injection S as <- <-. now apply HQ with (rows := rows).
Qed.

Lemma wpv_scalar_one_or_none {R : Type} (rows : list R)
  (Q : option R -> State -> Prop) (E : State -> Prop) st :
  (forall st', working st' = working st ->
               import_stats st' = import_stats st -> E st') ->
  (rows = [] -> Q None st) ->
  (forall r, rows = [r] -> Q (Some r) st) ->
  wp (scalar_one_or_none rows) Q E st.
Proof.
  intros HE H0 H1. destruct rows as [|a [|b rows]].
  - now apply H0.
  - now apply H1.
  - apply HE; reflexivity.
Qed.

Lemma wpv_reads {A : Type} (m : M A) (Q : A -> State -> Prop)
  (E : State -> Prop) st :
  reads m ->
  (forall st', working st' = working st ->
               import_stats st' = import_stats st -> E st') ->
  (forall a st', working st' = working st ->
                 import_stats st' = import_stats st -> Q a st') ->
  wp m Q E st.
Proof.
  intros Hm HE HQ. unfold wp.
  destruct (m st) as [[e|a] s1] eqn:M0;
    destruct (Hm _ _ _ M0) as (W & _ & _ & _ & _ & S).
  - now apply HE.
  - now apply HQ.
Qed.

Lemma wp_for_each_in {A : Type} (I E : State -> Prop) (f : A -> M unit)
  (l : list A) :
  (forall x st, In x l -> I st -> wp (f x) (fun _ => I) E st) ->
  forall st, I st -> wp (for_each l f) (fun _ => I) E st.
Proof.
  induction l as [|x l IH]; intros Hf st HI.
  - exact HI.
  - change (for_each (x :: l) f) with (bind (f x) (fun _ => for_each l f)).
    apply wp_bind. eapply wp_conseq; [apply Hf; [now left | exact HI] | | auto].
    intros a s Hs. apply IH; [|exact Hs].
    intros y s' Hy. apply Hf. now right.
Qed.

End ViewRules.

Section Repopulation.

Variable faulty : nat -> bool.
Variable utcnow : pystr.
Variable pd : ProcessedData.

Lemma repopulating_ext (st st' : State) :
  working st' = working st -> import_stats st' = import_stats st ->
  repopulating pd st -> repopulating pd st'.
Proof. unfold repopulating. now intros -> ->. Qed.

(** A counter that is not one of the three that count rows. *)
Lemma sized_incr (d : DB) (s : ImportStats) (c : Counter) :
  complete s ->
  c <> projects_created -> c <> reviews_created -> c <> sponsored_created ->
  sized d s -> sized d (incr c s).
Proof.
  intros Hc H1 H2 H3 (S1 & S2 & S3). unfold sized.
  rewrite !stat_incr by assumption.
  destruct c; try congruence; cbn; repeat split; lia.
Qed.

Lemma repopulating_bump (c : Counter) (st : State) :
  c <> projects_created -> c <> reviews_created -> c <> sponsored_created ->
  repopulating pd st ->
  wp (bump c) (fun _ => repopulating pd) (repopulating pd) st.
Proof.
  intros H1 H2 H3 (W & C & S). unfold bump. apply wp_modify.
  unfold repopulating. simpl.
  split; [exact W|]. split; [now apply complete_incr|].
  now apply sized_incr.
Qed.

(** What a change of one table leaves of the invariant. *)
Lemma written_users (d : DB) (rows : list User) :
  written_from pd d -> Forall (user_from pd) rows ->
  written_from pd (set_users (Some rows) d).
Proof. intros (_ & H) F. split; assumption. Qed.

Lemma written_profiles (d : DB) (rows : list MentorProfile) :
  written_from pd d -> Forall (profile_from pd) rows ->
  written_from pd (set_mentor_profiles (Some rows) d).
Proof. intros (H1 & _ & H) F. split; [|split]; assumption. Qed.

Lemma written_projects (d : DB) (rows : list Project) :
  written_from pd d -> Forall (project_from pd) rows ->
  written_from pd (set_projects (Some rows) d).
Proof.
  intros (H1 & H2 & _ & H) F. split; [|split; [|split]]; assumption.
Qed.

Lemma written_reviews (d : DB) (rows : list Review) :
  written_from pd d -> Forall (review_from pd) rows ->
  written_from pd (set_reviews (Some rows) d).
Proof.
  intros (H1 & H2 & H3 & _ & H) F.
  split; [|split; [|split; [|split]]]; assumption.
Qed.

Lemma written_sponsored (d : DB) (rows : list SponsoredReview) :
  written_from pd d -> Forall (sponsored_from pd) rows ->
  written_from pd (set_sponsored_reviews (Some rows) d).
Proof.
  intros (H1 & H2 & H3 & H4 & _) F.
  split; [|split; [|split; [|split]]]; assumption.
Qed.

Lemma table_rows_some {R : Type} (t : option (list R)) (rows : list R) :
  t = Some rows -> table_rows t = rows.
Proof. now intros ->. Qed.

Lemma Forall_snoc {A : Type} (P : A -> Prop) (l : list A) (a : A) :
  Forall P l -> P a -> Forall P (l ++ [a]).
Proof. intros F H. apply Forall_app. split; [exact F | now constructor]. Qed.

Lemma Forall_replace {A : Type} (P : A -> Prop) (p : A -> bool)
  (l : list A) (a : A) :
  Forall P l -> P a -> Forall P (map (fun x => if p x then a else x) l).
Proof.
  intros F H. apply Forall_map. eapply Forall_impl; [|exact F].
  intros x Hx. now destruct (p x).
Qed.

Ltac view_fails :=
  let W := fresh "W" in
  let S := fresh "S" in
  intros ? W S; eapply repopulating_ext; [exact W | exact S | assumption].

(** [_get_or_create_role] touches the roles only. *)
Lemma repopulating_get_or_create_role (role_name : pystr) (st : State) :
  repopulating pd st ->
  wp (_get_or_create_role faulty role_name)
    (fun _ => repopulating pd) (repopulating pd) st.
Proof.
  intros K. unfold _get_or_create_role.
  apply wp_bind, wpv_select; [view_fails|]. intros rows st1 R W S.
  apply (repopulating_ext _ W S) in K. clear R W S.
  apply wp_bind, wpv_scalar_one_or_none; [view_fails| |].
  - intros _. apply wpv_insert; [view_fails|].
    intros rows' st2 R W S. simpl in W.
    destruct K as (Kw & Kc & Ks). unfold repopulating. rewrite W, S.
    split; [exact Kw|]. split; [exact Kc | exact Ks].
  - intros r _. now apply wp_ret.
Qed.

(** A user that the lookup returns is a row of the table of users. *)
Lemma wpv_find_existing_user (user_data : UserData)
  (Q : option User -> State -> Prop) (E : State -> Prop) st :
  (forall st', working st' = working st ->
               import_stats st' = import_stats st -> E st') ->
  (forall o st', working st' = working st ->
                 import_stats st' = import_stats st ->
                 (forall u, o = Some u ->
                            In u (table_rows (users (working st)))) ->
                 Q o st') ->
  wp (_find_existing_user faulty user_data) Q E st.
Proof.
  intros HE HQ. unfold _find_existing_user.
  assert (forall p,
             wp (result <- execute faulty (select User_ p) ;;
                 scalar_one_or_none result) Q E st) as H.
  { intros p. apply wp_bind, wpv_select; [exact HE|].
    intros rows st1 R W S. simpl in R.
    apply wpv_scalar_one_or_none.
    - intros st2 W2 S2. apply HE; congruence.
    - intros F. apply HQ; auto. discriminate.
    - intros r F. apply HQ; auto. intros u [= <-].
      rewrite R. simpl. exact (filter_one_in _ _ F). }
  destruct (present _); [apply H|].
  destruct (present _); [apply H|].
  apply wp_ret. apply HQ; [reflexivity | reflexivity | discriminate].
Qed.

Lemma or_str_cases (a b : option pystr) : or_str a b = a \/ or_str a b = b.
Proof. unfold or_str. destruct (present a); auto. Qed.

Lemma repopulating_import_user (role_name : pystr) (role : Role)
  (user_data : UserData) (st : State) :
  In user_data (students pd ++ mentors pd) ->
  repopulating pd st ->
  wp (import_user faulty role_name role user_data)
    (fun _ => repopulating pd) (repopulating pd) st.
Proof.
  intros Hin K. unfold import_user.
  apply wp_bind, wpv_find_existing_user; [view_fails|].
  intros o st1 W S Ho.
  apply (repopulating_ext _ W S) in K. rewrite <- W in Ho. clear W S st.
  apply wp_bind.
  eapply wp_conseq with (Q := fun _ => repopulating pd)
                        (E := repopulating pd); [ | | auto].
  2: { clear dependent st1. intros user s K.
       apply wp_bind, wpv_select; [view_fails|]. intros rows st2 R W S.
       apply (repopulating_ext _ W S) in K. clear R W S s.
       apply wp_bind, wpv_scalar_one_or_none; [view_fails| |].
       - intros _. apply wp_bind.
         eapply wp_conseq with (Q := fun _ => repopulating pd)
                               (E := repopulating pd); [ | | auto].
         + destruct (falsy_id _); [|now apply wp_ret].
           apply wpv_insert_row; [view_fails|].
           intros rows' st3 R W S. simpl in W.
           destruct K as (Kw & Kc & Ks). unfold repopulating.
           rewrite W, S. split; [exact Kw|]. split; [exact Kc | exact Ks].
         + clear dependent st2. intros [] s K.
           apply wp_bind.
           eapply wp_conseq with (Q := fun _ => repopulating pd)
                                 (E := repopulating pd); [ | | auto].
           * destruct (u_github_url user) as [g|]; [|now apply wp_ret].
             destruct (truthy g); [|now apply wp_ret].
             unfold set_github. now apply wp_modify.
           * clear dependent s. intros [] s K.
             apply wp_bind.
             eapply wp_conseq with (Q := fun _ => repopulating pd)
                                   (E := repopulating pd); [ | | auto].
             -- destruct (u_telegram_username user) as [t|];
                  [|now apply wp_ret].
                destruct (truthy t); [|now apply wp_ret].
                unfold set_telegram. now apply wp_modify.
             -- clear dependent s. intros [] s K.
                apply repopulating_bump; [| | |exact K];
                  destruct (is_student role_name); discriminate.
       - intros l _. apply wp_bind.
         eapply wp_conseq with (Q := fun _ => repopulating pd)
                               (E := repopulating pd); [ | | auto].
         + destruct (falsy_id _); [|now apply wp_ret].
           apply wpv_insert_row; [view_fails|].
           intros rows' st3 R W S. simpl in W.
           destruct K as (Kw & Kc & Ks). unfold repopulating.
           rewrite W, S. split; [exact Kw|]. split; [exact Kc | exact Ks].
         + clear dependent st2. intros [] s K.
           apply wp_bind.
           eapply wp_conseq with (Q := fun _ => repopulating pd)
                                 (E := repopulating pd); [ | | auto].
           * destruct (u_github_url user) as [g|]; [|now apply wp_ret].
             destruct (truthy g); [|now apply wp_ret].
             unfold set_github. now apply wp_modify.
           * clear dependent s. intros [] s K.
             apply wp_bind.
             eapply wp_conseq with (Q := fun _ => repopulating pd)
                                   (E := repopulating pd); [ | | auto].
             -- destruct (u_telegram_username user) as [t|];
                  [|now apply wp_ret].
                destruct (truthy t); [|now apply wp_ret].
                unfold set_telegram. now apply wp_modify.
             -- clear dependent s. intros [] s K.
                apply repopulating_bump; [| | |exact K];
                  destruct (is_student role_name); discriminate. }
  pose proof K as ((Ku & Kw) & Kc & Ks).
  destruct o as [u|].
  - cbv zeta. apply wp_bind, wpv_update; [view_fails|].
    intros rows st2 R W S. simpl in R, W. apply wp_ret.
    unfold repopulating. rewrite W, S.
    split; [|split; [exact Kc | exact Ks]].
    apply written_users; [split; assumption|].
    rewrite R in Ku, Ho. simpl in Ku, Ho.
    apply Forall_replace; [exact Ku|].
    specialize (Ho u eq_refl). rewrite Forall_forall in Ku.
    destruct (Ku u Ho) as [Hn Hg]. split; [exact Hn|]. simpl.
    destruct (or_str_cases (ud_github_url user_data) (u_github_url u))
      as [-> | ->]; [now exists user_data | exact Hg].
  - apply wpv_insert; [view_fails|].
    intros rows st2 R W S. simpl in R, W.
    unfold repopulating. rewrite W, S.
    split; [|split; [exact Kc | exact Ks]].
    apply written_users; [split; assumption|].
    rewrite R in Ku. simpl in Ku.
    apply Forall_snoc; [exact Ku|].
    split; now exists user_data.
Qed.

Lemma repopulating_import_users (users_data : list UserData)
  (role_name : pystr) (st : State) :
  incl users_data (students pd ++ mentors pd) ->
  repopulating pd st ->
  wp (_import_users faulty users_data role_name)
    (fun _ => repopulating pd) (repopulating pd) st.
Proof.
  intros Hin K. unfold _import_users. apply wp_bind.
  eapply wp_conseq;
    [apply repopulating_get_or_create_role, K | | auto].
  intros role s K'. cbv beta.
  apply wp_for_each_in; [|exact K'].
  intros x s0 Hx K0. apply wp_try_catch.
  eapply wp_conseq;
    [apply repopulating_import_user; [now apply Hin | exact K0] | auto |].
  intros s1 K1 e.
  apply repopulating_bump; [| | |exact K1];
    destruct (is_student role_name); discriminate.
Qed.

Lemma repopulating_import_mentor_profile (mentor_data : UserData)
  (st : State) :
  In mentor_data (mentors pd) ->
  repopulating pd st ->
  wp (import_mentor_profile faulty mentor_data)
    (fun _ => repopulating pd) (repopulating pd) st.
Proof.
  intros Hin K. unfold import_mentor_profile.
  apply wp_bind, wp_gets. cbv beta.
  destruct (ud_telegram_username mentor_data) as [t|]; [|now apply wp_ret].
  destruct (if truthy t then _ else None) as [user_id|];
    [|now apply wp_ret].
  apply wp_bind, wpv_select; [view_fails|]. intros rows st1 R W S.
  cbv zeta. apply (repopulating_ext _ W S) in K. clear R W S.
  pose proof K as (Kw & Kc & Ks). pose proof Kw as (Ku & Km & _).
  assert (profile_from pd
            {| mp_user_id := user_id;
               mp_full_name := profile_field pd_full_name mentor_data;
               mp_languages := profile_field pd_languages mentor_data;
               mp_services := profile_field pd_services mentor_data;
               mp_price_type := profile_field pd_price_type mentor_data;
               mp_website_url := profile_field pd_website_url mentor_data |})
    as Hp by (exists mentor_data; repeat split; assumption).
  destruct (filter _ rows).
  - apply wpv_insert_row; [view_fails|].
    intros rows' st2 R' W S. simpl in R', W.
    unfold repopulating. rewrite W, S.
    split; [|split; [exact Kc | exact Ks]].
    apply written_profiles; [exact Kw|].
    rewrite R' in Km. now apply Forall_snoc.
  - apply wpv_update; [view_fails|].
    intros rows' st2 R' W S. simpl in R', W.
    unfold repopulating. rewrite W, S.
    split; [|split; [exact Kc | exact Ks]].
    apply written_profiles; [exact Kw|].
    rewrite R' in Km. now apply Forall_replace.
Qed.

Lemma repopulating_import_mentor_profiles (st : State) :
  repopulating pd st ->
  wp (_import_mentor_profiles faulty (mentors pd))
    (fun _ => repopulating pd) (repopulating pd) st.
Proof.
  intros K. unfold _import_mentor_profiles.
  apply wp_for_each_in; [|exact K].
  intros x s0 Hx K0. apply wp_try_catch.
  eapply wp_conseq;
    [now apply repopulating_import_mentor_profile | auto |].
  intros s1 K1 e. now apply repopulating_bump.
Qed.

Lemma sized_bump_projects (d : DB) (s : ImportStats) (rows : list Project)
  (p : Project) :
  complete s -> projects d = Some rows -> sized d s ->
  sized (set_projects (Some (rows ++ [p])) d) (incr projects_created s).
Proof.
  intros Hc R (S1 & S2 & S3). unfold sized. simpl.
  rewrite !stat_incr by assumption. rewrite R in S1. simpl in S1.
  rewrite length_app. cbn. repeat split; lia.
Qed.

Lemma sized_bump_reviews (d : DB) (s : ImportStats) (rows : list Review)
  (r : Review) :
  complete s -> reviews d = Some rows -> sized d s ->
  sized (set_reviews (Some (rows ++ [r])) d) (incr reviews_created s).
Proof.
  intros Hc R (S1 & S2 & S3). unfold sized. simpl.
  rewrite !stat_incr by assumption. rewrite R in S2. simpl in S2.
  rewrite length_app. cbn. repeat split; lia.
Qed.

Lemma sized_bump_sponsored (d : DB) (s : ImportStats)
  (rows : list SponsoredReview) (r : SponsoredReview) :
  complete s -> sponsored_reviews d = Some rows -> sized d s ->
  sized (set_sponsored_reviews (Some (rows ++ [r])) d)
    (incr sponsored_created s).
Proof.
  intros Hc R (S1 & S2 & S3). unfold sized. simpl.
  rewrite !stat_incr by assumption. rewrite R in S3. simpl in S3.
  rewrite length_app. cbn. repeat split; lia.
Qed.

Lemma repopulating_import_project (project_data : ProjectRecord)
  (st : State) :
  In project_data (projects_ pd) ->
  repopulating pd st ->
  wp (import_project faulty project_data)
    (fun _ => repopulating pd) (repopulating pd) st.
Proof.
  intros Hin K. unfold import_project. apply wp_bind, wp_gets.
  cbv beta zeta.
  destruct (if truthy _ then _ else None) as [student_id|];
    [|now apply repopulating_bump].
  apply wp_bind, wpv_insert; [view_fails|].
  intros rows st' R W S. simpl in R, W.
  apply wp_bind. unfold set_project_name. apply wp_modify.
  unfold bump. apply wp_modify.
  destruct K as (Kw & Kc & Ks). unfold repopulating. simpl.
  rewrite W, S.
  split; [|split; [now apply complete_incr|now apply sized_bump_projects]].
  apply written_projects; [exact Kw|].
  destruct Kw as (_ & _ & Kp & _). rewrite R in Kp.
  apply Forall_snoc; [exact Kp|].
  exists project_data. repeat split; assumption.
Qed.

Lemma repopulating_import_projects (st : State) :
  repopulating pd st ->
  wp (_import_projects faulty (projects_ pd))
    (fun _ => repopulating pd) (repopulating pd) st.
Proof.
  intros K. unfold _import_projects.
  apply wp_for_each_in; [|exact K].
  intros x s0 Hx K0. apply wp_try_catch.
  eapply wp_conseq; [now apply repopulating_import_project | auto |].
  intros s1 K1 e. now apply repopulating_bump.
Qed.

Lemma repopulating_import_review (review_data : ReviewData) (st : State) :
  In review_data (reviews_ pd) ->
  repopulating pd st ->
  wp (import_review faulty review_data)
    (fun _ => repopulating pd) (repopulating pd) st.
Proof.
  intros Hin K. unfold import_review.
  apply wp_bind, wp_gets. apply wp_bind, wp_gets. cbv beta zeta.
  destruct (lookup (telegram_to_user_id st) _) as [m|];
    [|now apply repopulating_bump].
  destruct (lookup (project_name_to_id st) _) as [p|];
    [|now apply repopulating_bump].
  destruct (m =? 0)%Z; [now apply repopulating_bump|].
  destruct (p =? 0)%Z; [now apply repopulating_bump|].
  apply wp_bind, wpv_insert; [view_fails|].
  intros rows st' R W S. simpl in R, W.
  unfold bump. apply wp_modify.
  destruct K as (Kw & Kc & Ks). unfold repopulating. simpl.
  rewrite W, S.
  split; [|split; [now apply complete_incr|now apply sized_bump_reviews]].
  apply written_reviews; [exact Kw|].
  destruct Kw as (_ & _ & _ & Kr & _). rewrite R in Kr.
  apply Forall_snoc; [exact Kr|].
  exists review_data. repeat split; assumption.
Qed.

Lemma repopulating_import_reviews (st : State) :
  repopulating pd st ->
  wp (_import_reviews faulty (reviews_ pd))
    (fun _ => repopulating pd) (repopulating pd) st.
Proof.
  intros K. unfold _import_reviews.
  apply wp_for_each_in; [|exact K].
  intros x s0 Hx K0. apply wp_try_catch.
  eapply wp_conseq; [now apply repopulating_import_review | auto |].
  intros s1 K1 e. now apply repopulating_bump.
Qed.

Lemma repopulating_import_sponsored_review
  (data : list SponsoredReviewRecord) (review_data : SponsoredReviewRecord)
  (st : State) :
  sponsored_reviews_ pd = Some data -> In review_data data ->
  repopulating pd st ->
  wp (import_sponsored_review faulty utcnow review_data)
    (fun _ => repopulating pd) (repopulating pd) st.
Proof.
  intros Hd Hin K. unfold import_sponsored_review. cbv zeta.
  apply wp_bind, wp_gets. cbv beta.
  destruct (if startswith _ _ then _ else None) as [mentor_id|];
    [|now apply repopulating_bump].
  destruct (mentor_id =? 0)%Z; [now apply repopulating_bump|].
  apply wp_bind, wpv_reads;
    [apply reads_find_project_by_github_url | view_fails |].
  intros o st1 W S. apply (repopulating_ext _ W S) in K. clear W S st.
  destruct o as [project_id|]; [|now apply repopulating_bump].
  destruct (project_id =? 0)%Z; [now apply repopulating_bump|].
  apply wp_bind, wpv_reads;
    [apply reads_find_review_by_url | view_fails |].
  intros o st2 W S. apply (repopulating_ext _ W S) in K. clear W S st1.
  apply wp_bind.
  eapply wp_conseq with (Q := fun _ => repopulating pd)
                        (E := repopulating pd); [ | | auto].
  - destruct (negb (falsy_id o)); [now apply wp_ret|].
    apply wp_bind, wpv_execute; [view_fails|].
    intros found w st3 X W S. unfold select in X. simpl in X.
    destruct (reviews (working st2)) as [rrows|]; [|discriminate].
    injection X as <- <-.
    apply (repopulating_ext _ W S) in K. clear W S.
    apply wp_bind, wpv_scalar_one_or_none; [view_fails| |].
    + intros _. now apply wp_ret.
    + intros r _. now apply wp_ret.
  - clear dependent st2. intros rid s K.
    apply wp_bind, wpv_insert; [view_fails|].
    intros rows st4 R W S. simpl in R, W.
    unfold bump. apply wp_modify.
    destruct K as (Kw & Kc & Ks). unfold repopulating. simpl.
    rewrite W, S.
    split;
      [|split; [now apply complete_incr|now apply sized_bump_sponsored]].
    apply written_sponsored; [exact Kw|].
    destruct Kw as (_ & _ & _ & _ & Kr). rewrite R in Kr.
    apply Forall_snoc; [exact Kr|].
    exists data, review_data. repeat split; assumption.
Qed.

Lemma repopulating_import_sponsored_reviews
  (data : list SponsoredReviewRecord) (st : State) :
  sponsored_reviews_ pd = Some data ->
  repopulating pd st ->
  wp (_import_sponsored_reviews faulty utcnow data)
    (fun _ => repopulating pd) (repopulating pd) st.
Proof.
  intros Hd K. unfold _import_sponsored_reviews. apply wp_bind.
  eapply wp_conseq with (Q := fun _ => repopulating pd)
                        (E := repopulating pd); [| |auto].
  - unfold sponsored_rows. apply wp_for_each_in; [|exact K].
    intros x s0 Hx K0. apply wp_try_catch.
    eapply wp_conseq;
      [now apply repopulating_import_sponsored_review with (data := data)
      | auto |].
    intros s1 K1 e. now apply wp_ret.
  - intros [] s1 K1. unfold wp. rewrite sponsored_report_char.
    destruct (length data);
      match goal with |- context [if ?b then _ else _] => destruct b end;
      exact K1.
Qed.

Variable enable_financial_import : bool.

(** The phases keep the invariant, whatever they end with. *)
Lemma phases_repopulate (st : State) :
  repopulating pd st ->
  wp (import_phases faulty enable_financial_import utcnow pd)
    (fun _ => repopulating pd) (repopulating pd) st.
Proof.
  intros K. unfold import_phases.
  apply wp_bind, wp_modify.
  apply wp_bind.
  eapply wp_conseq with (Q := fun _ => repopulating pd)
                        (E := repopulating pd); [ | | auto].
  { apply repopulating_import_users; [apply incl_appl, incl_refl|].
    exact K. }
  clear dependent st. intros [] st K. apply wp_bind.
  eapply wp_conseq with (Q := fun _ => repopulating pd)
                        (E := repopulating pd); [ | | auto].
  { apply repopulating_import_users; [apply incl_appr, incl_refl|].
    exact K. }
  clear dependent st. intros [] st K. apply wp_bind.
  eapply wp_conseq with (Q := fun _ => repopulating pd)
                        (E := repopulating pd); [ | | auto].
  { now apply repopulating_import_mentor_profiles. }
  clear dependent st. intros [] st K.
  apply wp_bind, wp_modify. apply wp_bind.
  eapply wp_conseq with (Q := fun _ => repopulating pd)
                        (E := repopulating pd); [ | | auto].
  { now apply repopulating_import_projects. }
  clear dependent st. intros [] st K. apply wp_bind.
  eapply wp_conseq with (Q := fun _ => repopulating pd)
                        (E := repopulating pd); [ | | auto].
  { now apply repopulating_import_reviews. }
  clear dependent st. intros [] st K.
  destruct (sponsored_reviews_ pd) as [sponsored|] eqn:Hd;
    [|now apply wp_ret].
  destruct enable_financial_import; [|now apply wp_ret].
  now apply repopulating_import_sponsored_reviews.
Qed.

End Repopulation.

Section Replacement.

Variable on_delete_cascade : bool.

(** The store without the rows of its owned tables holds nothing that the
    import has to answer for. *)
Lemma written_from_clear_owned (pd : ProcessedData) (d : DB) :
  written_from pd (clear_owned on_delete_cascade d).
Proof.
  unfold written_from, clear_owned, emptied. simpl.
  destruct (users d), (mentor_profiles d), (projects d), (reviews d),
    (sponsored_reviews d); simpl; repeat split; constructor.
Qed.

Lemma sized_clear_owned (d : DB) :
  sized (clear_owned on_delete_cascade d) zero_stats.
Proof.
  unfold sized, clear_owned, emptied. simpl.
  destruct (projects d), (reviews d), (sponsored_reviews d); simpl;
    repeat split; reflexivity.
Qed.

End Replacement.

(** C2, as amended: the import is atomic. While [_import_to_database]
    runs, readers see the snapshot that was committed before it, and after
    a commit the new one, never anything else. If the run ends with a
    fault, what is committed is what was committed before. If the run
    returns and the store has answered the statements of the clearing
    step (for each of the five tables the test of its existence and, when
    it exists, its [DELETE]), then the tables of users, mentor profiles,
    projects, reviews and sponsored reviews were emptied first while the
    roles stayed, the phases ran on the emptied store, what is committed
    is the view they left, every row of these five tables in the committed
    store was written from a record of the processed data, and the tables
    of projects, reviews and sponsored reviews hold as many rows as the
    returned statistics count as created. *)
Theorem C2_import_is_atomic
  (faulty : nat -> bool) (on_delete_cascade enable_financial_import : bool)
  (utcnow : pystr) (processed_data : ProcessedData) (st : State) :
  let '(res, st') :=
    _import_to_database faulty on_delete_cascade enable_financial_import
      utcnow processed_data st in
  (exists obs,
      observed st' = observed st ++ obs
      /\ Forall (fun d => d = committed st
                          \/ (d = committed st'
                              /\ exists stats, res = inr stats)) obs)
  /\ (forall e, res = inl e -> committed st' = committed st)
  /\ ((forall n, n < clearing_statements (committed st) ->
                 faulty (sent st + n) = false) ->
      forall stats, res = inr stats ->
      exists s1 s2,
        _clear_database faulty on_delete_cascade (begin_run st) = (inr tt, s1)
        /\ users (working s1) = option_map (fun _ => []) (users (committed st))
        /\ mentor_profiles (working s1)
           = option_map (fun _ => []) (mentor_profiles (committed st))
        /\ projects (working s1)
           = option_map (fun _ => []) (projects (committed st))
        /\ reviews (working s1)
           = option_map (fun _ => []) (reviews (committed st))
        /\ sponsored_reviews (working s1)
           = option_map (fun _ => []) (sponsored_reviews (committed st))
        /\ roles (working s1) = roles (committed st)
        /\ import_phases faulty enable_financial_import utcnow
             processed_data s1 = (inr tt, s2)
        /\ stats = import_stats s2
        /\ committed st' = working s2
        /\ written_from processed_data (committed st')
        /\ sized (committed st') stats).
Proof.
  unfold _import_to_database, with_session, open_session, close_session.
  unfold bind at 1. unfold modify at 1.
  unfold bind at 1. unfold modify at 1.
  change (set_working _ (set_locals _ _ _ zero_stats st)) with (begin_run st).
  unfold try_catch.
  match goal with
  | |- context [bind (_clear_database _ _) ?k (begin_run st)] =>
      destruct (bind (_clear_database faulty on_delete_cascade) k
                  (begin_run st)) as [r s] eqn:E
  end.
  assert (quiet st (begin_run st)) as Q0.
  { unfold begin_run.
    exact (quiet_trans (quiet_set_locals _ _ _ _ st)
             (quiet_set_working _ _)). }
  apply try_block_cases in E.
  destruct E as [(e & -> & Q & R)
                | (s1 & s2 & E1 & E2 & Q1 & Q2 & -> & C & O & R)].
  - (* the handler: rollback, then the fault again *)
    unfold bind.
    destruct (rollback faulty s) as [[e'|[]] s4] eqn:E4;
      destruct (@safe_rollback faulty _ _ _ E4) as [Q4 F4];
      pose proof (quiet_trans Q0 (quiet_trans Q Q4)) as QQ;
      unfold raise, modify; simpl;
      destruct QQ as (CC & (obs & OO & FF) & RR);
      (split; [|split]);
      try (exists obs; split; [exact OO|];
           eapply Forall_impl; [|exact FF]; intros d Hd; now left);
      try (intros _ _; exact CC);
      intros _ stats H; discriminate.
  - (* the commit *)
    unfold modify. simpl.
    pose proof (quiet_trans Q0 (quiet_trans Q1 Q2)) as QQ.
    destruct QQ as (CC & (obs & OO & FF) & RR).
    split; [|split].
    + exists (obs ++ [working s2]). split.
      * now rewrite O, OO, app_assoc.
      * apply Forall_app. split.
        -- eapply Forall_impl; [|exact FF]. intros d Hd. now left.
        -- constructor; [|constructor]. right. split; [now rewrite C|].
           now exists (import_stats s2).
    + discriminate.
    + intros Hf stats [= <-]. exists s1, s2.
      pose proof E1 as E1'. apply clear_database_clean in E1'; [|exact Hf].
      destruct E1' as (_ & W1 & S1 & _).
      change (working (begin_run st)) with (committed st) in W1.
      change (import_stats (begin_run st)) with zero_stats in S1.
      assert (repopulating processed_data s1) as K1.
      { unfold repopulating. rewrite W1, S1.
        split; [apply written_from_clear_owned|].
        split; [reflexivity | apply sized_clear_owned]. }
      pose proof (@phases_repopulate faulty utcnow processed_data
                    enable_financial_import s1 K1) as K2.
      unfold wp in K2. rewrite E2 in K2. destruct K2 as (Kw & _ & Ks).
      rewrite W1, C.
      split; [exact E1|]. do 6 (split; [reflexivity|]).
      split; [exact E2|]. do 2 (split; [reflexivity|]).
      split; [exact Kw | exact Ks].
Qed.

(** C2 on a store that holds an earlier snapshot and a run that meets no
    fault: the five tables hold the rows of the new student, mentor,
    profile, project, review and sponsored review, and none of the old
    ones. *)
Lemma C2_witness :
  let run := _import_to_database no_fault false true [] one_review
               (fresh old_store) in
  map (fun u => (u_id u, u_telegram_username u, u_github_url u))
    (table_rows (users (committed (snd run))))
  = [ (1%Z, None, Some (str "https://github.com/alice"));
      (2%Z, Some (str "bob"), None) ]
  /\ map (fun m => (mp_user_id m, mp_full_name m))
       (table_rows (mentor_profiles (committed (snd run))))
     = [ (2%Z, Some (str "Bob")) ]
  /\ map (fun p => (p_id p, p_name p, p_student_id p))
       (table_rows (projects (committed (snd run))))
     = [ (1%Z, str "proj1", 1%Z) ]
  /\ map (fun r => (r_id r, r_review_url r, r_project_id r, r_mentor_id r))
       (table_rows (reviews (committed (snd run))))
     = [ (1%Z, Some (str "https://t.me/c/1/10"), 1%Z, 2%Z) ]
  /\ map (fun s => (s_cost s, s_review_id s, s_project_id s, s_mentor_id s))
       (table_rows (sponsored_reviews (committed (snd run))))
     = [ (Some (PyFloat.of_Z 20), Some 1%Z, 1%Z, 2%Z) ]
  /\ map role_name (table_rows (roles (committed (snd run))))
     = [ str "STUDENT"; str "MENTOR" ]
  /\ match fst run with
     | inr stats =>
         written_from one_review (committed (snd run))
         /\ sized (committed (snd run)) stats
         /\ map (stat stats)
              [ students_created; mentors_created; projects_created;
                reviews_created; sponsored_created ]
            = [ 1; 1; 1; 1; 1 ]
     | inl _ => False
     end.
Proof.
  intros run.
  do 6 (split; [vm_compute; reflexivity|]).
  pose proof (C2_import_is_atomic no_fault false true [] one_review
                (fresh old_store)) as H.
  fold run in H. destruct run as [res st'] eqn:E.
  destruct H as (_ & _ & H).
  assert (exists stats, res = inr stats) as [stats ->].
  { unfold run in E. vm_compute in E. injection E as <- _. now eexists. }
  destruct (H (fun _ _ => eq_refl) stats eq_refl)
    as (s1 & s2 & _ & _ & _ & _ & _ & _ & _ & _ & _ & _ & Hw & Hs).
  simpl. split; [exact Hw|]. split; [exact Hs|].
  unfold run in E. vm_compute in E. injection E as <- _. reflexivity.
Defined.

(** C2, as the specification words it, fails: a fault on the [DELETE] of
    the projects is caught inside [_clear_database], the run goes on and
    commits, and the project of the old snapshot is committed beside the
    new one. *)
Lemma C2_swallowed_delete_counterexample :
  ~ (forall (faulty : nat -> bool)
            (on_delete_cascade enable_financial_import : bool)
            (utcnow : pystr) (processed_data : ProcessedData) (st : State)
            (stats : ImportStats),
        fst (_import_to_database faulty on_delete_cascade
               enable_financial_import utcnow processed_data st)
        = inr stats ->
        written_from processed_data
          (committed
             (snd (_import_to_database faulty on_delete_cascade
                     enable_financial_import utcnow processed_data st)))).
Proof.
  intros H.
  specialize (H (fun n => Nat.eqb n 7) false true [] one_review
                (fresh old_store)).
  destruct (_import_to_database (fun n => Nat.eqb n 7) false true []
              one_review (fresh old_store)) as [res st'] eqn:E.
  vm_compute in E. injection E as <- <-.
  specialize (H _ eq_refl). destruct H as (_ & _ & Hp & _).
  simpl in Hp. inversion Hp as [|p l Hold _]; subst.
  destruct Hold as (r & Hin & Hname & _).
  simpl in Hin. destruct Hin as [<- | []].
  vm_compute in Hname. discriminate.
Qed.

(** The same run, told by what it leaves: it returns its statistics, the
    table of projects holds the old project and the new one, and the old
    project now belongs to the new user who was given the key of its
    former author. *)
Lemma swallowed_delete_keeps_old_projects :
  let run := _import_to_database (fun n => Nat.eqb n 7) false true []
               one_review (fresh old_store) in
  (exists stats, fst run = inr stats)
  /\ map (fun p => (p_id p, p_name p, p_student_id p))
       (table_rows (projects (committed (snd run))))
     = [ (1%Z, str "old", 1%Z); (2%Z, str "proj1", 1%Z) ]
  /\ map (fun u => (u_id u, u_github_url u))
       (table_rows (users (committed (snd run))))
     = [ (1%Z, Some (str "https://github.com/alice")); (2%Z, None) ].
Proof.
  intros run. split; [eexists; vm_compute; reflexivity|].
  split; vm_compute; reflexivity.
Qed.
